(** * Verification model of the AML investigation pipeline

    Shallow embedding of [src/app/agents/production_workflow.py] (stages,
    routers, risk scoring, the workflow graph), of the pattern detectors in
    [src/app/agents/tools/production_analysis_tools.py] and of the per-case
    loop of [src/app/services/batch_processor.py].

    Conventions of the model:
    - Python floats used for amounts and scores are modelled as rationals [Q];
    - timestamps are modelled as already-parsed [Z] seconds;
    - the text returned by the language model is not embedded: each LLM
      stage receives the list of codes that its regular expression extracts
      from the answer, chosen by an environment quantified over;
    - string predicates ([in], [lower]) are written on ASCII strings. *)

From Stdlib Require Import String Ascii ZArith QArith Qminmax Lqa Lia Sorting.Sorted.
From stdpp Require Import base list gmap strings pretty.

Open Scope Z_scope.

(* ------------------------------------------------------------------ *)
(** ** Python string helpers *)

Module Py.

(** [sub in s] on strings. *)
Fixpoint contains (sub s : string) : bool :=
  if String.prefix sub s then true
  else match s with
       | EmptyString => false
       | String _ s' => contains sub s'
       end.

(** [c.lower()] on an ASCII character. *)
Definition lower_ascii (c : ascii) : ascii :=
  let n := Ascii.nat_of_ascii c in
  if (Nat.leb 65 n && Nat.leb n 90)%bool then Ascii.ascii_of_nat (n + 32) else c.

(** [s.lower()] on an ASCII string. *)
Fixpoint lower (s : string) : string :=
  match s with
  | EmptyString => EmptyString
  | String c s' => String (lower_ascii c) (lower s')
  end.

(** [x in xs] for a list of strings. *)
Definition mem (x : string) (xs : list string) : bool :=
  existsb (String.eqb x) xs.

(** [x < y] and [x <= y] on floats (rationals). *)
Definition qlt (x y : Q) : bool := negb (Qle_bool y x).
Definition qle (x y : Q) : bool := Qle_bool x y.

End Py.

(* ------------------------------------------------------------------ *)
(** ** Configuration constants (module top of production_workflow.py) *)

Definition HIGH_RISK_COUNTRIES : list string :=
  ["AF"; "IR"; "KP"; "SY"; "VE"; "CU"; "BY"; "MM"; "ZW"; "RU"]%string.
Definition TAX_HAVENS : list string :=
  ["KY"; "VG"; "BM"; "PA"; "MT"; "AE"; "LI"; "MC"; "AN"]%string.
Definition SANCTIONED_ENTITIES : list string :=
  ["narcotics_cartel_xyz"; "terror_group_abc"; "sanctioned_russian_bank";
   "hezbollah_front_company"; "isis_financial_network"]%string.
Definition DARKNET_MARKETS : list string :=
  ["AlphaMarket"; "Dark0d3"; "Hydra"; "Silk_Road_Reborn"; "Dream_Market"]%string.
Definition HIGH_RISK_BANKS : list string :=
  ["03208"; "03209"; "0211050"; "0245335"]%string.
Definition CTR_THRESHOLD : Q := 10000.

(* ------------------------------------------------------------------ *)
(** ** The state threaded through the workflow ([AMLState]) *)

(** [crypto_details] dict; absent keys take the defaults of the [.get]
    calls in [async_crypto_risk_analysis]. *)
Record crypto_info := mk_crypto {
  mixer_used : bool;
  darknet_market : option string;
  wallet_age_days : Z;
  cross_chain_swaps : Z
}.

(** A transaction dict as the stages read it.  Country fields are [""]
    when the key is absent or [None] (both are dropped by the geographic
    stage). *)
Record txn := mk_txn {
  tx_amount : Q;
  tx_asset_type : option string;
  tx_from_bank : option string;
  tx_to_bank : option string;
  tx_counterparty_id : string;
  tx_parties : list string;
  tx_origin_country : string;
  tx_destination_country : string;
  tx_country : string;
  tx_intermediate_countries : list string;
  tx_crypto_details : crypto_info;
  tx_timestamp : option Z
}.

(** An entry of [customer["transaction_history"]]. *)
Record hist_tx := mk_hist {
  h_amount : Q;
  h_timestamp : option Z
}.

(** The customer dict. *)
Record customer := mk_customer {
  c_name : string;
  c_account_age_days : option Z;
  c_transaction_history : list hist_tx
}.

(** The fields of [AMLState] read or written by the stages.  The
    [llm_analysis] narrative and the copies of geographic and crypto
    fields are written by stages but never read by a router or by the
    scorer; they are left out. *)
Record aml_state := mk_state {
  transaction : txn;
  cust : customer;
  risk_score : Z;
  alerts : list string;
  risk_factors : list string;
  decision_path : list string;
  pep_status : option bool;
  sanction_hits : list string;
  documents : list string;
  document_risks : list string;
  structuring_detected : bool;
  smurfing_detected : bool;
  reporting_status : option string;
  case_id : option string;
  sar_timestamp : option Z;
  review_status : option string;
  review_deadline : option Z
}.


(** Single-field updates, the model of [{**state, key: value}]. *)
Definition set_risk_score (v : Z) (s : aml_state) : aml_state :=
  mk_state (transaction s) (cust s) v (alerts s) (risk_factors s) (decision_path s) (pep_status s) (sanction_hits s) (documents s) (document_risks s) (structuring_detected s) (smurfing_detected s) (reporting_status s) (case_id s) (sar_timestamp s) (review_status s) (review_deadline s).
Definition set_alerts (v : list string) (s : aml_state) : aml_state :=
  mk_state (transaction s) (cust s) (risk_score s) v (risk_factors s) (decision_path s) (pep_status s) (sanction_hits s) (documents s) (document_risks s) (structuring_detected s) (smurfing_detected s) (reporting_status s) (case_id s) (sar_timestamp s) (review_status s) (review_deadline s).
Definition set_risk_factors (v : list string) (s : aml_state) : aml_state :=
  mk_state (transaction s) (cust s) (risk_score s) (alerts s) v (decision_path s) (pep_status s) (sanction_hits s) (documents s) (document_risks s) (structuring_detected s) (smurfing_detected s) (reporting_status s) (case_id s) (sar_timestamp s) (review_status s) (review_deadline s).
Definition set_decision_path (v : list string) (s : aml_state) : aml_state :=
  mk_state (transaction s) (cust s) (risk_score s) (alerts s) (risk_factors s) v (pep_status s) (sanction_hits s) (documents s) (document_risks s) (structuring_detected s) (smurfing_detected s) (reporting_status s) (case_id s) (sar_timestamp s) (review_status s) (review_deadline s).
Definition set_pep_status (v : option bool) (s : aml_state) : aml_state :=
  mk_state (transaction s) (cust s) (risk_score s) (alerts s) (risk_factors s) (decision_path s) v (sanction_hits s) (documents s) (document_risks s) (structuring_detected s) (smurfing_detected s) (reporting_status s) (case_id s) (sar_timestamp s) (review_status s) (review_deadline s).
Definition set_sanction_hits (v : list string) (s : aml_state) : aml_state :=
  mk_state (transaction s) (cust s) (risk_score s) (alerts s) (risk_factors s) (decision_path s) (pep_status s) v (documents s) (document_risks s) (structuring_detected s) (smurfing_detected s) (reporting_status s) (case_id s) (sar_timestamp s) (review_status s) (review_deadline s).
Definition set_document_risks (v : list string) (s : aml_state) : aml_state :=
  mk_state (transaction s) (cust s) (risk_score s) (alerts s) (risk_factors s) (decision_path s) (pep_status s) (sanction_hits s) (documents s) v (structuring_detected s) (smurfing_detected s) (reporting_status s) (case_id s) (sar_timestamp s) (review_status s) (review_deadline s).
Definition set_structuring_detected (v : bool) (s : aml_state) : aml_state :=
  mk_state (transaction s) (cust s) (risk_score s) (alerts s) (risk_factors s) (decision_path s) (pep_status s) (sanction_hits s) (documents s) (document_risks s) v (smurfing_detected s) (reporting_status s) (case_id s) (sar_timestamp s) (review_status s) (review_deadline s).
Definition set_smurfing_detected (v : bool) (s : aml_state) : aml_state :=
  mk_state (transaction s) (cust s) (risk_score s) (alerts s) (risk_factors s) (decision_path s) (pep_status s) (sanction_hits s) (documents s) (document_risks s) (structuring_detected s) v (reporting_status s) (case_id s) (sar_timestamp s) (review_status s) (review_deadline s).
Definition set_reporting_status (v : option string) (s : aml_state) : aml_state :=
  mk_state (transaction s) (cust s) (risk_score s) (alerts s) (risk_factors s) (decision_path s) (pep_status s) (sanction_hits s) (documents s) (document_risks s) (structuring_detected s) (smurfing_detected s) v (case_id s) (sar_timestamp s) (review_status s) (review_deadline s).
Definition set_case_id (v : option string) (s : aml_state) : aml_state :=
  mk_state (transaction s) (cust s) (risk_score s) (alerts s) (risk_factors s) (decision_path s) (pep_status s) (sanction_hits s) (documents s) (document_risks s) (structuring_detected s) (smurfing_detected s) (reporting_status s) v (sar_timestamp s) (review_status s) (review_deadline s).
Definition set_sar_timestamp (v : option Z) (s : aml_state) : aml_state :=
  mk_state (transaction s) (cust s) (risk_score s) (alerts s) (risk_factors s) (decision_path s) (pep_status s) (sanction_hits s) (documents s) (document_risks s) (structuring_detected s) (smurfing_detected s) (reporting_status s) (case_id s) v (review_status s) (review_deadline s).
Definition set_review_status (v : option string) (s : aml_state) : aml_state :=
  mk_state (transaction s) (cust s) (risk_score s) (alerts s) (risk_factors s) (decision_path s) (pep_status s) (sanction_hits s) (documents s) (document_risks s) (structuring_detected s) (smurfing_detected s) (reporting_status s) (case_id s) (sar_timestamp s) v (review_deadline s).
Definition set_review_deadline (v : option Z) (s : aml_state) : aml_state :=
  mk_state (transaction s) (cust s) (risk_score s) (alerts s) (risk_factors s) (decision_path s) (pep_status s) (sanction_hits s) (documents s) (document_risks s) (structuring_detected s) (smurfing_detected s) (reporting_status s) (case_id s) (sar_timestamp s) (review_status s) v.

(* ------------------------------------------------------------------ *)
(** ** [risk_scoring] *)

Definition count_factors (p : string -> bool) (rfs : list string) : Z :=
  Z.of_nat (length (filter (fun rf => p rf = true) rfs)).

(** The arithmetic of [risk_scoring] on a state, before [update_path]. *)
Definition risk_points (s : aml_state) : Z :=
  let score := 40 * Z.of_nat (length (sanction_hits s)) in
  let score := match pep_status s with Some true => score + 35 | _ => score end in
  let score := score + 25 * count_factors (Py.contains "CRYPTO") (risk_factors s) in
  let score := score + 20 * count_factors
                 (fun rf => Py.contains "HIGH_RISK" rf || Py.contains "TAX_HAVEN" rf)%bool
                 (risk_factors s) in
  let score := score + 15 * Z.of_nat (length (document_risks s)) in
  let score := score + 10 * Z.of_nat (length (alerts s)) in
  let score := if structuring_detected s then score + 30 else score in
  let score := if smurfing_detected s then score + 30 else score in
  score.

(** [update_path]: append the stage name to [decision_path]. *)
Definition update_path (s : aml_state) (step : string) : aml_state :=
  set_decision_path (decision_path s ++ [step]) s.

(** [risk_scoring]. *)
Definition risk_scoring (s : aml_state) : aml_state :=
  let s := update_path s "risk_scoring" in
  set_risk_score (Z.min (risk_points s) 100) s.

(* ------------------------------------------------------------------ *)
(** ** Structuring checks of [async_behavioral_analysis] *)

(** [(current_timestamp - tx_timestamp).days < 1]; [timedelta.days] is
    the floor of the difference in days. *)
Definition within_one_day (current t : Z) : bool :=
  Z.div (current - t) 86400 <? 1.

(** [recent_txs] as the list of amounts: the history entries inside the
    window (a missing timestamp defaults to the current one), then the
    current transaction. *)
Definition recent_amounts (current : Z) (history : list hist_tx) (cur_amount : Q)
  : list Q :=
  map h_amount
    (filter (fun h => within_one_day current (default current (h_timestamp h)) = true)
       history)
  ++ [cur_amount].

Definition qsum (xs : list Q) : Q := fold_right Qplus 0%Q xs.

(** [statistics.stdev(xs) < c] for [c >= 0] and at least two values, decided
    on the sample variance: [stdev < c] iff [variance < c * c]. *)
Definition sample_variance (xs : list Q) : Q :=
  let n := inject_Z (Z.of_nat (length xs)) in
  let mean := (qsum xs / n)%Q in
  (qsum (map (fun x => (x - mean) * (x - mean))%Q xs) / (n - 1))%Q.

Definition stdev_below (xs : list Q) (c : Q) : bool :=
  Py.qlt (sample_variance xs) (c * c)%Q.

(** The [structuring_alerts] list. *)
Definition structuring_alerts (recent : list Q) : list string :=
  (if (Nat.ltb 3 (length recent) && forallb (fun a => Py.qlt a CTR_THRESHOLD) recent)%bool
   then ["STRUCTURING_PATTERN"%string] else [])
  ++ (if (Nat.ltb 5 (length recent) && Nat.ltb 1 (length recent)
          && stdev_below recent 500)%bool
      then ["UNIFORM_TRANSACTIONS"%string] else []).

(* ------------------------------------------------------------------ *)
(** ** The stages of the workflow *)

Inductive node :=
  | initial_screening | crypto_analysis | geo_analysis | document_check
  | behavior_check | sanctions_check | pep_check | edd | score_risk
  | generate_sar | human_review.

#[global] Instance node_eq_dec : EqDecision node.
Proof. solve_decision. Defined.

(** What the stages receive from outside the state: the risk codes
    extracted from each LLM answer, [generate_case_id()] and
    [datetime.datetime.now()] at each stage. *)
Record env := mk_env {
  llm_codes : node -> list string;
  new_case_id : string;
  clock : node -> Z
}.

(** [async_crypto_risk_analysis]. *)
Definition crypto_risk_analysis (e : env) (s : aml_state) : aml_state :=
  let s := update_path s "crypto_analysis" in
  if negb (bool_decide (tx_asset_type (transaction s) = Some "CRYPTO"%string)) then s
  else
    let d := tx_crypto_details (transaction s) in
    let risks :=
      (if mixer_used d then ["CRYPTO_MIXER"%string] else [])
      ++ (match darknet_market d with
          | Some m => if Py.mem m DARKNET_MARKETS then ["DARKNET_CONNECTION"%string] else []
          | None => []
          end)
      ++ (if wallet_age_days d <? 7 then ["NEW_WALLET"%string] else [])
      ++ (if 3 <? cross_chain_swaps d then ["COMPLEX_ROUTING"%string] else [])
      ++ llm_codes e crypto_analysis in
    set_risk_factors (risk_factors s ++ risks) s.

(** The flags of one location in [geographic_risk_assessment]. *)
Definition country_flags (country : string) : list string :=
  (if Py.mem country HIGH_RISK_COUNTRIES then ["HIGH_RISK_" ++ country]%string else [])
  ++ (if Py.mem country TAX_HAVENS then ["TAX_HAVEN_" ++ country]%string else []).

(** [geographic_risk_assessment]. *)
Definition geographic_risk_assessment (s : aml_state) : aml_state :=
  let s := update_path s "geo_analysis" in
  let tx := transaction s in
  let locations :=
    [tx_origin_country tx; tx_destination_country tx; tx_country tx]
    ++ tx_intermediate_countries tx in
  let locations := filter (fun l => negb (String.eqb l "")) locations in
  set_risk_factors (risk_factors s ++ flat_map country_flags locations) s.

(** [async_document_analysis]. *)
Definition document_analysis (e : env) (s : aml_state) : aml_state :=
  let s := update_path s "document_analysis" in
  match documents s with
  | [] => set_alerts (alerts s ++ ["MISSING_DOCUMENTS"%string]) s
  | _ :: _ =>
      let codes := llm_codes e document_check in
      set_document_risks codes (set_risk_factors (risk_factors s ++ codes) s)
  end.

(** [async_behavioral_analysis]; the current transaction's timestamp
    defaults to [datetime.now()]. *)
Definition behavioral_analysis (e : env) (s : aml_state) : aml_state :=
  let s := update_path s "behavior_analysis" in
  let current := default (clock e behavior_check) (tx_timestamp (transaction s)) in
  let recent := recent_amounts current (c_transaction_history (cust s))
                  (tx_amount (transaction s)) in
  let sa := structuring_alerts recent in
  set_structuring_detected (Py.mem "STRUCTURING_PATTERN" sa)
    (set_risk_factors (risk_factors s ++ llm_codes e behavior_check)
       (set_alerts (alerts s ++ sa) s)).

(** [check_sanctions_list]. *)
Definition check_sanctions_list (entities : list string) : list string :=
  flat_map (fun entity =>
    flat_map (fun sanctioned =>
      if Py.contains (Py.lower sanctioned) (Py.lower entity) then [entity] else [])
      SANCTIONED_ENTITIES) entities.

(** [sanctions_screening], one call: the parties list is the transaction's
    [parties] extended by the customer name and the counterparty. *)
Definition sanctions_screening (s : aml_state) : aml_state :=
  let s := update_path s "sanctions_check" in
  let parties := tx_parties (transaction s)
                 ++ [c_name (cust s); tx_counterparty_id (transaction s)] in
  let hits := check_sanctions_list parties in
  set_risk_factors (risk_factors s ++ map (fun h => "SANCTION_HIT_" ++ h)%string hits)
    (set_sanction_hits hits s).

Definition pep_keywords : list string :=
  ["gov"; "minister"; "official"; "senator"; "president"; "director"; "ambassador"]%string.

(** [check_pep_database]. *)
Definition check_pep_database (name : string) : bool :=
  existsb (fun k => Py.contains k (Py.lower name)) pep_keywords.

(** [pep_screening], one call. *)
Definition pep_screening (s : aml_state) : aml_state :=
  let s := update_path s "pep_check" in
  let is_pep := check_pep_database (c_name (cust s)) in
  let rfs := if is_pep then risk_factors s ++ ["PEP_CUSTOMER"%string] else risk_factors s in
  set_risk_factors rfs (set_pep_status (Some is_pep) s).

(** [async_enhanced_due_diligence]. *)
Definition enhanced_due_diligence (e : env) (s : aml_state) : aml_state :=
  let s := update_path s "enhanced_dd" in
  set_risk_factors (risk_factors s ++ llm_codes e edd) s.

(** [async_generate_sar]. *)
Definition generate_sar_stage (e : env) (s : aml_state) : aml_state :=
  let s := update_path s "sar_generation" in
  set_sar_timestamp (Some (clock e generate_sar))
    (set_case_id (Some (new_case_id e))
       (set_reporting_status (Some "SAR_FILED"%string) s)).

(** [human_review]: the deadline is [now + timedelta(hours=24)]. *)
Definition human_review_stage (e : env) (s : aml_state) : aml_state :=
  let s := update_path s "human_review" in
  set_review_deadline (Some (clock e human_review + 86400))
    (set_review_status (Some "PENDING"%string)
       (set_reporting_status (Some "HUMAN_REVIEW"%string) s)).

(** The node functions registered in [_build_workflow]. *)
Definition exec_node (e : env) (n : node) (s : aml_state) : aml_state :=
  match n with
  | initial_screening => update_path s "start"
  | crypto_analysis => crypto_risk_analysis e s
  | geo_analysis => geographic_risk_assessment s
  | document_check => document_analysis e s
  | behavior_check => behavioral_analysis e s
  | sanctions_check => sanctions_screening s
  | pep_check => pep_screening s
  | edd => enhanced_due_diligence e s
  | score_risk => risk_scoring s
  | generate_sar => generate_sar_stage e s
  | human_review => human_review_stage e s
  end.

(* ------------------------------------------------------------------ *)
(** ** Conditional routing *)

(** The strings returned by the router functions. *)
Inductive label :=
  | CRYPTO_TRANSACTION | LARGE_TRANSACTION | NEW_ACCOUNT | HIGH_RISK_BANK
  | STANDARD_FLOW | HIGH_RISK_CRYPTO | NORMAL_CRYPTO | SANCTION_HIT | NO_HIT
  | PEP_FOUND | NO_PEP | HIGH_RISK | MEDIUM_RISK | LOW_RISK.

Definition opt_mem (x : option string) (xs : list string) : bool :=
  match x with Some v => Py.mem v xs | None => false end.

(** [route_initial_screening]; a missing [account_age_days] reads as 365. *)
Definition route_initial_screening (s : aml_state) : label :=
  let tx := transaction s in
  if bool_decide (tx_asset_type tx = Some "CRYPTO"%string) then CRYPTO_TRANSACTION
  else if Py.qlt 100000 (tx_amount tx) then LARGE_TRANSACTION
  else if default 365 (c_account_age_days (cust s)) <? 7 then NEW_ACCOUNT
  else if (opt_mem (tx_from_bank tx) HIGH_RISK_BANKS
           || opt_mem (tx_to_bank tx) HIGH_RISK_BANKS)%bool then HIGH_RISK_BANK
  else STANDARD_FLOW.

(** [route_crypto_analysis]. *)
Definition route_crypto_analysis (s : aml_state) : label :=
  if Nat.leb 2 (length (filter (fun rf => Py.contains "CRYPTO" rf = true) (risk_factors s)))
  then HIGH_RISK_CRYPTO else NORMAL_CRYPTO.

(** [route_sanctions_check]: a non-empty list is truthy. *)
Definition route_sanctions_check (s : aml_state) : label :=
  match sanction_hits s with [] => NO_HIT | _ :: _ => SANCTION_HIT end.

(** [route_pep_check]. *)
Definition route_pep_check (s : aml_state) : label :=
  match pep_status s with Some true => PEP_FOUND | _ => NO_PEP end.

(** [route_risk_score]. *)
Definition route_risk_score (s : aml_state) : label :=
  if 65 <=? risk_score s then HIGH_RISK
  else if 40 <=? risk_score s then MEDIUM_RISK
  else LOW_RISK.

(* ------------------------------------------------------------------ *)
(** ** The workflow graph ([ProductionAMLWorkflow._build_workflow]) *)

Inductive target := To (n : node) | END.

(** The path maps given to [add_conditional_edges]; a label missing from
    a map is [None]. *)
Definition initial_screening_map (l : label) : option target :=
  match l with
  | CRYPTO_TRANSACTION => Some (To crypto_analysis)
  | LARGE_TRANSACTION => Some (To geo_analysis)
  | NEW_ACCOUNT => Some (To edd)
  | HIGH_RISK_BANK => Some (To geo_analysis)
  | STANDARD_FLOW => Some (To document_check)
  | _ => None
  end.

Definition crypto_analysis_map (l : label) : option target :=
  match l with
  | HIGH_RISK_CRYPTO => Some (To edd)
  | NORMAL_CRYPTO => Some (To document_check)
  | _ => None
  end.

Definition sanctions_check_map (l : label) : option target :=
  match l with
  | SANCTION_HIT => Some (To generate_sar)
  | NO_HIT => Some (To pep_check)
  | _ => None
  end.

Definition pep_check_map (l : label) : option target :=
  match l with
  | PEP_FOUND => Some (To edd)
  | NO_PEP => Some (To score_risk)
  | _ => None
  end.

Definition score_risk_map (l : label) : option target :=
  match l with
  | HIGH_RISK => Some (To generate_sar)
  | MEDIUM_RISK => Some (To human_review)
  | LOW_RISK => Some END
  | _ => None
  end.

(** The outgoing edge of a node, taken on the state the node returned. *)
Definition next (n : node) (s : aml_state) : option target :=
  match n with
  | initial_screening => initial_screening_map (route_initial_screening s)
  | crypto_analysis => crypto_analysis_map (route_crypto_analysis s)
  | geo_analysis => Some (To document_check)
  | document_check => Some (To behavior_check)
  | behavior_check => Some (To sanctions_check)
  | sanctions_check => sanctions_check_map (route_sanctions_check s)
  | pep_check => pep_check_map (route_pep_check s)
  | edd => Some (To score_risk)
  | score_risk => score_risk_map (route_risk_score s)
  | generate_sar => Some END
  | human_review => Some END
  end.

(** Python exceptions, and a computation that returns or raises.
    [GraphRecursionError] is raised by a graph run that does not reach
    [END]. *)
Inductive py_exc := ValueError | TypeError | GraphRecursionError.

Inductive result (A : Type) := Ok (a : A) | Raise (e : py_exc).
Arguments Ok {A} a.
Arguments Raise {A} e.

Definition bind {A B} (r : result A) (k : A -> result B) : result B :=
  match r with Ok a => k a | Raise e => Raise e end.

(** Execution of the compiled graph from node [n]: run the node, then
    follow its edge.  [None] is a run that did not reach [END] (a label
    missing from a path map, or [fuel] exhausted). *)
Fixpoint run (e : env) (fuel : nat) (n : node) (s : aml_state) : option aml_state :=
  match fuel with
  | O => None
  | S f =>
      let s' := exec_node e n s in
      match next n s' with
      | Some END => Some s'
      | Some (To m) => run e f m s'
      | None => None
      end
  end.

(** The initial state built by [run_analysis]. *)
Definition initial_state (tx : txn) (c : customer) (docs : list string) : aml_state :=
  mk_state tx c 0 [] [] [] None [] docs [] false false None None None None None.

(** [workflow.invoke(initial_state, config)] on the graph of
    [_build_workflow], compiled with [checkpointer=MemorySaver()];
    [thread_id] is [config["configurable"]["thread_id"]] when the config
    gives one.  A checkpointed graph invoked without a [thread_id] raises
    [ValueError] before any node runs; otherwise the graph runs from
    [initial_screening] under the default recursion limit of 25
    super-steps. *)
Definition invoke (e : env) (thread_id : option string) (tx : txn) (c : customer)
    (docs : list string) : result aml_state :=
  match thread_id with
  | None => Raise ValueError
  | Some _ =>
      match run e 25 initial_screening (initial_state tx c docs) with
      | Some t => Ok t
      | None => Raise GraphRecursionError
      end
  end.

(** [run_analysis]: [workflow_instance.workflow.invoke(initial_state)],
    with no config. *)
Definition run_analysis (e : env) (tx : txn) (c : customer) (docs : list string)
  : result aml_state :=
  invoke e None tx c docs.

(** The name each node appends to [decision_path]. *)
Definition node_name (n : node) : string :=
  match n with
  | initial_screening => "start"
  | crypto_analysis => "crypto_analysis"
  | geo_analysis => "geo_analysis"
  | document_check => "document_analysis"
  | behavior_check => "behavior_analysis"
  | sanctions_check => "sanctions_check"
  | pep_check => "pep_check"
  | edd => "enhanced_dd"
  | score_risk => "risk_scoring"
  | generate_sar => "sar_generation"
  | human_review => "human_review"
  end.

(** A topological rank of the graph. *)
Definition rank (n : node) : nat :=
  match n with
  | initial_screening => 0 | crypto_analysis => 1 | geo_analysis => 2
  | document_check => 3 | behavior_check => 4 | sanctions_check => 5
  | pep_check => 6 | edd => 7 | score_risk => 8
  | generate_sar => 9 | human_review => 9
  end.

(** [analyze_transaction]: run the analysis and store the result in
    [INVESTIGATION_RESULTS] under its [case_id] when that is truthy.  An
    exception of [run_analysis] propagates and leaves the index as it was. *)
Definition analyze_transaction (e : env) (index : gmap string aml_state)
    (tx : txn) (c : customer) (docs : list string)
  : result aml_state * gmap string aml_state :=
  match run_analysis e tx c docs with
  | Raise x => (Raise x, index)
  | Ok r =>
      (Ok r, match case_id r with
             | Some k => if String.eqb k "" then index else <[k := r]> index
             | None => index
             end)
  end.

(** Successive calls of [analyze_transaction] sharing the global index, as
    in the loop of [analyze_batch]; the first exception ends the loop. *)
Fixpoint analyze_many (calls : list (env * txn * customer * list string))
    (index : gmap string aml_state) : result (list aml_state) * gmap string aml_state :=
  match calls with
  | [] => (Ok [], index)
  | (e, tx, c, docs) :: rest =>
      match analyze_transaction e index tx c docs with
      | (Raise x, index') => (Raise x, index')
      | (Ok r, index') =>
          match analyze_many rest index' with
          | (Raise x, index'') => (Raise x, index'')
          | (Ok rs, index'') => (Ok (r :: rs), index'')
          end
      end
  end.

(* ------------------------------------------------------------------ *)
(** ** [detect_smurfing_patterns] (production_analysis_tools.py) *)

(** A related transaction as the smurfing detector reads it:
    [transaction_date] is the sort key and [parsed_date] the result of
    [datetime.fromisoformat] on it in seconds ([None] when it raises). *)
Record smurf_tx := mk_stx {
  transaction_date : string;
  parsed_date : option Z;
  s_counterparty_id : option string;
  s_amount : Q
}.

(** Python string order, on ASCII. *)
Definition date_lt (a b : smurf_tx) : bool :=
  match String.compare (transaction_date a) (transaction_date b) with
  | Lt => true | _ => false
  end.

(** [sorted(transactions, key=transaction_date)]: a stable insertion sort. *)
Fixpoint insert_by_date (x : smurf_tx) (l : list smurf_tx) : list smurf_tx :=
  match l with
  | [] => [x]
  | y :: l' => if date_lt x y then x :: l else y :: insert_by_date x l'
  end.

Definition sort_by_date (l : list smurf_tx) : list smurf_tx :=
  fold_left (fun acc x => insert_by_date x acc) l [].

(** [_within_time_window]: [abs(total_seconds / 3600) <= hours], false when a
    date does not parse. *)
Definition within_time_window (tx1 tx2 : smurf_tx) (hours : Z) : bool :=
  match parsed_date tx1, parsed_date tx2 with
  | Some d1, Some d2 => Z.abs (d2 - d1) <=? hours * 3600
  | _, _ => false
  end.

(** The loop of [_group_by_time_window] once [current_group] is non-empty:
    [first] is [current_group[0]], [cur_rev] the group in reverse order. *)
Fixpoint group_loop (hours : Z) (first : smurf_tx) (cur_rev : list smurf_tx)
    (rest : list smurf_tx) : list (list smurf_tx) :=
  match rest with
  | [] => [rev cur_rev]
  | tx :: rest' =>
      if within_time_window first tx hours then group_loop hours first (tx :: cur_rev) rest'
      else rev cur_rev :: group_loop hours tx [tx] rest'
  end.

(** [_group_by_time_window]. *)
Definition group_by_time_window (txs : list smurf_tx) (hours : Z) : list (list smurf_tx) :=
  match sort_by_date txs with
  | [] => []
  | x :: rest => group_loop hours x [x] rest
  end.

Definition qlen (xs : list Q) : Q := inject_Z (Z.of_nat (length xs)).

(** [np.var]: population variance. *)
Definition pop_variance (xs : list Q) : Q :=
  let mean := (qsum xs / qlen xs)%Q in
  (qsum (map (fun x => (x - mean) * (x - mean))%Q xs) / qlen xs)%Q.

(** [_calculate_coordination_score]. *)
Definition coordination_score (g : list smurf_tx) : Q :=
  if Nat.ltb (length g) 2 then 0%Q
  else
    let unique_recipients := length (remove_dups (map s_counterparty_id g)) in
    let amounts := map s_amount g in
    let amount_variance := if Nat.ltb 1 (length amounts) then pop_variance amounts else 0%Q in
    let score := ((if Nat.eqb unique_recipients 1 then 1#2 else 0)
                  + (if Py.qlt amount_variance 1000 then 3#10 else 0)
                  + (if Nat.leb 3 (length g) then 1#5 else 0))%Q in
    Qmin 1 score.

(** [_calculate_smurfing_score] on the coordination scores of the
    coordinated groups. *)
Definition smurfing_score (scores : list Q) : Q :=
  match scores with
  | [] => 0%Q
  | _ :: _ =>
      ((qsum scores / qlen scores) * (7#10)
       + Qmin 1 (qlen scores / 3) * (3#10))%Q
  end.

(** The coordination scores of the groups kept by [detect_smurfing_patterns]
    ([min_coordinated_accounts = 3], kept when the score exceeds 0.6). *)
Definition coordinated_scores (groups : list (list smurf_tx)) : list Q :=
  flat_map (fun g =>
    if Nat.leb 3 (length g) then
      let c := coordination_score g in if Py.qlt (6#10) c then [c] else []
    else []) groups.

(** [detect_smurfing_patterns]: the [detected] flag and [smurfing_score]. *)
Definition detect_smurfing_patterns (related : list smurf_tx) (time_window_hours : Z)
  : bool * Q :=
  let sc := smurfing_score (coordinated_scores (group_by_time_window related time_window_hours)) in
  (Py.qlt (7#10) sc, sc).

(** Windows of at least three transactions to a single recipient: the
    only windows [detect_smurfing_patterns] can keep. *)
Definition one_recipient (g : list smurf_tx) : bool :=
  Nat.leb 3 (length g) && Nat.eqb (length (remove_dups (map s_counterparty_id g))) 1.

(** Consecutive groups: the first transaction of each group is outside the
    window of the first transaction of the group before it. *)
Fixpoint heads_apart (hours : Z) (gs : list (list smurf_tx)) : Prop :=
  match gs with
  | g1 :: ((g2 :: _) as rest) =>
      match head g1, head g2 with
      | Some a, Some b => within_time_window a b hours = false
      | _, _ => False
      end /\ heads_apart hours rest
  | _ => True
  end.

(* ------------------------------------------------------------------ *)
(** ** [unify_transaction_data] *)

(** Python values of a raw record.  [PyFmt p v] is the text [p + str(v)]
    for a value [v] that is not a string (the text of [str] on numbers and
    containers is not embedded). *)
#[local] Set Warnings "-register-all".
Inductive pyval :=
  | PyNone
  | PyBool (b : bool)
  | PyInt (z : Z)
  | PyFloat (q : Q)
  | PyStr (s : string)
  | PyList (l : list pyval)
  | PyFmt (prefix : string) (v : pyval).

(** A dict with string keys, as an association list. *)
Definition dict := list (string * pyval).

Definition has_key (k : string) (d : dict) : bool :=
  existsb (fun kv => String.eqb (fst kv) k) d.

(** [d.get(k, default)]. *)
Definition py_get (d : dict) (k : string) (default : pyval) : pyval :=
  match find (fun kv => String.eqb (fst kv) k) d with
  | Some kv => snd kv
  | None => default
  end.

(** [prefix + str(v)]. *)
Definition py_fmt (prefix : string) (v : pyval) : pyval :=
  match v with
  | PyStr s => PyStr (prefix ++ s)
  | _ => PyFmt prefix v
  end.

Definition digit_val (c : ascii) : option Z :=
  let n := Z.of_nat (nat_of_ascii c) in
  if (48 <=? n) && (n <=? 57) then Some (n - 48) else None.

(** Digits of a string, most significant first: value and count. *)
Fixpoint parse_digits (s : string) (acc : Z) (cnt : nat) : option (Z * nat * string) :=
  match s with
  | String c s' =>
      match digit_val c with
      | Some d => parse_digits s' (10 * acc + d) (S cnt)
      | None => Some (acc, cnt, s)
      end
  | EmptyString => Some (acc, cnt, EmptyString)
  end.

Definition parse_sign (s : string) : Z * string :=
  match s with
  | String "-"%char s' => (-1, s')
  | String "+"%char s' => (1, s')
  | _ => (1, s)
  end.

(** Decimal text [[+-]digits[.digits]] as accepted by [float()]; exponent,
    [inf]/[nan], underscores and surrounding blanks are not embedded. *)
Definition parse_decimal (s : string) : option Q :=
  let '(sg, s1) := parse_sign s in
  match parse_digits s1 0 0 with
  | Some (ip, n1, EmptyString) =>
      if Nat.eqb n1 0 then None else Some (inject_Z (sg * ip))
  | Some (ip, n1, String "."%char s2) =>
      match parse_digits s2 0 0 with
      | Some (fp, n2, EmptyString) =>
          if Nat.eqb (n1 + n2) 0 then None
          else Some (inject_Z sg * (inject_Z ip + inject_Z fp / inject_Z (10 ^ Z.of_nat n2)))%Q
      | _ => None
      end
  | _ => None
  end.

(** Integer text [[+-]digits] as accepted by [int()]. *)
Definition parse_integer (s : string) : option Z :=
  let '(sg, s1) := parse_sign s in
  match parse_digits s1 0 0 with
  | Some (v, n, EmptyString) => if Nat.eqb n 0 then None else Some (sg * v)
  | _ => None
  end.

(** [float(v)].  A string is read by [parse_decimal] as a plain decimal
    [[+-]digits[.digits]]; the other spellings [float()] accepts (an
    exponent, surrounding blanks, underscores between digits, inf and nan)
    are not embedded and raise here. *)
Definition py_float (v : pyval) : result Q :=
  match v with
  | PyBool b => Ok (if b then 1 else 0)%Q
  | PyInt z => Ok (inject_Z z)
  | PyFloat q => Ok q
  | PyStr s => match parse_decimal s with Some q => Ok q | None => Raise ValueError end
  | PyFmt _ _ => Raise ValueError
  | PyNone | PyList _ => Raise TypeError
  end.



(** [int(v)]: floats are truncated toward zero. *)
Definition py_int (v : pyval) : result Z :=
  match v with
  | PyBool b => Ok (if b then 1 else 0)
  | PyInt z => Ok z
  | PyFloat q => Ok (Z.quot (Qnum q) (Zpos (Qden q)))
  | PyStr s => match parse_integer s with Some z => Ok z | None => Raise ValueError end
  | PyFmt _ _ => Raise ValueError
  | PyNone | PyList _ => Raise TypeError
  end.

(** [unify_transaction_data]: the dict literal's values are evaluated in
    order, so the first failing conversion raises. *)
Definition unify_transaction_data (t : dict) : result dict :=
  if has_key "From Bank" t then
    bind (py_float (py_get t "Amount Received" (PyInt 0))) (fun amount =>
    bind (py_int (py_get t "Is Laundering" (PyInt 0))) (fun label =>
    Ok [("transaction_id", py_fmt "HI_" (py_get t "Account" (PyStr "unknown")));
        ("customer_id", py_get t "Account" (PyStr "unknown"));
        ("counterparty_id", py_get t "To Bank" (PyStr "unknown"));
        ("amount", PyFloat amount);
        ("currency", py_get t "Receiving Currency" (PyStr "USD"));
        ("transaction_type", py_get t "Payment Format" (PyStr "unknown"));
        ("transaction_date", py_get t "Timestamp" (PyStr ""));
        ("location", PyStr "Unknown");
        ("country", PyStr "Unknown");
        ("description", PyStr "HI-Small_Trans transaction");
        ("status", PyStr "completed");
        ("from_bank", py_get t "From Bank" PyNone);
        ("to_bank", py_get t "To Bank" PyNone);
        ("payment_format", py_get t "Payment Format" PyNone);
        ("ground_truth_label", PyInt label)]%string))
  else if has_key "transaction_id" t then
    bind (py_float (py_get t "amount" (PyInt 0))) (fun amount =>
    Ok [("transaction_id", py_get t "transaction_id" PyNone);
        ("customer_id", py_get t "customer_id" (PyStr "unknown"));
        ("counterparty_id", py_get t "counterparty_id" PyNone);
        ("amount", PyFloat amount);
        ("currency", py_get t "currency" (PyStr "USD"));
        ("transaction_type", py_get t "transaction_type" (PyStr "unknown"));
        ("transaction_date", py_get t "transaction_date" (PyStr ""));
        ("location", py_get t "location" (PyStr "Unknown"));
        ("country", py_get t "country" (PyStr "Unknown"));
        ("description", py_get t "description" (PyStr ""));
        ("status", py_get t "status" (PyStr "completed"));
        ("asset_type", py_get t "asset_type" (PyStr "FIAT"));
        ("crypto_details", py_get t "crypto_details" PyNone);
        ("origin_country", py_get t "origin_country" PyNone);
        ("destination_country", py_get t "destination_country" PyNone);
        ("intermediate_countries", py_get t "intermediate_countries" (PyList []));
        ("documents", py_get t "documents" (PyList []))]%string)
  else if has_key "SENDER_ACCOUNT_ID" t then
    let transaction_id := py_fmt "" (py_get t "transaction_id" (PyStr "unknown")) in
    bind (py_float (py_get t "amount" (PyInt 0))) (fun amount =>
    bind (py_int (py_get t "IS_FRAUD" (PyInt 0))) (fun label =>
    Ok [("transaction_id", transaction_id);
        ("customer_id", py_get t "SENDER_ACCOUNT_ID" (PyStr "unknown"));
        ("counterparty_id", py_get t "RECEIVER_ACCOUNT_ID" (PyStr "unknown"));
        ("amount", PyFloat amount);
        ("currency", PyStr "USD");
        ("transaction_type", py_get t "TX_TYPE" (PyStr "unknown"));
        ("transaction_date", py_fmt "" (py_get t "TIMESTAMP" (PyStr "")));
        ("location", PyStr "Unknown");
        ("country", PyStr "Unknown");
        ("description", PyStr "Fraud detection transaction");
        ("status", PyStr "completed");
        ("ground_truth_label", PyInt label)]%string))
  else Ok [].

(* ------------------------------------------------------------------ *)
(** ** [AMLBatchProcessor._process_hi_trans_batch] (batch_processor.py) *)

(** The result dict of one investigation, keys read by the processor. *)
Record inv_result := mk_result {
  r_risk_level : option string;
  r_reporting_status : option string;
  r_approval_status : option string;
  r_ground_truth : option Z;
  r_prediction : option Z
}.

(** [self.processing_stats]. *)
Record stats := mk_stats {
  total_processed : nat;
  escalated_cases : nat;
  sar_cases : nat;
  pending_approvals : nat;
  errors : nat
}.

Definition is_high_level (lvl : option string) : bool :=
  match lvl with
  | Some l => Py.mem l ["High"; "Critical"]%string
  | None => false
  end.

(** [_update_stats]; a missing [risk_level] reads as ["Low"]. *)
Definition update_stats (r : inv_result) (st : stats) : stats :=
  mk_stats (S (total_processed st))
    (if is_high_level (r_risk_level r) then S (escalated_cases st) else escalated_cases st)
    (if bool_decide (r_reporting_status r = Some "SAR_FILED"%string)
     then S (sar_cases st) else sar_cases st)
    (if bool_decide (r_approval_status r = Some "pending"%string)
     then S (pending_approvals st) else pending_approvals st)
    (errors st).

Definition with_errors (n : nat) (st : stats) : stats :=
  mk_stats (total_processed st) (escalated_cases st) (sar_cases st) (pending_approvals st) n.

(** The two keys set on a result after [run_aml_investigation]. *)
Definition label_result (ground_truth : Z) (r : inv_result) : inv_result :=
  mk_result (r_risk_level r) (r_reporting_status r) (r_approval_status r)
    (Some ground_truth) (Some (if is_high_level (r_risk_level r) then 1 else 0)).

Section Batch.
(** [row] is a row of the batch; [investigate row] is the result dict of
    [run_aml_investigation], or [None] when a statement of the [try] body
    before [_update_stats] raises ([make_txn_event],
    [run_aml_investigation], the two key assignments); [laundering row] is
    [row.get("Is Laundering", 0)]. *)
Context {row : Type} (investigate : row -> option inv_result) (laundering : row -> Z).

(** The loop of [_process_hi_trans_batch]: returns [results] and the
    updated [processing_stats]. *)
Fixpoint process_rows (rows : list row) (results : list inv_result) (st : stats)
  : list inv_result * stats :=
  match rows with
  | [] => (results, st)
  | r :: rest =>
      match investigate r with
      | None => process_rows rest results (with_errors (S (errors st)) st)
      | Some res =>
          let res := label_result (laundering r) res in
          process_rows rest (results ++ [res]) (update_stats res st)
      end
  end.

(** The successful rows' results, in order. *)
Definition successes (rows : list row) : list inv_result :=
  omap (fun r => label_result (laundering r) <$> investigate r) rows.

Definition failures (rows : list row) : nat :=
  length (filter (fun r => investigate r = None) rows).
End Batch.

(** The metrics returned by [calculate_accuracy_metrics]. *)
Record metrics := mk_metrics {
  m_accuracy : Q; m_precision : Q; m_recall : Q; m_f1_score : Q;
  m_true_positives : nat; m_false_positives : nat;
  m_true_negatives : nat; m_false_negatives : nat; m_total_samples : nat
}.

Definition count_pairs (p : Z * Z -> bool) (xs : list (Z * Z)) : nat :=
  length (filter (fun x => p x = true) xs).

Definition qdiv_or_zero (a b : Q) : Q := if Qeq_bool b 0 then 0%Q else (a / b)%Q.

(** [calculate_accuracy_metrics]; [None] is the empty dict returned when no
    result carries ground truth. *)
Definition calculate_accuracy_metrics (results : list inv_result) : option metrics :=
  let valid := omap (fun r => match r_prediction r, r_ground_truth r with
                              | Some p, Some g => Some (p, g)
                              | _, _ => None
                              end) results in
  match valid with
  | [] => None
  | _ :: _ =>
      let tp := count_pairs (fun '(p, g) => (p =? 1) && (g =? 1)) valid in
      let fp := count_pairs (fun '(p, g) => (p =? 1) && (g =? 0)) valid in
      let tn := count_pairs (fun '(p, g) => (p =? 0) && (g =? 0)) valid in
      let fn := count_pairs (fun '(p, g) => (p =? 0) && (g =? 1)) valid in
      let qn (n : nat) := inject_Z (Z.of_nat n) in
      let precision := qdiv_or_zero (qn tp) (qn tp + qn fp) in
      let recall := qdiv_or_zero (qn tp) (qn tp + qn fn) in
      let f1 := qdiv_or_zero (2 * (precision * recall)) (precision + recall) in
      let accuracy := ((qn tp + qn tn) / qn (length valid))%Q in
      Some (mk_metrics accuracy precision recall f1 tp fp tn fn (length valid))
  end.

(* ------------------------------------------------------------------ *)
(** ** [sanctions_screening] and [pep_screening] with shared lists *)

(** Python lists live in a heap: [update_path] copies the state dict
    shallowly, so the stage's state shares its lists and its [transaction]
    dict with the input state. *)
Module Heap.

Record heap := mk_heap { next_loc : nat; cells : gmap nat (list string) }.

Definition deref (h : heap) (p : nat) : list string := default [] (cells h !! p).

Definition alloc (h : heap) (l : list string) : nat * heap :=
  (next_loc h, mk_heap (S (next_loc h)) (<[next_loc h := l]> (cells h))).

(** [lst.append(x)] in place. *)
Definition append (h : heap) (p : nat) (x : string) : heap :=
  mk_heap (next_loc h) (<[p := deref h p ++ [x]]> (cells h)).

(** The state: list fields are references; [parties] is the reference
    stored under the transaction's ["parties"] key, if any. *)
Record hstate := mk_hstate {
  parties : option nat;
  counterparty_id : string;
  customer_name : string;
  decision_path : nat;
  risk_factors : nat;
  sanction_hits : nat;
  pep_status : option bool
}.

Definition update_path (h : heap) (s : hstate) (step : string) : heap * hstate :=
  let '(p, h) := alloc h (deref h (decision_path s) ++ [step]) in
  (h, mk_hstate (parties s) (counterparty_id s) (customer_name s) p
        (risk_factors s) (sanction_hits s) (pep_status s)).

(** [sanctions_screening]: [parties] is the transaction's own list when the
    key is present, a fresh [[]] otherwise; two appends follow. *)
Definition sanctions_screening (h : heap) (s : hstate) : heap * hstate :=
  let '(h, s) := update_path h s "sanctions_check" in
  let '(pl, h) := match parties s with Some p => (p, h) | None => alloc h [] end in
  let h := append h pl (customer_name s) in
  let h := append h pl (counterparty_id s) in
  let hits := check_sanctions_list (deref h pl) in
  let '(ph, h) := alloc h hits in
  let '(pr, h) := alloc h (deref h (risk_factors s)
                           ++ map (fun x => "SANCTION_HIT_" ++ x)%string hits) in
  (h, mk_hstate (parties s) (counterparty_id s) (customer_name s)
        (decision_path s) pr ph (pep_status s)).

(** [pep_screening]: [risk_factors] is the state's own list. *)
Definition pep_screening (h : heap) (s : hstate) : heap * hstate :=
  let '(h, s) := update_path h s "pep_check" in
  let is_pep := check_pep_database (customer_name s) in
  let h := if is_pep then append h (risk_factors s) "PEP_CUSTOMER" else h in
  (h, mk_hstate (parties s) (counterparty_id s) (customer_name s)
        (decision_path s) (risk_factors s) (sanction_hits s) (Some is_pep)).

(** The value a state denotes in a heap: the contents of its lists. *)
Definition view (h : heap) (s : hstate)
  : option (list string) * list string * list string * list string * option bool :=
  (deref h <$> parties s, deref h (decision_path s), deref h (risk_factors s),
   deref h (sanction_hits s), pep_status s).

(** Two calls of a stage on the same input state: the views of both
    results and of the input before and after. *)
Definition twice (stage : heap -> hstate -> heap * hstate) (h : heap) (s : hstate) :=
  let '(h1, s1) := stage h s in
  let '(h2, s2) := stage h1 s in
  (view h1 s1, view h2 s2, view h s, view h1 s).

End Heap.

(* ------------------------------------------------------------------ *)
(** ** Concrete inputs *)

(** Analysers that return no code, an empty case id, a clock at 0. *)
Definition env0 : env := mk_env (fun _ => []) "" (fun _ => 0).

Definition no_crypto : crypto_info := mk_crypto false None 0 0.

(** A fiat transaction of 500 from the flagged bank 03208, by a customer
    whose account is 3 days old. *)
Definition c3_tx : txn :=
  mk_txn 500 (Some "FIAT"%string) (Some "03208"%string) None "acct_2"%string []
    "" "" "" [] no_crypto None.

Definition c3_state : aml_state := initial_state c3_tx (mk_customer "Alice" (Some 3) []) [].

(** A transaction of 100 at time 0 with three earlier transactions of 100
    at the same time. *)
Definition c5_state : aml_state :=
  initial_state (mk_txn 100 (Some "FIAT"%string) None None "acct_2"%string []
                   "" "" "" [] no_crypto (Some 0))
    (mk_customer "Alice" (Some 30) [mk_hist 100 (Some 0); mk_hist 100 (Some 0); mk_hist 100 (Some 0)])
    [].

(** Three transfers of 5,000 to one account, 20 hours apart. *)
Definition c6_related : list smurf_tx :=
  [mk_stx "2024-01-01T00:00:00" (Some 0) (Some "acct_9"%string) 5000;
   mk_stx "2024-01-01T20:00:00" (Some 72000) (Some "acct_9"%string) 5000;
   mk_stx "2024-01-02T16:00:00" (Some 144000) (Some "acct_9"%string) 5000].

(** A raw record with none of the sentinel keys. *)
Definition c7_record : dict := [("amount"%string, PyInt 5000)].

(** Rows 0, 1, 2 of a batch; the investigation of row 1 raises. *)
Definition c8_investigate (n : nat) : option inv_result :=
  if Nat.eqb n 1 then None
  else Some (mk_result (Some "High"%string) (Some "SAR_FILED"%string) None None None).

(** A heap holding the transaction's [parties] list (0), [decision_path]
    (1), [risk_factors] (2) and [sanction_hits] (3), all empty. *)
Definition c9_heap : Heap.heap :=
  Heap.mk_heap 4 (<[0%nat := []]> (<[1%nat := []]> (<[2%nat := []]> (<[3%nat := []]> ∅)))).

Definition c9_state (name : string) : Heap.hstate :=
  Heap.mk_hstate (Some 0%nat) "acct_9" name 1 2 3 None.

(* ------------------------------------------------------------------ *)
(** ** Statements following the specification's words *)

(** C1: the weighted sum as the specification writes it. *)
Definition spec_risk_sum (s : aml_state) : Z :=
  40 * Z.of_nat (length (sanction_hits s))
  + 35 * (match pep_status s with Some true => 1 | _ => 0 end)
  + 25 * count_factors (Py.contains "CRYPTO") (risk_factors s)
  + 20 * count_factors (fun rf => Py.contains "HIGH_RISK" rf || Py.contains "TAX_HAVEN" rf)%bool
           (risk_factors s)
  + 15 * Z.of_nat (length (document_risks s))
  + 10 * Z.of_nat (length (alerts s))
  + 30 * (if structuring_detected s then 1 else 0)
  + 30 * (if smurfing_detected s then 1 else 0).

(** C3: the successor of [initial_screening] in the specification's order
    (flagged bank checked before the account age). *)
Definition spec_initial_successor (s : aml_state) : node :=
  let tx := transaction s in
  if bool_decide (tx_asset_type tx = Some "CRYPTO"%string) then crypto_analysis
  else if (Py.qlt 100000 (tx_amount tx)
           || opt_mem (tx_from_bank tx) HIGH_RISK_BANKS
           || opt_mem (tx_to_bank tx) HIGH_RISK_BANKS)%bool then geo_analysis
  else if default 365 (c_account_age_days (cust s)) <? 7 then edd
  else document_check.

(** C3 as amended: the order of [route_initial_screening]. *)
Definition amended_initial_successor (s : aml_state) : node :=
  let tx := transaction s in
  if bool_decide (tx_asset_type tx = Some "CRYPTO"%string) then crypto_analysis
  else if Py.qlt 100000 (tx_amount tx) then geo_analysis
  else if default 365 (c_account_age_days (cust s)) <? 7 then edd
  else if (opt_mem (tx_from_bank tx) HIGH_RISK_BANKS
           || opt_mem (tx_to_bank tx) HIGH_RISK_BANKS)%bool then geo_analysis
  else document_check.

(** C5: the specification's STRUCTURING_PATTERN flag: more than 3
    window amounts in [[0.95 * 10000, 10000)]. *)
Definition spec_structuring_flag (recent : list Q) : bool :=
  Nat.ltb 3 (length (filter (fun a => Py.qle ((95 # 100) * CTR_THRESHOLD)%Q a
                                       && Py.qlt a CTR_THRESHOLD)%bool recent)).

(** C6: the specification's windows, chained by the gap between
    consecutive transactions. *)
Fixpoint spec_gap_loop (hours : Z) (prev : smurf_tx) (cur_rev : list smurf_tx)
    (rest : list smurf_tx) : list (list smurf_tx) :=
  match rest with
  | [] => [rev cur_rev]
  | tx :: rest' =>
      if within_time_window prev tx hours then spec_gap_loop hours tx (tx :: cur_rev) rest'
      else rev cur_rev :: spec_gap_loop hours tx [tx] rest'
  end.

Definition spec_smurfing_detected (related : list smurf_tx) : bool :=
  let groups := match sort_by_date related with
                | [] => []
                | x :: rest => spec_gap_loop 24 x [x] rest
                end in
  Py.qlt (7#10) (smurfing_score (coordinated_scores groups)).

(** Case-id / reporting-status consistency of a returned state. *)
Definition reporting_consistent (r : aml_state) : Prop :=
  (case_id r <> None <-> reporting_status r = Some "SAR_FILED"%string).

(** The three dispositions a run can end in. *)
Definition terminal_ok (e : env) (t : aml_state) : Prop :=
  (case_id t = None /\ reporting_status t = None)
  \/ (case_id t = Some (new_case_id e) /\ reporting_status t = Some "SAR_FILED"%string)
  \/ (case_id t = None /\ reporting_status t = Some "HUMAN_REVIEW"%string
      /\ review_deadline t = Some (clock e human_review + 86400)).

(** Every entry of [INVESTIGATION_RESULTS] is a filed SAR stored under its own case id. *)
Definition index_ok (index : gmap string aml_state) : Prop :=
  map_Forall (fun k v => reporting_status v = Some "SAR_FILED"%string /\ case_id v = Some k) index.

(** A group of [group_by_time_window] whose members all lie in the window of its head. *)
Definition anchored (hours : Z) (g : list smurf_tx) : Prop :=
  exists x rest, g = x :: rest /\ Forall (fun y => within_time_window x y hours = true) rest.

(* ------------------------------------------------------------------ *)
(** ** Reporting of production_workflow.py *)

(** [_determine_risk_level] of production_workflow.py. *)
Definition determine_risk_level (score : Z) : string :=
  if 80 <=? score then "CRITICAL"
  else if 65 <=? score then "HIGH"
  else if 40 <=? score then "MEDIUM"
  else "LOW".

(** The entries of [format_analysis_output] read downstream: the
    ["analysis_report"] score and level and the ["reporting"] status and
    case id. *)
Record analysis_output := mk_output {
  ao_risk_score : Z;
  ao_risk_level : string;
  ao_status : option string;
  ao_case_id : option string
}.

Definition format_analysis_output (result : aml_state) : analysis_output :=
  mk_output (risk_score result) (determine_risk_level (risk_score result))
    (reporting_status result) (case_id result).

(** The dict returned by [_calculate_investigation_statistics]. *)
Record inv_statistics := mk_inv_stats {
  st_total : nat;
  st_high_risk : nat;
  st_medium_risk : nat;
  st_low_risk : nat;
  st_sar_filed : nat;
  st_human_review : nat
}.

(** One iteration of the loop of [_calculate_investigation_statistics] on a
    formatted investigation. *)
Definition count_investigation (st : inv_statistics) (inv : analysis_output) : inv_statistics :=
  let risk_level := ao_risk_level inv in
  let status := ao_status inv in
  let '(h, m, l) :=
    if Py.mem risk_level ["HIGH"; "CRITICAL"]%string
    then (S (st_high_risk st), st_medium_risk st, st_low_risk st)
    else if String.eqb risk_level "MEDIUM"
    then (st_high_risk st, S (st_medium_risk st), st_low_risk st)
    else (st_high_risk st, st_medium_risk st, S (st_low_risk st)) in
  let '(sf, hr) :=
    if bool_decide (status = Some "SAR_FILED"%string) then (S (st_sar_filed st), st_human_review st)
    else if bool_decide (status = Some "HUMAN_REVIEW"%string) then (st_sar_filed st, S (st_human_review st))
    else (st_sar_filed st, st_human_review st) in
  mk_inv_stats (st_total st) h m l sf hr.

(** [_calculate_investigation_statistics]. *)
Definition calculate_investigation_statistics (investigations : list analysis_output)
  : inv_statistics :=
  fold_left count_investigation investigations
    (mk_inv_stats (length investigations) 0 0 0 0 0).

(** How a run of the workflow ends: the stage recorded last, the reporting
    status, the sanction hits and the score. *)
Definition run_outcome (t : aml_state) : Prop :=
  (reporting_status t = Some "SAR_FILED"%string
   /\ last (decision_path t) = Some "sar_generation"%string
   /\ ((sanction_hits t <> [] /\ risk_score t = 0)
       \/ (sanction_hits t = [] /\ 65 <= risk_score t)))
  \/ (reporting_status t = Some "HUMAN_REVIEW"%string
      /\ last (decision_path t) = Some "human_review"%string
      /\ sanction_hits t = [] /\ 40 <= risk_score t < 65)
  \/ (reporting_status t = None
      /\ last (decision_path t) = Some "risk_scoring"%string
      /\ sanction_hits t = [] /\ risk_score t < 40).

(** What holds of the state on entry to each node of a run. *)
Definition entry_ok (n : node) (s : aml_state) : Prop :=
  reporting_status s = None
  /\ match n with
     | generate_sar => (sanction_hits s <> [] /\ risk_score s = 0)
                       \/ (sanction_hits s = [] /\ 65 <= risk_score s)
     | human_review => sanction_hits s = [] /\ 40 <= risk_score s < 65
     | _ => sanction_hits s = [] /\ risk_score s = 0
     end.

(* ------------------------------------------------------------------ *)
(** ** Analysis tools of production_analysis_tools.py *)

Module Tools.

(** [float(tx.get("amount", 0))]. *)
Definition amount_of (d : dict) : result Q := py_float (py_get d "amount" (PyInt 0)).

(** The amounts of a list of dicts, converted in order. *)
Fixpoint amounts_of (txs : list dict) : result (list Q) :=
  match txs with
  | [] => Ok []
  | t :: rest => bind (amount_of t) (fun a => bind (amounts_of rest) (fun l => Ok (a :: l)))
  end.

(** [_calculate_structuring_score]. *)
Definition calculate_structuring_score (current_amount total_amount : Q)
    (suspicious_count : nat) (reporting_threshold : Q) : Q :=
  let score := 0%Q in
  let score := if Py.qle (reporting_threshold * (95#100)) current_amount
               then (score + (3#10))%Q else score in
  let score := if Nat.ltb 0 suspicious_count
               then (score + Qmin (4#10) (inject_Z (Z.of_nat suspicious_count) * (1#10)))%Q
               else score in
  let score := if Py.qle reporting_threshold total_amount then (score + (3#10))%Q else score in
  Qmin 1 score.

(** The result dict of [detect_structuring_patterns]; [sr_error] marks the
    dict returned by the [except] branch (detected [False], score [0.0]). *)
Record structuring_result := mk_sresult {
  sr_detected : bool;
  sr_score : Q;
  sr_current_suspicious : bool;
  sr_suspicious : list dict;
  sr_total : Q;
  sr_error : bool
}.

(** The loop over [related_transactions]. *)
Fixpoint scan_related (reporting_threshold suspicious_threshold : Q) (related : list dict)
    (acc : list dict) (total : Q) : result (list dict * Q) :=
  match related with
  | [] => Ok (acc, total)
  | tx :: rest =>
      bind (amount_of tx) (fun a =>
        if (Py.qlt a reporting_threshold && Py.qle suspicious_threshold a)%bool
        then scan_related reporting_threshold suspicious_threshold rest (acc ++ [tx]) (total + a)
        else scan_related reporting_threshold suspicious_threshold rest acc total)
  end.

(** [detect_structuring_patterns]. *)
Definition detect_structuring_patterns (transaction_data : dict) (related : list dict)
    (reporting_threshold : Q) : structuring_result :=
  let body :=
    bind (amount_of transaction_data) (fun current_amount =>
    let suspicious_threshold := (reporting_threshold * (95#100))%Q in
    bind (scan_related reporting_threshold suspicious_threshold related [] current_amount)
      (fun '(suspicious, total_amount) =>
       let score := calculate_structuring_score current_amount total_amount
                      (length suspicious) reporting_threshold in
       Ok (mk_sresult (Py.qlt (7#10) score) score
             (Py.qle suspicious_threshold current_amount) suspicious total_amount false))) in
  match body with
  | Ok r => r
  | Raise _ => mk_sresult false 0 false [] 0 true
  end.

(** [np.mean]. *)
Definition mean (xs : list Q) : Q := (qsum xs / qlen xs)%Q.

(** [_calculate_amount_trend]. *)
Definition calculate_amount_trend (amounts : list Q) : string :=
  if Nat.ltb (length amounts) 2 then "insufficient_data"
  else
    let h := Nat.div (length amounts) 2 in
    let first_half := mean (firstn h amounts) in
    let second_half := mean (skipn h amounts) in
    if Py.qlt (first_half * (6#5)) second_half then "increasing"
    else if Py.qlt second_half (first_half * (4#5)) then "decreasing"
    else "stable".

(** The metrics dict of [_calculate_behavioral_metrics]; the timing
    patterns of [_analyze_timing_patterns] are a constant dict whose
    [anomaly_detected] is [False]. *)
Record behavioral_metrics := mk_bmetrics {
  transaction_count : nat;
  average_amount : Q;
  max_amount : Q;
  amount_variance : Q;
  transaction_frequency : Q;
  amount_trend : string;
  timing_anomaly_detected : bool
}.

(** [_calculate_behavioral_metrics] once the amounts are converted:
    [amounts] is the related amounts followed by the current one. *)
Definition calculate_behavioral_metrics (related_amounts : list Q) (current : Q)
  : behavioral_metrics :=
  let transaction_count := S (length related_amounts) in
  let amounts := related_amounts ++ [current] in
  mk_bmetrics transaction_count
    (mean amounts)
    (fold_left Qmax related_amounts current)
    (if Nat.ltb 1 (length amounts) then pop_variance amounts else 0%Q)
    (inject_Z (Z.of_nat transaction_count) / 30)%Q
    (calculate_amount_trend amounts)
    false.

(** [_calculate_anomaly_score]. *)
Definition calculate_anomaly_score (m : behavioral_metrics) : Q :=
  let score := 0%Q in
  let score := if Py.qlt 5 (transaction_frequency m) then (score + (3#10))%Q else score in
  let score := if Py.qlt 1000000 (amount_variance m) then (score + (3#10))%Q else score in
  let score := if String.eqb (amount_trend m) "increasing" then (score + (1#5))%Q else score in
  let score := if timing_anomaly_detected m then (score + (1#5))%Q else score in
  Qmin 1 score.

(** [_identify_anomalies]. *)
Definition identify_anomalies (m : behavioral_metrics) : list string :=
  (if Py.qlt 5 (transaction_frequency m) then ["High transaction frequency"] else [])
  ++ (if Py.qlt 1000000 (amount_variance m) then ["High amount variance"] else [])
  ++ (if String.eqb (amount_trend m) "increasing" then ["Increasing transaction amounts"] else [])
  ++ (if timing_anomaly_detected m then ["Unusual timing patterns"] else []).

(** [confidence_level] of the tool results. *)
Definition confidence_level (score : Q) : string :=
  if Py.qlt (4#5) score then "high" else if Py.qlt (1#2) score then "medium" else "low".

(** The result dict of [analyze_behavioral_anomalies]; [br_error] marks the
    [except] branch (score [0.0], not anomalous). *)
Record behavior_result := mk_bresult {
  br_anomaly_score : Q;
  br_is_anomalous : bool;
  br_anomalies : list string;
  br_confidence_level : string;
  br_error : bool
}.

(** [analyze_behavioral_anomalies]: the related amounts are converted
    first, then the current one. *)
Definition analyze_behavioral_anomalies (transaction_data : dict) (related : list dict)
  : behavior_result :=
  match bind (amounts_of related) (fun ras =>
        bind (amount_of transaction_data) (fun cur => Ok (ras, cur))) with
  | Ok (ras, cur) =>
      let m := calculate_behavioral_metrics ras cur in
      let score := calculate_anomaly_score m in
      mk_bresult score (Py.qle (7#10) score) (identify_anomalies m) (confidence_level score) false
  | Raise _ => mk_bresult 0 false [] "" true
  end.

(** [_assess_country_risk]. *)
Definition high_risk_countries : list string :=
  ["AF"; "IR"; "KP"; "SY"; "VE"; "CU"; "BY"; "MM"; "ZW"].
Definition medium_risk_countries : list string :=
  ["CN"; "RU"; "TR"; "PK"; "BD"; "NG"; "KE"; "GH"; "UG"].

Record country_risk := mk_crisk {
  cr_risk_level : string;
  cr_risk_score : Q;
  cr_description : string
}.

Definition assess_country_risk (country_code : string) : country_risk :=
  if Py.mem country_code high_risk_countries then mk_crisk "high" (4#5) "High-risk country"
  else if Py.mem country_code medium_risk_countries then mk_crisk "medium" (1#2) "Medium-risk country"
  else mk_crisk "low" (1#5) "Low-risk country".

(** [c.isspace()] on ASCII: tab to carriage return, the four separators
    0x1c-0x1f, and space. *)
Definition is_space (c : ascii) : bool :=
  let n := nat_of_ascii c in
  ((Nat.leb 9 n && Nat.leb n 13) || (Nat.leb 28 n && Nat.leb n 32))%bool.

Fixpoint lstrip (s : string) : string :=
  match s with
  | String c s' => if is_space c then lstrip s' else s
  | EmptyString => EmptyString
  end.

Definition string_rev (s : string) : string :=
  string_of_list_ascii (List.rev (list_ascii_of_string s)).

(** [s.strip()]. *)
Definition strip (s : string) : string := string_rev (lstrip (string_rev (lstrip s))).

(** [s.split(",")[-1]]: the text after the last comma. *)
Fixpoint last_field_from (s cur : string) : string :=
  match s with
  | EmptyString => cur
  | String c s' =>
      if Ascii.eqb c ","%char then last_field_from s' EmptyString
      else last_field_from s' (cur ++ String c EmptyString)
  end.

Definition last_field (s : string) : string := last_field_from s EmptyString.

Record location_mismatch := mk_lmis {
  mismatch_detected : bool;
  mismatch_score : Q;
  lm_description : string
}.

(** [_assess_location_mismatch]. *)
Definition assess_location_mismatch (customer_location transaction_location : string)
  : location_mismatch :=
  if (String.eqb customer_location "" || String.eqb transaction_location "")%bool
  then mk_lmis false 0 "Insufficient location data"
  else
    let customer_country := strip (last_field customer_location) in
    let transaction_country := strip (last_field transaction_location) in
    let m := negb (String.eqb customer_country transaction_country) in
    mk_lmis m (if m then 7#10 else 0)
      (if m then "Customer and transaction locations differ" else "Locations match").

(** [_calculate_geographic_risk_score]. *)
Definition calculate_geographic_risk_score (cr : country_risk) (lm : location_mismatch) : Q :=
  (cr_risk_score cr * (7#10) + mismatch_score lm * (3#10))%Q.

(** [_determine_risk_level] of production_analysis_tools.py. *)
Definition determine_risk_level (risk_score : Q) : string :=
  if Py.qle (7#10) risk_score then "high"
  else if Py.qle (2#5) risk_score then "medium"
  else "low".

Record geographic_result := mk_gresult {
  geographic_risk_score : Q;
  gr_country_risk : country_risk;
  gr_location_mismatch : location_mismatch;
  gr_risk_level : string
}.

(** [assess_geographic_risks]. *)
Definition assess_geographic_risks (customer_location transaction_location transaction_country : string)
  : geographic_result :=
  let cr := assess_country_risk transaction_country in
  let lm := assess_location_mismatch customer_location transaction_location in
  let score := calculate_geographic_risk_score cr lm in
  mk_gresult score cr lm (determine_risk_level score).

(** A transaction dict as the network tools read it: the [.get] of the
    identifiers ([None] when absent) and [tx.get("amount", 0)]. *)
Record ntx := mk_ntx {
  n_transaction_id : option string;
  n_customer_id : option string;
  n_counterparty_id : option string;
  n_amount : pyval
}.

(** [_are_connected]: [==] on the two [.get] results. *)
Definition are_connected (tx1 tx2 : ntx) : bool :=
  (bool_decide (n_customer_id tx1 = n_customer_id tx2)
   || bool_decide (n_counterparty_id tx1 = n_counterparty_id tx2))%bool.

(** [_calculate_connection_weight]. *)
Definition calculate_connection_weight (tx1 tx2 : ntx) : result Q :=
  let weight := 0%Q in
  let weight := if bool_decide (n_customer_id tx1 = n_customer_id tx2)
                then (weight + (1#2))%Q else weight in
  let weight := if bool_decide (n_counterparty_id tx1 = n_counterparty_id tx2)
                then (weight + (1#2))%Q else weight in
  bind (py_float (n_amount tx1)) (fun amount1 =>
  bind (py_float (n_amount tx2)) (fun amount2 =>
  let weight :=
    if (Py.qlt 0 amount1 && Py.qlt 0 amount2)%bool then
      let amount_ratio := (Qmin amount1 amount2 / Qmax amount1 amount2)%Q in
      if Py.qlt (4#5) amount_ratio then (weight + (3#10))%Q else weight
    else weight in
  Ok (Qmin 1 weight))).

Record edge := mk_edge {
  e_source : option string;
  e_target : option string;
  e_weight : Q
}.

(** The edges added by the loop of [_build_network_graph]; the node list
    is the central transaction followed by the related ones. *)
Fixpoint build_edges (tx : ntx) (related : list ntx) : result (list edge) :=
  match related with
  | [] => Ok []
  | r :: rest =>
      if are_connected tx r then
        bind (calculate_connection_weight tx r) (fun w =>
        bind (build_edges tx rest) (fun es =>
        Ok (mk_edge (n_transaction_id tx) (n_transaction_id r) w :: es)))
      else build_edges tx rest
  end.

Record network_properties := mk_nprops {
  node_count : nat;
  edge_count : nat;
  density : Q;
  average_degree : Q
}.

Definition qnat (n : nat) : Q := inject_Z (Z.of_nat n).

(** [_analyze_network_properties]. *)
Definition analyze_network_properties (nodes : list ntx) (edges : list edge) : network_properties :=
  let n := qnat (length nodes) in
  mk_nprops (length nodes) (length edges)
    (qnat (length edges) / Qmax 1 (n * (n - 1) / 2))%Q
    (qnat (length edges) * 2 / Qmax 1 n)%Q.

(** [_identify_suspicious_connections]. *)
Definition identify_suspicious_connections (edges : list edge) : list edge :=
  filter (fun e => Py.qle (4#5) (e_weight e) = true) edges.

(** The result dict of [analyze_transaction_network]; [nr_error] marks the
    [except] branch (network size [0]). *)
Record network_result := mk_nresult {
  network_size : nat;
  nr_properties : network_properties;
  suspicious_connection_details : list edge;
  nr_error : bool
}.

Definition analyze_transaction_network (transaction_data : ntx) (related : list ntx)
  : network_result :=
  match build_edges transaction_data related with
  | Ok edges =>
      let nodes := transaction_data :: related in
      mk_nresult (length nodes) (analyze_network_properties nodes edges)
        (identify_suspicious_connections edges) false
  | Raise _ => mk_nresult 0 (mk_nprops 0 0 0 0) [] true
  end.

(** [_determine_overall_risk_level]. *)
Definition determine_overall_risk_level (risk_score : Q) : string :=
  if Py.qle (4#5) risk_score then "CRITICAL"
  else if Py.qle (3#5) risk_score then "HIGH"
  else if Py.qle (2#5) risk_score then "MEDIUM"
  else "LOW".

Record overall_result := mk_oresult {
  overall_risk_score : Q;
  or_risk_level : string;
  pattern_score : Q;
  network_score : Q
}.

(** [calculate_overall_risk_score] on the looked-up numbers:
    [structuring_score], [smurfing_score], [anomaly_score],
    [geographic_risk_score] and [suspicious_connections] (each defaulting
    to 0). *)
Definition calculate_overall_risk_score (structuring smurfing anomaly geographic : Q)
    (suspicious_connections : Q) : overall_result :=
  let pattern_score := (structuring + smurfing)%Q in
  let network_score := Qmin 1 (suspicious_connections / 5) in
  let overall_score := (pattern_score * (3#10) + anomaly * (1#4)
                        + geographic * (1#5) + network_score * (1#4))%Q in
  mk_oresult (Qmin 1 (Qmax 0 overall_score))
    (determine_overall_risk_level overall_score) pattern_score network_score.

(** [_generate_recommendations]: only the risk level is read. *)
Definition generate_recommendations (risk_level : string) (risk_score : Q)
    (key_findings : list string) : list string :=
  if String.eqb risk_level "CRITICAL" then
    ["Immediate escalation required"; "Enhanced due diligence mandatory";
     "Regulatory filing required"; "Account review and potential suspension"]
  else if String.eqb risk_level "HIGH" then
    ["Enhanced monitoring required"; "Regulatory filing recommended";
     "Additional documentation needed"; "Regular review schedule"]
  else if String.eqb risk_level "MEDIUM" then
    ["Standard monitoring sufficient"; "Document findings for audit";
     "Regular review recommended"]
  else
    ["Continue standard monitoring"; "Document for compliance records"].

(** The [pattern_description] of a result of [detect_structuring_patterns]. *)
Definition pattern_description (r : structuring_result) : string :=
  if sr_error r then "Error in structuring detection"
  else "Multiple transactions just under reporting threshold".

(** The result dict of [generate_investigation_summary], without the
    [generated_at] timestamp; [analysis_summary] is flattened into the
    four [as_] fields. *)
Record investigation_summary := mk_isummary {
  is_investigation_id : string;
  is_risk_level : string;
  is_risk_score : Q;
  key_findings : list string;
  recommendations : list string;
  as_pattern_analysis : bool;
  as_behavioral_anomalies : bool;
  as_geographic_risks : string;
  as_network_connections : nat;
  is_confidence_level : string
}.

(** [generate_investigation_summary] on the results of the tools above:
    [str(n)] of a count is [pretty n].  On these inputs every lookup
    succeeds, so the [except] branch is not reached. *)
Definition generate_investigation_summary (investigation_id : string)
    (risk_assessment : overall_result) (pattern_analysis : structuring_result)
    (behavioral_analysis : behavior_result) (geographic_risks : geographic_result)
    (network_analysis : network_result) : investigation_summary :=
  let risk_level := or_risk_level risk_assessment in
  let risk_score := overall_risk_score risk_assessment in
  let suspicious_connections := length (suspicious_connection_details network_analysis) in
  let key_findings :=
    (if sr_detected pattern_analysis
     then [("Pattern Detection: " ++ pattern_description pattern_analysis)%string] else [])
    ++ (if br_is_anomalous behavioral_analysis
        then [("Behavioral Anomalies: " ++ pretty (length (br_anomalies behavioral_analysis))
              ++ " anomalies detected")%string] else [])
    ++ (if String.eqb (gr_risk_level geographic_risks) "high"
        then [("Geographic Risk: " ++ cr_description (gr_country_risk geographic_risks))%string]
        else [])
    ++ (if Nat.ltb 0 suspicious_connections
        then [("Network Analysis: " ++ pretty suspicious_connections
               ++ " suspicious connections identified")%string] else []) in
  let recommendations := generate_recommendations risk_level risk_score key_findings in
  mk_isummary investigation_id risk_level risk_score key_findings recommendations
    (sr_detected pattern_analysis) (br_is_anomalous behavioral_analysis)
    (gr_risk_level geographic_risks) suspicious_connections (confidence_level risk_score).

End Tools.

(* ------------------------------------------------------------------ *)
(** ** Chat threads ([CHAT_THREADS] of production_workflow.py) *)

Module Chat.
Section Store.
Context {R : Type}.

(** A [ChatState] dict; [cs_investigation_results] is the Python list
    object it refers to. *)
Record chat_state := mk_chat {
  cs_thread_id : string;
  cs_investigation_results : nat;
  cs_chat_history : list string;
  cs_created_at : Z;
  cs_last_updated : Z
}.

(** The heap of list objects holding investigation results, and the
    [CHAT_THREADS] dict. *)
Record store := mk_store {
  lists : gmap nat (list R);
  next_list : nat;
  threads : gmap string chat_state
}.

Definition deref (s : store) (l : nat) : list R := default [] (lists s !! l).

Definition alloc_list (s : store) (xs : list R) : nat * store :=
  (next_list s, mk_store (<[next_list s := xs]> (lists s)) (S (next_list s)) (threads s)).

(** [lst.append(x)] on the list object [l]. *)
Definition append_list (s : store) (l : nat) (x : R) : store :=
  mk_store (<[l := deref s l ++ [x]]> (lists s)) (next_list s) (threads s).

(** [create_chat_thread]: [thread_id] is the [uuid4] drawn and [now] the
    clock.  [investigation_results or []] keeps the caller's list object
    when it is non-empty and allocates a new empty list otherwise. *)
Definition create_chat_thread (thread_id : string) (now : Z)
    (investigation_results : option nat) (s : store) : string * store :=
  let '(l, s1) :=
    match investigation_results with
    | Some l => match deref s l with [] => alloc_list s [] | _ :: _ => (l, s) end
    | None => alloc_list s []
    end in
  (thread_id, mk_store (lists s1) (next_list s1)
                (<[thread_id := mk_chat thread_id l [] now now]> (threads s1))).

(** [get_chat_thread]. *)
Definition get_chat_thread (thread_id : string) (s : store) : option chat_state :=
  threads s !! thread_id.

(** [update_chat_thread]. *)
Definition update_chat_thread (thread_id : string) (chat_state : chat_state) (now : Z)
    (s : store) : store :=
  mk_store (lists s) (next_list s)
    (<[thread_id := mk_chat (cs_thread_id chat_state) (cs_investigation_results chat_state)
                      (cs_chat_history chat_state) (cs_created_at chat_state) now]> (threads s)).

(** [add_investigation_to_thread]: a [ChatState] dict is never empty, so
    [if thread] only tests that the thread exists. *)
Definition add_investigation_to_thread (thread_id : string) (investigation_result : R)
    (now : Z) (s : store) : store :=
  match get_chat_thread thread_id s with
  | Some thread =>
      let s1 := append_list s (cs_investigation_results thread) investigation_result in
      update_chat_thread thread_id thread now s1
  | None => s
  end.

(** The thread calls of [analyze_batch]: one [add_investigation_to_thread]
    per result, in order. *)
Definition add_all (thread_id : string) (now : Z) (results : list R) (s : store) : store :=
  fold_left (fun s r => add_investigation_to_thread thread_id r now s) results s.

End Store.
Arguments store : clear implicits.
End Chat.

(* ------------------------------------------------------------------ *)
(** ** Batch summaries and the batch loop (batch_processor.py) *)

(** [create_batch_summary]; the pending approvals of the approval manager
    and the timing fields are not embedded. *)
Record batch_summary := mk_summary {
  total_transactions : nat;
  processed_transactions : nat;
  bs_escalated_cases : nat;
  bs_sar_cases : nat;
  bs_accuracy_metrics : option metrics
}.

Definition create_batch_summary (results : list inv_result) (st : stats) : batch_summary :=
  mk_summary (length results) (total_processed st)
    (length (filter (fun r => is_high_level (r_risk_level r) = true) results))
    (length (filter (fun r => r_reporting_status r = Some "SAR_FILED"%string) results))
    (calculate_accuracy_metrics results).

(** [reset_stats]. *)
Definition reset_stats : stats := mk_stats 0 0 0 0 0.

Section HiTrans.
(** [load_batch batch_size offset] is [load_hi_trans_batch] followed by
    [engineer_features]. *)
Context {row : Type} (investigate : row -> option inv_result) (laundering : row -> Z)
  (load_batch : Z -> Z -> list row).

(** The [while True] loop of [process_hi_trans_batch]: returns the results,
    the statistics and [batch_count]; [fuel] bounds the iterations. *)
Fixpoint hi_trans_loop (fuel : nat) (batch_size offset : Z) (max_batches : option Z)
    (batch_count : Z) (all_results : list inv_result) (st : stats)
  : option (list inv_result * stats * Z) :=
  match fuel with
  | O => None
  | S f =>
      if match max_batches with
         | Some m => (negb (m =? 0) && (m <=? batch_count))%bool
         | None => false
         end
      then Some (all_results, st, batch_count)
      else
        match load_batch batch_size (offset + batch_count * batch_size) with
        | [] => Some (all_results, st, batch_count)
        | df =>
            let '(batch_results, st') := process_rows investigate laundering df [] st in
            let all_results := all_results ++ batch_results in
            if Z.of_nat (length df) <? batch_size
            then Some (all_results, st', batch_count + 1)
            else hi_trans_loop f batch_size offset max_batches (batch_count + 1) all_results st'
        end
  end.
End HiTrans.

(* ================================================================== *)
(** * Proofs *)

Lemma set_path_fields s p :
  risk_points (set_decision_path p s) = risk_points s.
Proof. reflexivity. Qed.

Lemma exec_node_path e n s :
  decision_path (exec_node e n s) = decision_path s ++ [node_name n].
Proof.
  destruct n; cbn -[app]; try reflexivity.
  - unfold crypto_risk_analysis. case_match; reflexivity.
  - unfold document_analysis. cbn -[app]. case_match; reflexivity.
Qed.

Lemma next_total n s : next n s <> None.
Proof.
  destruct n; cbn; try discriminate;
  unfold route_initial_screening, route_crypto_analysis, route_sanctions_check,
    route_pep_check, route_risk_score; repeat case_match; discriminate.
Qed.

Lemma next_rank n s m : next n s = Some (To m) -> (rank n < rank m)%nat.
Proof.
  destruct n; cbn;
  unfold route_initial_screening, route_crypto_analysis, route_sanctions_check,
    route_pep_check, route_risk_score; repeat case_match;
  intros Hm; inversion Hm; subst; cbn; lia.
Qed.

Lemma rank_le n : (rank n <= 9)%nat.
Proof. destruct n; cbn; lia. Qed.

Lemma node_name_inj a b : node_name a = node_name b -> a = b.
Proof. destruct a, b; cbn; congruence. Qed.

Section Runs.
Variable e : env.

Lemma run_reaches_end : forall fuel n s, (10 <= fuel + rank n)%nat ->
  exists t vs, run e fuel n s = Some t
    /\ decision_path t = decision_path s ++ map node_name (n :: vs)
    /\ Sorted (fun a b => rank a < rank b)%nat (n :: vs).
Proof.
  induction fuel as [|f IH]; intros n s Hf.
  - pose proof (rank_le n). lia.
  - cbn [run].
    destruct (next n (exec_node e n s)) as [[m|]|] eqn:Hnext.
    + pose proof (next_rank _ _ _ Hnext) as Hr.
      destruct (IH m (exec_node e n s)) as (t & vs & Hrun & Hpath & Hsort); [lia|].
      exists t, (m :: vs). split; [exact Hrun|]. split.
      * rewrite Hpath, exec_node_path. cbn. rewrite <- app_assoc. reflexivity.
      * constructor; [exact Hsort | constructor; exact Hr].
    + exists (exec_node e n s), []. split; [reflexivity|]. split.
      * rewrite exec_node_path. reflexivity.
      * repeat constructor.
    + exfalso. exact (next_total _ _ Hnext).
Qed.

End Runs.

Lemma strongly_sorted_lt_NoDup (l : list node) :
  StronglySorted (fun a b => rank a < rank b)%nat l -> NoDup l.
Proof.
  induction l as [|a l IH]; intros H; [constructor|].
  apply StronglySorted_inv in H as [Hl Hall].
  constructor; [|exact (IH Hl)].
  intros Hin. rewrite Forall_forall in Hall.
  pose proof (Hall a Hin). lia.
Qed.

Lemma NoDup_map_node_name (l : list node) : NoDup l -> NoDup (map node_name l).
Proof.
  induction 1 as [|a l Hnin Hnd IH]; cbn; constructor; [|exact IH].
  intros Hin. apply Hnin.
  apply list_elem_of_In in Hin. apply in_map_iff in Hin as (b & Hb & Hbin).
  apply node_name_inj in Hb. subst. apply list_elem_of_In. exact Hbin.
Qed.

(** ** C1 *)

(** C1: the risk score set by [score_risk] is [min(100, weighted sum)] of
    the state's own fields, whatever [risk_score] held before, so it lies in
    [[0,100]]. *)
Theorem risk_scoring_fresh_weighted_sum (s : aml_state) :
  risk_score (risk_scoring s) = Z.min 100 (spec_risk_sum s)
  /\ 0 <= risk_score (risk_scoring s) <= 100
  /\ (forall v : Z, risk_score (risk_scoring (set_risk_score v s)) = risk_score (risk_scoring s)).
Proof.
  assert (Hpts : risk_points s = spec_risk_sum s).
  { unfold risk_points, spec_risk_sum.
    destruct (pep_status s) as [[|]|], (structuring_detected s), (smurfing_detected s);
      lia. }
  assert (Hnn : 0 <= spec_risk_sum s).
  { unfold spec_risk_sum, count_factors.
    destruct (pep_status s) as [[|]|], (structuring_detected s), (smurfing_detected s);
      lia. }
  split; [|split]; [| |intros v; reflexivity];
  unfold risk_scoring, update_path; cbn [risk_score set_risk_score];
  rewrite set_path_fields, Hpts; lia.
Qed.

(** ** C2 *)

(** C2: the routing table is total; the graph invoked with a [thread_id]
    runs, for every transaction, customer and answers of the external
    analysers, from [initial_screening] to [END], visiting each node at most
    once, so [decision_path] has no repeated entry; invoked without one, as
    [run_analysis] does, it raises [ValueError] before any stage runs. *)
Theorem workflow_visits_each_stage_once (e : env) (tx : txn) (c : customer)
    (docs : list string) :
  (forall (n : node) (s : aml_state), next n s <> None)
  /\ invoke e None tx c docs = Raise ValueError
  /\ forall thread_id : string,
     exists t visited, invoke e (Some thread_id) tx c docs = Ok t
       /\ decision_path t = map node_name visited
       /\ head visited = Some initial_screening
       /\ NoDup visited
       /\ NoDup (decision_path t).
Proof.
  split; [exact next_total|]. split; [reflexivity|]. intros thread_id.
  destruct (run_reaches_end e 25 initial_screening (initial_state tx c docs))
    as (t & vs & Hrun & Hpath & Hsort); [cbn; lia|].
  assert (Hnd : NoDup (initial_screening :: vs)).
  { apply strongly_sorted_lt_NoDup, Sorted_StronglySorted; [|exact Hsort].
    intros x y z; lia. }
  exists t, (initial_screening :: vs).
  split; [unfold invoke; rewrite Hrun; reflexivity|]. split; [exact Hpath|].
  split; [reflexivity|].
  split; [exact Hnd|]. rewrite Hpath. apply NoDup_map_node_name, Hnd.
Qed.

(** ** C3 *)

(** C3 (counterexample): a fiat transaction of 500 from the flagged bank
    03208 by a customer whose account is 3 days old is routed to [edd], not
    to [geo_analysis] as the specification's order says. *)
Lemma initial_screening_flagged_bank_new_account :
  next initial_screening (exec_node env0 initial_screening c3_state)
    = Some (To edd)
  /\ spec_initial_successor c3_state = geo_analysis.
Proof. split; vm_compute; reflexivity. Qed.

(** C3 (amended): after [initial_screening] the run goes to
    [crypto_analysis] for a CRYPTO asset, else to [geo_analysis] for an
    amount above 100,000, else to [edd] for an account younger than 7 days
    (365 when unknown), else to [geo_analysis] for a flagged bank, else to
    [document_check]. *)
Theorem initial_screening_successor (e : env) (s : aml_state) :
  next initial_screening (exec_node e initial_screening s)
    = Some (To (amended_initial_successor s)).
Proof.
  cbn [exec_node next]. unfold route_initial_screening, amended_initial_successor.
  cbn. repeat case_match; reflexivity.
Qed.

(** ** C4 *)

(** C4: after [score_risk] the run goes to [generate_sar] exactly when
    [risk_score >= 65], to [human_review] exactly when
    [40 <= risk_score < 65], and to [END] exactly when [risk_score < 40]. *)
Theorem score_risk_routing (s : aml_state) :
  (next score_risk s = Some (To generate_sar) <-> 65 <= risk_score s)
  /\ (next score_risk s = Some (To human_review) <-> 40 <= risk_score s < 65)
  /\ (next score_risk s = Some END <-> risk_score s < 40).
Proof.
  cbn [next]. unfold route_risk_score.
  destruct (Z.leb_spec 65 (risk_score s)); destruct (Z.leb_spec 40 (risk_score s));
    cbn; repeat split; intros; try congruence; lia.
Qed.

(** ** C10 *)

Lemma exec_keeps_reporting e n s :
  n <> generate_sar -> n <> human_review ->
  case_id (exec_node e n s) = case_id s
  /\ reporting_status (exec_node e n s) = reporting_status s.
Proof.
  intros H1 H2. destruct n; try congruence; cbn; try (split; reflexivity).
  - unfold crypto_risk_analysis. case_match; split; reflexivity.
  - unfold document_analysis. cbn. case_match; split; reflexivity.
Qed.

Lemma run_terminal e : forall fuel n s t,
  case_id s = None -> reporting_status s = None ->
  run e fuel n s = Some t -> terminal_ok e t.
Proof.
  induction fuel as [|f IH]; intros n s t Hc Hr Hrun; [discriminate|].
  cbn [run] in Hrun.
  destruct (decide (n = generate_sar)) as [->|Hn1].
  { cbn in Hrun. injection Hrun as <-. right; left. split; reflexivity. }
  destruct (decide (n = human_review)) as [->|Hn2].
  { cbn in Hrun. injection Hrun as <-. right; right. cbn. repeat split; assumption. }
  destruct (exec_keeps_reporting e n s Hn1 Hn2) as [Hc' Hr'].
  destruct (next n (exec_node e n s)) as [[m|]|]; [| |discriminate].
  - exact (IH m _ t (eq_trans Hc' Hc) (eq_trans Hr' Hr) Hrun).
  - injection Hrun as <-. left. rewrite Hc', Hr'. split; assumption.
Qed.

Lemma terminal_ok_consistent e t : terminal_ok e t -> reporting_consistent t.
Proof.
  unfold reporting_consistent.
  intros [[-> ->]|[[-> ->]|(-> & -> & _)]]; split; congruence.
Qed.

Lemma invoke_terminal e thread_id tx c docs t :
  invoke e thread_id tx c docs = Ok t -> terminal_ok e t.
Proof.
  unfold invoke. destruct thread_id as [_|]; [|discriminate].
  destruct (run e 25 initial_screening (initial_state tx c docs)) as [t'|] eqn:Hrun;
    [|discriminate].
  intros [= <-].
  exact (run_terminal e _ _ (initial_state tx c docs) t' eq_refl eq_refl Hrun).
Qed.

Lemma invoke_thread_ok e thread_id tx c docs :
  exists t, invoke e (Some thread_id) tx c docs = Ok t.
Proof.
  destruct (run_reaches_end e 25 initial_screening (initial_state tx c docs))
    as (t & vs & Hrun & _ & _); [cbn; lia|].
  exists t. unfold invoke. rewrite Hrun. reflexivity.
Qed.

Lemma analyze_transaction_index_ok e index tx c docs :
  index_ok index -> index_ok (snd (analyze_transaction e index tx c docs)).
Proof.
  intros Hidx. unfold analyze_transaction, run_analysis.
  destruct (invoke e None tx c docs) as [t|x] eqn:Hinv; [|exact Hidx].
  pose proof (invoke_terminal e None tx c docs t Hinv) as Hterm. cbn [snd].
  destruct Hterm as [[-> _]|[[Hc Hr]|(-> & _)]]; try exact Hidx.
  rewrite Hc. destruct (String.eqb _ _); [exact Hidx|].
  apply map_Forall_insert_2; [split; assumption | exact Hidx].
Qed.

Lemma analyze_many_index_ok : forall calls index,
  index_ok index -> index_ok (snd (analyze_many calls index)).
Proof.
  induction calls as [|[[[e tx] c] docs] rest IH]; intros index Hidx; [exact Hidx|].
  cbn [analyze_many].
  pose proof (analyze_transaction_index_ok e index tx c docs Hidx) as H1.
  destruct (analyze_transaction e index tx c docs) as [[r|x] index1]; cbn in H1; [|exact H1].
  specialize (IH index1 H1).
  destruct (analyze_many rest index1) as [[rs|y] index2]; exact IH.
Qed.

(** C10: every terminal state of the graph has [case_id] set exactly when
    [reporting_status] is [SAR_FILED]; one ending in human review has
    [case_id = None] and a review deadline 24 hours after the clock of
    that stage; the graph invoked with a [thread_id] always reaches such a
    state; and over any sequence of [analyze_transaction] calls starting
    from an empty index, whatever each call returns or raises, every entry
    of [INVESTIGATION_RESULTS] is a SAR-filed case stored under its own
    case id. *)
Theorem case_id_iff_sar_filed (calls : list (env * txn * customer * list string)) :
  (forall (e : env) (thread_id : option string) (tx : txn) (c : customer)
          (docs : list string) (t : aml_state),
     invoke e thread_id tx c docs = Ok t ->
       reporting_consistent t
       /\ (reporting_status t = Some "HUMAN_REVIEW"%string ->
           case_id t = None /\ review_deadline t = Some (clock e human_review + 86400))
       /\ (reporting_status t = None -> case_id t = None))
  /\ (forall (e : env) (thread_id : string) (tx : txn) (c : customer) (docs : list string),
        exists t, invoke e (Some thread_id) tx c docs = Ok t)
  /\ map_Forall (fun k v => reporting_status v = Some "SAR_FILED"%string
                            /\ case_id v = Some k) (snd (analyze_many calls ∅)).
Proof.
  split; [|split].
  - intros e thread_id tx c docs t Hinv.
    pose proof (invoke_terminal e thread_id tx c docs t Hinv) as Hterm.
    split; [exact (terminal_ok_consistent e t Hterm)|].
    destruct Hterm as [[Hc Hr]|[[Hc Hr]|(Hc & Hr & Hd)]]; rewrite Hr;
      split; intros; try congruence; split; assumption.
  - exact invoke_thread_ok.
  - exact (analyze_many_index_ok calls ∅ (map_Forall_empty _)).
Qed.

(** ** C5 *)

Lemma qlt_spec (x y : Q) : Py.qlt x y = true <-> (x < y)%Q.
Proof.
  unfold Py.qlt. rewrite negb_true_iff. split.
  - intros H. apply Qnot_le_lt. intros Hle. apply Qle_bool_iff in Hle. congruence.
  - intros H. destruct (Qle_bool y x) eqn:E; [|reflexivity].
    apply Qle_bool_iff in E. exfalso. exact (Qlt_not_le _ _ H E).
Qed.

Lemma within_one_day_spec (current t : Z) :
  within_one_day current t = true <-> current - t < 86400.
Proof.
  unfold within_one_day. rewrite Z.ltb_lt. split; intros H.
  - destruct (Z.lt_ge_cases (current - t) 86400) as [|Hge]; [assumption|].
    assert (1 <= (current - t) / 86400) by (apply Z.div_le_lower_bound; lia). lia.
  - apply Z.div_lt_upper_bound; lia.
Qed.

(** C5: [behavior_check] on a current transaction of 100 whose customer
    made three more transactions of 100 at the same time flags
    STRUCTURING_PATTERN and sets [structuring_detected], although none of
    the four amounts lies in [[0.95 * 10000, 10000)]: the code tests only
    [amount < CTR_THRESHOLD] and never uses [SUSPICIOUS_THRESHOLD]. *)
Lemma structuring_flags_small_amounts :
  structuring_detected (behavioral_analysis env0 c5_state) = true
  /\ Py.mem "STRUCTURING_PATTERN" (alerts (behavioral_analysis env0 c5_state)) = true
  /\ spec_structuring_flag (recent_amounts 0 (c_transaction_history (cust c5_state)) 100) = false.
Proof. split; [|split]; vm_compute; reflexivity. Qed.

(** The structuring flags as [behavior_check] computes them: the window holds the history
    entries dated less than 24 hours before the current transaction
    (later-dated and undated entries included) and the current
    transaction; STRUCTURING_PATTERN is flagged, and [structuring_detected]
    set, exactly when the window holds more than 3 transactions all below
    10,000; UNIFORM_TRANSACTIONS exactly when it holds more than 5 whose
    sample standard deviation is below 500. *)
Theorem behavioral_structuring_flags (e : env) (s : aml_state) :
  let current := default (clock e behavior_check) (tx_timestamp (transaction s)) in
  let R := recent_amounts current (c_transaction_history (cust s)) (tx_amount (transaction s)) in
  (forall t : Z, within_one_day current t = true <-> current - t < 86400)
  /\ alerts (behavioral_analysis e s) = alerts s ++ structuring_alerts R
  /\ (structuring_detected (behavioral_analysis e s) = true
      <-> (3 < length R)%nat /\ Forall (fun a => a < CTR_THRESHOLD)%Q R)
  /\ (Py.mem "UNIFORM_TRANSACTIONS" (structuring_alerts R) = true
      <-> (5 < length R)%nat /\ stdev_below R 500 = true).
Proof.
  intros current R.
  split; [intros t; apply within_one_day_spec|].
  split; [reflexivity|].
  cbn [behavioral_analysis update_path set_structuring_detected set_risk_factors
       set_alerts set_decision_path structuring_detected transaction cust].
  fold current. fold R. unfold structuring_alerts.
  destruct (Nat.ltb_spec 3 (length R)) as [H3|H3];
  destruct (forallb (fun a => Py.qlt a CTR_THRESHOLD) R) eqn:Hall;
  destruct (Nat.ltb_spec 5 (length R)) as [H5|H5];
  destruct (Nat.ltb_spec 1 (length R)) as [H1|H1];
  destruct (stdev_below R 500) eqn:Hsd; cbn;
  rewrite ?forallb_forall in Hall;
  (split; [split; intros H; [split; [lia|]|]|split; intros H]);
  try discriminate; try lia; try reflexivity;
  try (rewrite Forall_forall; intros a Ha; apply qlt_spec, Hall, list_elem_of_In, Ha);
  try (split; [lia|reflexivity]);
  try (exfalso; destruct H as [_ H]; rewrite Forall_forall in H;
       apply Bool.not_true_iff_false in Hall; apply Hall; apply forallb_forall;
       intros a Ha; apply qlt_spec, H, list_elem_of_In, Ha);
  try (destruct H; lia); try (destruct H; congruence).
Qed.

(** ** C6 *)

Section Grouping.
Variable hours : Z.

Lemma group_loop_concat : forall rest first cur_rev,
  concat (group_loop hours first cur_rev rest) = rev cur_rev ++ rest.
Proof.
  induction rest as [|tx rest IH]; intros first cur_rev; cbn.
  - rewrite !app_nil_r. reflexivity.
  - destruct (within_time_window first tx hours).
    + rewrite IH. cbn. rewrite <- app_assoc. reflexivity.
    + cbn. rewrite IH. reflexivity.
Qed.

Lemma group_loop_anchored : forall rest first ys,
  Forall (fun y => within_time_window first y hours = true) ys ->
  Forall (anchored hours) (group_loop hours first (ys ++ [first]) rest).
Proof.
  induction rest as [|tx rest IH]; intros first ys Hys; cbn.
  - constructor; [|constructor].
    exists first, (rev ys). rewrite rev_app_distr. split; [reflexivity|].
    apply Forall_rev. exact Hys.
  - destruct (within_time_window first tx hours) eqn:Hw.
    + apply (IH first (tx :: ys)). constructor; assumption.
    + constructor.
      * exists first, (rev ys). rewrite rev_app_distr. split; [reflexivity|].
        apply Forall_rev. exact Hys.
      * apply (IH tx []). constructor.
Qed.

Lemma group_loop_head : forall rest first ys,
  exists g gs, group_loop hours first (ys ++ [first]) rest = g :: gs /\ head g = Some first.
Proof.
  induction rest as [|tx rest IH]; intros first ys; cbn.
  - eexists _, []. split; [reflexivity|]. rewrite rev_app_distr. reflexivity.
  - destruct (within_time_window first tx hours).
    + exact (IH first (tx :: ys)).
    + eexists _, _. split; [reflexivity|]. rewrite rev_app_distr. reflexivity.
Qed.

Lemma group_loop_heads_apart : forall rest first ys,
  heads_apart hours (group_loop hours first (ys ++ [first]) rest).
Proof.
  induction rest as [|tx rest IH]; intros first ys; cbn; [exact I|].
  destruct (within_time_window first tx hours) eqn:Hw.
  - exact (IH first (tx :: ys)).
  - destruct (group_loop_head rest tx []) as (g & gs & Hg & Hh). cbn in Hg, Hh.
    specialize (IH tx []). cbn in IH.
    rewrite Hg in IH |- *. cbn. rewrite rev_app_distr. cbn. rewrite Hh.
    split; [exact Hw|]. cbn in IH. rewrite Hh in IH. exact IH.
Qed.

End Grouping.

Lemma coordination_score_large (g : list smurf_tx) :
  (3 <= length g)%nat ->
  coordination_score g ==
    ((if Nat.eqb (length (remove_dups (map s_counterparty_id g))) 1 then 1#2 else 0)
     + (if Py.qlt (pop_variance (map s_amount g)) 1000 then 3#10 else 0)
     + (1#5))%Q.
Proof.
  intros H. unfold coordination_score.
  destruct (Nat.ltb_spec (length g) 2) as [H2|_]; [lia|].
  rewrite length_map.
  destruct (Nat.ltb_spec 1 (length g)) as [_|H1]; [|lia].
  destruct (Nat.leb_spec 3 (length g)) as [_|H3]; [|lia].
  apply Q.min_r.
  destruct (Nat.eqb _ 1), (Py.qlt _ 1000); unfold Qle; cbn; lia.
Qed.

(** C6 (counterexample): three transfers of 5,000 to one account, 20
    hours apart: chained by gap they form one window and are detected, but
    the detector anchors each window at its first transaction, splits them
    into windows of 2 and 1, and detects nothing. *)
Lemma smurfing_anchor_not_chain :
  detect_smurfing_patterns c6_related 24 = (false, 0%Q)
  /\ spec_smurfing_detected c6_related = true.
Proof. split; vm_compute; reflexivity. Qed.

(** C6 (amended): the transactions, sorted by date, are cut into
    consecutive groups; a transaction joins the current group when it lies
    within 24 hours of the group's first transaction (an unparseable date
    never does) and otherwise opens a new group.  A group of at least 3
    scores 0.5*[one recipient] + 0.3*[variance < 1000] + 0.2 and is
    coordinated above 0.6; the smurfing score is
    0.7*mean + 0.3*min(1, count/3) of the coordinated scores (0 when there
    are none) and [detected] holds exactly when it exceeds 0.7. *)
Theorem smurfing_fixed_windows (related : list smurf_tx) :
  let groups := group_by_time_window related 24 in
  concat groups = sort_by_date related
  /\ Forall (anchored 24) groups
  /\ heads_apart 24 groups
  /\ (forall g : list smurf_tx, (3 <= length g)%nat ->
        coordination_score g ==
          ((if Nat.eqb (length (remove_dups (map s_counterparty_id g))) 1 then 1#2 else 0)
           + (if Py.qlt (pop_variance (map s_amount g)) 1000 then 3#10 else 0)
           + (1#5))%Q)
  /\ snd (detect_smurfing_patterns related 24) = smurfing_score (coordinated_scores groups)
  /\ (fst (detect_smurfing_patterns related 24) = true
      <-> (7#10 < snd (detect_smurfing_patterns related 24))%Q).
Proof.
  intros groups. unfold groups, group_by_time_window.
  split; [|split; [|split; [|split; [|split]]]].
  - destruct (sort_by_date related) as [|x rest]; [reflexivity|].
    rewrite group_loop_concat. reflexivity.
  - destruct (sort_by_date related) as [|x rest]; [constructor|].
    exact (group_loop_anchored 24 rest x [] (List.Forall_nil _)).
  - destruct (sort_by_date related) as [|x rest]; [exact I|].
    exact (group_loop_heads_apart 24 rest x []).
  - exact coordination_score_large.
  - reflexivity.
  - apply qlt_spec.
Qed.

(** ** C7 *)

(** C7 (counterexample): a record with none of the sentinel keys is
    mapped to the empty dict; nothing is raised. *)
Lemma unify_unrecognised_record_empty :
  unify_transaction_data c7_record = Ok []
  /\ forall err : py_exc, unify_transaction_data c7_record <> Raise err.
Proof. split; [reflexivity | intros err; discriminate]. Qed.

(** C7 (amended): a record carrying none of the sentinel keys
    ["From Bank"], ["transaction_id"], ["SENDER_ACCOUNT_ID"] is mapped to
    the empty dict without raising. *)
Theorem unify_unrecognised_shape (t : dict)
    (Hshape : (has_key "From Bank" t || has_key "transaction_id" t
               || has_key "SENDER_ACCOUNT_ID" t)%bool = false) :
  unify_transaction_data t = Ok [].
Proof.
  apply orb_false_iff in Hshape as [Hshape H3].
  apply orb_false_iff in Hshape as [H1 H2].
  unfold unify_transaction_data. rewrite H1, H2, H3. reflexivity.
Qed.

Lemma unify_unrecognised_shape_witness :
  (has_key "From Bank" c7_record || has_key "transaction_id" c7_record
   || has_key "SENDER_ACCOUNT_ID" c7_record)%bool = false
  /\ unify_transaction_data c7_record = Ok [].
Proof. split; [reflexivity | apply (unify_unrecognised_shape c7_record); reflexivity]. Defined.

(** ** C8 *)

Lemma update_with_errors r n st :
  update_stats r (with_errors n st) = with_errors n (update_stats r st).
Proof. reflexivity. Qed.

Lemma fold_update_with_errors l n st :
  fold_left (fun st r => update_stats r st) l (with_errors n st)
  = with_errors n (fold_left (fun st r => update_stats r st) l st).
Proof.
  revert st. induction l as [|r l IH]; intros st; [reflexivity|].
  cbn. rewrite update_with_errors. apply IH.
Qed.

Lemma with_errors_twice a b st : with_errors a (with_errors b st) = with_errors a st.
Proof. reflexivity. Qed.

Lemma fold_update_total l st :
  total_processed (fold_left (fun st r => update_stats r st) l st)
  = (total_processed st + length l)%nat.
Proof.
  revert st. induction l as [|r l IH]; intros st; cbn; [lia|].
  rewrite IH. cbn. lia.
Qed.

Section BatchProofs.
Context {row : Type} (investigate : row -> option inv_result) (laundering : row -> Z).

Lemma process_rows_spec : forall rows results st,
  fst (process_rows investigate laundering rows results st)
    = results ++ successes investigate laundering rows
  /\ snd (process_rows investigate laundering rows results st)
    = with_errors (errors st + failures investigate rows)
        (fold_left (fun st r => update_stats r st) (successes investigate laundering rows) st).
Proof.
  unfold successes, failures.
  induction rows as [|r rows IH]; intros results st.
  - cbn. rewrite app_nil_r. split; [reflexivity|].
    destruct st; unfold with_errors; cbn. f_equal. lia.
  - cbn [process_rows omap]. destruct (investigate r) as [res|] eqn:Hr.
    + destruct (IH (results ++ [label_result (laundering r) res])
                  (update_stats (label_result (laundering r) res) st)) as [H1 H2].
      rewrite filter_cons_False by congruence.
      rewrite H1, H2. cbn. rewrite Hr. cbn.
      split; [rewrite <- app_assoc; reflexivity | reflexivity].
    + destruct (IH results (with_errors (S (errors st)) st)) as [H1 H2].
      rewrite filter_cons_True by exact Hr.
      rewrite H1, H2, fold_update_with_errors, with_errors_twice. cbn. rewrite Hr. cbn.
      split; [reflexivity|]. f_equal. lia.
Qed.

Lemma successes_skip l1 l2 bad :
  investigate bad = None ->
  successes investigate laundering (l1 ++ bad :: l2) = successes investigate laundering (l1 ++ l2).
Proof.
  intros Hbad. unfold successes. rewrite !omap_app. cbn. rewrite Hbad. reflexivity.
Qed.

Lemma failures_skip l1 l2 bad :
  investigate bad = None ->
  failures investigate (l1 ++ bad :: l2) = S (failures investigate (l1 ++ l2)).
Proof.
  intros Hbad. unfold failures. rewrite !filter_app, filter_cons_True by exact Hbad.
  rewrite !length_app. cbn. lia.
Qed.

End BatchProofs.

(** C8: when the investigation of one row raises, the loop goes on: the
    results are those of the batch without that row (so the row is in no
    metric's denominator and the metrics are those of the other rows),
    every other successful row is in the results and counted in
    [total_processed], and [errors] is one more than without the row. *)
Theorem batch_case_failure_isolated {row : Type} (investigate : row -> option inv_result)
    (laundering : row -> Z) (l1 l2 : list row) (bad : row)
    (results0 : list inv_result) (st0 : stats)
    (Hbad : investigate bad = None) :
  let out := process_rows investigate laundering (l1 ++ bad :: l2) results0 st0 in
  let out' := process_rows investigate laundering (l1 ++ l2) results0 st0 in
  fst out = fst out'
  /\ fst out = results0 ++ successes investigate laundering (l1 ++ l2)
  /\ errors (snd out) = S (errors (snd out'))
  /\ with_errors 0 (snd out) = with_errors 0 (snd out')
  /\ total_processed (snd out)
       = (total_processed st0 + length (successes investigate laundering (l1 ++ l2)))%nat
  /\ calculate_accuracy_metrics (fst out) = calculate_accuracy_metrics (fst out').
Proof.
  intros out out'.
  destruct (process_rows_spec investigate laundering (l1 ++ bad :: l2) results0 st0) as [A1 A2].
  destruct (process_rows_spec investigate laundering (l1 ++ l2) results0 st0) as [B1 B2].
  fold out in A1, A2. fold out' in B1, B2.
  rewrite (successes_skip investigate laundering l1 l2 bad Hbad) in A1, A2.
  rewrite (failures_skip investigate l1 l2 bad Hbad) in A2.
  assert (Hfst : fst out = fst out') by (rewrite A1, B1; reflexivity).
  split; [exact Hfst|]. split; [exact A1|].
  split; [rewrite A2, B2; cbn; lia|].
  split; [rewrite A2, B2; reflexivity|].
  split; [rewrite A2; cbn; apply fold_update_total|].
  rewrite Hfst. reflexivity.
Qed.

Lemma batch_case_failure_isolated_witness :
  c8_investigate 1%nat = None
  /\ (let out := process_rows c8_investigate (fun _ => 1) ([0%nat] ++ 1%nat :: [2%nat]) []
                   (mk_stats 0 0 0 0 0) in
      let out' := process_rows c8_investigate (fun _ => 1) ([0%nat] ++ [2%nat]) []
                    (mk_stats 0 0 0 0 0) in
      fst out = fst out'
      /\ fst out = [] ++ successes c8_investigate (fun _ => 1) ([0%nat] ++ [2%nat])
      /\ errors (snd out) = S (errors (snd out'))
      /\ with_errors 0 (snd out) = with_errors 0 (snd out')
      /\ total_processed (snd out)
           = (total_processed (mk_stats 0 0 0 0 0)
              + length (successes c8_investigate (fun _ => 1%Z) ([0%nat] ++ [2%nat])))%nat
      /\ calculate_accuracy_metrics (fst out) = calculate_accuracy_metrics (fst out')).
Proof.
  split; [reflexivity|].
  exact (batch_case_failure_isolated c8_investigate (fun _ => 1) [0%nat] [2%nat] 1%nat []
           (mk_stats 0 0 0 0 0) eq_refl).
Defined.

(** ** C9 *)

(** C9 (code defect): on a transaction that carries a [parties] list,
    [sanctions_screening] appends the customer name and counterparty to
    that very list, so a second call on the same state screens four
    parties and reports every hit twice; [pep_screening] appends
    PEP_CUSTOMER to the input state's own [risk_factors] list, so the input
    changes and a second call reports it twice.  Each tuple lists the
    first result, the second result, the input before and the input after
    the first call. *)
Lemma screening_stages_mutate_input :
  Heap.twice Heap.sanctions_screening c9_heap (c9_state "narcotics_cartel_xyz holdings")
  = ((Some ["narcotics_cartel_xyz holdings"; "acct_9"], ["sanctions_check"],
      ["SANCTION_HIT_narcotics_cartel_xyz holdings"], ["narcotics_cartel_xyz holdings"], None),
     (Some ["narcotics_cartel_xyz holdings"; "acct_9"; "narcotics_cartel_xyz holdings"; "acct_9"],
      ["sanctions_check"],
      ["SANCTION_HIT_narcotics_cartel_xyz holdings"; "SANCTION_HIT_narcotics_cartel_xyz holdings"],
      ["narcotics_cartel_xyz holdings"; "narcotics_cartel_xyz holdings"], None),
     (Some [], [], [], [], None),
     (Some ["narcotics_cartel_xyz holdings"; "acct_9"], [], [], [], None))%string
  /\ Heap.twice Heap.pep_screening c9_heap (c9_state "Minister Bob")
  = ((Some [], ["pep_check"], ["PEP_CUSTOMER"], [], Some true),
     (Some [], ["pep_check"], ["PEP_CUSTOMER"; "PEP_CUSTOMER"], [], Some true),
     (Some [], [], [], [], None),
     (Some [], [], ["PEP_CUSTOMER"], [], None))%string.
Proof. split; vm_compute; reflexivity. Qed.

(* ================================================================== *)
(** * Further properties of the code *)

(** ** Outcome of a workflow run *)

Lemma exec_keeps_outcome_fields e n s :
  n <> sanctions_check -> n <> score_risk -> n <> generate_sar -> n <> human_review ->
  reporting_status (exec_node e n s) = reporting_status s
  /\ sanction_hits (exec_node e n s) = sanction_hits s
  /\ risk_score (exec_node e n s) = risk_score s.
Proof.
  intros H1 H2 H3 H4. destruct n; try congruence; cbn; try (repeat split; reflexivity).
  - unfold crypto_risk_analysis. case_match; repeat split; reflexivity.
  - unfold document_analysis. cbn. case_match; repeat split; reflexivity.
Qed.

Lemma next_before_scoring n s :
  n <> sanctions_check -> n <> score_risk -> n <> generate_sar -> n <> human_review ->
  match next n s with
  | Some (To m) => m <> generate_sar /\ m <> human_review
  | Some END => False
  | None => True
  end.
Proof.
  intros H1 H2 H3 H4. destruct n; try congruence; cbn;
  unfold route_initial_screening, route_crypto_analysis, route_pep_check;
  repeat case_match; simplify_eq/=; try exact I; split; discriminate.
Qed.

Lemma exec_entry_step e n s : entry_ok n s ->
  match next n (exec_node e n s) with
  | Some (To m) => entry_ok m (exec_node e n s)
  | Some END => run_outcome (exec_node e n s)
  | None => True
  end.
Proof.
  intros [Hr Hn].
  destruct (decide (n = sanctions_check)) as [->|N1].
  { destruct Hn as [Hh Hs]. cbn [exec_node next].
    unfold route_sanctions_check, sanctions_screening, update_path.
    cbn -[check_sanctions_list].
    destruct (check_sanctions_list _) as [|h hs]; cbn -[check_sanctions_list].
    - split; [exact Hr|]. split; [reflexivity|exact Hs].
    - split; [exact Hr|]. left. split; [discriminate|exact Hs]. }
  destruct (decide (n = score_risk)) as [->|N2].
  { destruct Hn as [Hh _]. cbn [exec_node next].
    unfold route_risk_score.
    destruct (Z.leb_spec 65 (risk_score (risk_scoring s))) as [Ha|Ha].
    - cbn. split; [exact Hr|]. right. split; [exact Hh|exact Ha].
    - destruct (Z.leb_spec 40 (risk_score (risk_scoring s))) as [Hb|Hb].
      + cbn. split; [exact Hr|]. split; [exact Hh|lia].
      + cbn. right; right. split; [exact Hr|]. split.
        * unfold risk_scoring, update_path. cbn. apply last_snoc.
        * split; [exact Hh|exact Hb]. }
  destruct (decide (n = generate_sar)) as [->|N3].
  { cbn. left. split; [reflexivity|]. split; [apply last_snoc|exact Hn]. }
  destruct (decide (n = human_review)) as [->|N4].
  { cbn. right; left. split; [reflexivity|]. split; [apply last_snoc|exact Hn]. }
  destruct (exec_keeps_outcome_fields e n s N1 N2 N3 N4) as (Er & Eh & Es).
  pose proof (next_before_scoring n (exec_node e n s) N1 N2 N3 N4) as Hnext.
  destruct (next n (exec_node e n s)) as [[m|]|]; [|contradiction|exact I].
  destruct Hnext as [M1 M2].
  assert (Hgen : sanction_hits s = [] /\ risk_score s = 0).
  { destruct n; try congruence; exact Hn. }
  split; [rewrite Er; exact Hr|].
  rewrite Eh, Es. destruct m; try congruence; exact Hgen.
Qed.

Lemma run_outcome_ok e : forall fuel n s t,
  entry_ok n s -> run e fuel n s = Some t -> run_outcome t.
Proof.
  induction fuel as [|f IH]; intros n s t Hs Hrun; [discriminate|].
  cbn [run] in Hrun. pose proof (exec_entry_step e n s Hs) as Hstep.
  destruct (next n (exec_node e n s)) as [[m|]|]; [| |discriminate].
  - exact (IH m _ t Hstep Hrun).
  - injection Hrun as <-. exact Hstep.
Qed.

Lemma invoke_outcome e thread_id tx c docs :
  exists t, invoke e (Some thread_id) tx c docs = Ok t /\ run_outcome t.
Proof.
  destruct (run_reaches_end e 25 initial_screening (initial_state tx c docs))
    as (t & vs & Hrun & _ & _); [cbn; lia|].
  exists t. split; [unfold invoke; rewrite Hrun; reflexivity|].
  refine (run_outcome_ok e _ _ _ t _ Hrun).
  split; [reflexivity|]. split; reflexivity.
Qed.

Lemma graph_runs_outcomes thread_id : forall calls : list (env * txn * customer * list string),
  exists rs, Forall2 (fun '(e, tx, c, docs) r => invoke e (Some thread_id) tx c docs = Ok r) calls rs
    /\ length rs = length calls /\ Forall run_outcome rs.
Proof.
  induction calls as [|[[[e tx] c] docs] rest IH].
  - exists []. split; [constructor|]. split; [reflexivity|constructor].
  - destruct (invoke_outcome e thread_id tx c docs) as (t & Hinv & Ht).
    destruct IH as (rs & H2 & Hlen & Hall).
    exists (t :: rs). split; [constructor; assumption|].
    split; [cbn; rewrite Hlen; reflexivity|constructor; assumption].
Qed.

(** X1: every run of the graph invoked with a [thread_id] ends in one of
    three ways, fixed by the sanction hits and the score: SAR_FILED exactly when there is a sanction
    hit or the score is at least 65, HUMAN_REVIEW exactly when the score is
    in [[40, 65)], no reporting status exactly when there is no hit and the
    score is below 40.  A case with a sanction hit goes to SAR generation
    without being scored: its [risk_score] stays 0. *)
Theorem run_reporting_by_score_or_sanctions (e : env) (thread_id : string) (tx : txn)
    (c : customer) (docs : list string) :
  exists t, invoke e (Some thread_id) tx c docs = Ok t
    /\ (reporting_status t = Some "SAR_FILED"%string
        <-> sanction_hits t <> [] \/ 65 <= risk_score t)
    /\ (reporting_status t = Some "HUMAN_REVIEW"%string <-> 40 <= risk_score t < 65)
    /\ (reporting_status t = None <-> sanction_hits t = [] /\ risk_score t < 40)
    /\ (sanction_hits t <> [] ->
        risk_score t = 0 /\ last (decision_path t) = Some "sar_generation"%string).
Proof.
  destruct (invoke_outcome e thread_id tx c docs) as (t & Hinv & Ht).
  exists t. split; [exact Hinv|].
  destruct Ht as [(Hr & Hl & [(Hh & Hs)|(Hh & Hs)])|[(Hr & Hl & Hh & Hs)|(Hr & Hl & Hh & Hs)]];
    rewrite Hr; repeat split; intros; try congruence; try lia;
    try (destruct H as [H|H]; [congruence|lia]);
    try (destruct H; congruence);
    try (right; lia); try (left; assumption).
Qed.

(** X2: in the formatted output of every run of the graph invoked with a
    [thread_id], the risk level is HIGH or
    CRITICAL exactly when a SAR was filed without a sanction hit, MEDIUM
    exactly when the case went to human review, and LOW exactly when there
    is no reporting status or the SAR was filed on a sanction hit. *)
Theorem formatted_risk_level_vs_reporting (e : env) (thread_id : string) (tx : txn)
    (c : customer) (docs : list string) :
  exists t, invoke e (Some thread_id) tx c docs = Ok t
    /\ let o := format_analysis_output t in
       ((ao_risk_level o = "CRITICAL"%string \/ ao_risk_level o = "HIGH"%string)
        <-> ao_status o = Some "SAR_FILED"%string /\ sanction_hits t = [])
       /\ (ao_risk_level o = "MEDIUM"%string <-> ao_status o = Some "HUMAN_REVIEW"%string)
       /\ (ao_risk_level o = "LOW"%string <-> ao_status o = None \/ sanction_hits t <> []).
Proof.
  destruct (invoke_outcome e thread_id tx c docs) as (t & Hinv & Ht).
  exists t. split; [exact Hinv|]. cbn. unfold determine_risk_level.
  destruct Ht as [(Hr & _ & [(Hh & Hs)|(Hh & Hs)])|[(Hr & _ & Hh & Hs)|(Hr & _ & Hh & Hs)]];
    rewrite Hr, ?Hs;
    [| destruct (Z.leb_spec 80 (risk_score t)), (Z.leb_spec 65 (risk_score t))
     | destruct (Z.leb_spec 80 (risk_score t)), (Z.leb_spec 65 (risk_score t)),
         (Z.leb_spec 40 (risk_score t))
     | destruct (Z.leb_spec 80 (risk_score t)), (Z.leb_spec 65 (risk_score t)),
         (Z.leb_spec 40 (risk_score t))];
    cbn; try lia; repeat split; intros;
    repeat match goal with H : _ \/ _ |- _ => destruct H | H : _ /\ _ |- _ => destruct H end;
    try congruence; try tauto.
Qed.

Lemma count_investigation_step st o :
  let st' := count_investigation st o in
  st_total st' = st_total st
  /\ (st_high_risk st' + st_medium_risk st' + st_low_risk st'
      = S (st_high_risk st + st_medium_risk st + st_low_risk st))%nat
  /\ (st_sar_filed st' + st_human_review st' <= S (st_sar_filed st + st_human_review st))%nat
  /\ ((Py.mem (ao_risk_level o) ["HIGH"; "CRITICAL"]%string = true ->
       ao_status o = Some "SAR_FILED"%string) ->
      (Py.mem (ao_risk_level o) ["HIGH"; "CRITICAL"]%string = false ->
       (String.eqb (ao_risk_level o) "MEDIUM" = true <-> ao_status o = Some "HUMAN_REVIEW"%string)) ->
      (st_human_review st' + st_medium_risk st = st_human_review st + st_medium_risk st')%nat
      /\ (st_high_risk st' + st_sar_filed st <= st_sar_filed st' + st_high_risk st)%nat).
Proof.
  unfold count_investigation.
  destruct (Py.mem (ao_risk_level o) _) eqn:Hm;
  [|destruct (String.eqb (ao_risk_level o) "MEDIUM") eqn:Hmed];
  destruct (decide (ao_status o = Some "SAR_FILED"%string)) as [Hs|Hs];
  first [rewrite (bool_decide_true _ Hs) | rewrite (bool_decide_false _ Hs)];
  destruct (decide (ao_status o = Some "HUMAN_REVIEW"%string)) as [Hh|Hh];
  try rewrite (bool_decide_true _ Hh); try rewrite (bool_decide_false _ Hh);
  cbn; (split; [reflexivity|]); (split; [lia|]); (split; [lia|]);
  intros C1 C2; rewrite ?Hm, ?Hmed in C1, C2;
  first [ specialize (C1 eq_refl) | specialize (C2 eq_refl) as [C2 C2'] ];
  split; try lia; try congruence;
  try (exfalso; apply Hh; apply C2; reflexivity);
  try (pose proof (C2' Hh); discriminate).
Qed.

Lemma fold_statistics : forall (L : list analysis_output) st,
  let st' := fold_left count_investigation L st in
  st_total st' = st_total st
  /\ (st_high_risk st' + st_medium_risk st' + st_low_risk st'
      = st_high_risk st + st_medium_risk st + st_low_risk st + length L)%nat
  /\ (st_sar_filed st' + st_human_review st' <= st_sar_filed st + st_human_review st + length L)%nat
  /\ (Forall (fun o =>
        (Py.mem (ao_risk_level o) ["HIGH"; "CRITICAL"]%string = true ->
         ao_status o = Some "SAR_FILED"%string)
        /\ (Py.mem (ao_risk_level o) ["HIGH"; "CRITICAL"]%string = false ->
            (String.eqb (ao_risk_level o) "MEDIUM" = true
             <-> ao_status o = Some "HUMAN_REVIEW"%string))) L ->
      (st_human_review st' + st_medium_risk st = st_human_review st + st_medium_risk st')%nat
      /\ (st_high_risk st' + st_sar_filed st <= st_sar_filed st' + st_high_risk st)%nat).
Proof.
  induction L as [|o L IH]; intros st; cbn.
  - split; [reflexivity|]. split; [lia|]. split; [lia|]. intros _. lia.
  - destruct (count_investigation_step st o) as (T & A & B & C).
    destruct (IH (count_investigation st o)) as (T' & A' & B' & C').
    split; [congruence|]. split; [lia|]. split; [lia|].
    intros Hall. inversion Hall as [|? ? [Ho1 Ho2] Hrest]; subst.
    destruct (C Ho1 Ho2) as [C1 C2]. destruct (C' Hrest) as [C1' C2']. lia.
Qed.

Lemma outcome_output_consistent t : run_outcome t ->
  let o := format_analysis_output t in
  (Py.mem (ao_risk_level o) ["HIGH"; "CRITICAL"]%string = true ->
   ao_status o = Some "SAR_FILED"%string)
  /\ (Py.mem (ao_risk_level o) ["HIGH"; "CRITICAL"]%string = false ->
      (String.eqb (ao_risk_level o) "MEDIUM" = true <-> ao_status o = Some "HUMAN_REVIEW"%string)).
Proof.
  cbn. unfold determine_risk_level.
  intros [(Hr & _ & [(_ & Hs)|(_ & Hs)])|[(Hr & _ & _ & Hs)|(Hr & _ & _ & Hs)]];
    rewrite Hr;
    [rewrite Hs; cbn; split; intros; [discriminate|split; intros; discriminate]
    | destruct (Z.leb_spec 80 (risk_score t)); [|destruct (Z.leb_spec 65 (risk_score t)); [|lia]]
    | destruct (Z.leb_spec 80 (risk_score t)); [lia|];
      destruct (Z.leb_spec 65 (risk_score t)); [lia|];
      destruct (Z.leb_spec 40 (risk_score t)); [|lia]
    | destruct (Z.leb_spec 80 (risk_score t)); [lia|];
      destruct (Z.leb_spec 65 (risk_score t)); [lia|];
      destruct (Z.leb_spec 40 (risk_score t)); [lia|]];
    cbn; split; intros; try reflexivity; try discriminate; split; intros; try reflexivity;
    try discriminate.
Qed.

(** X3: for every batch of transactions run through the graph invoked
    with a [thread_id], the statistics of
    [_calculate_investigation_statistics] on the formatted results count
    every transaction, split them into high, medium and low risk, count
    exactly the medium-risk cases as human reviews, and count every
    high-risk case as a filed SAR; SARs filed on a sanction hit are counted
    as low risk, so [high_risk] may be below [sar_filed]. *)
Theorem batch_statistics_consistent (calls : list (env * txn * customer * list string))
    (thread_id : string) :
  exists rs, Forall2 (fun '(e, tx, c, docs) r => invoke e (Some thread_id) tx c docs = Ok r)
               calls rs
    /\ let st := calculate_investigation_statistics (map format_analysis_output rs) in
       st_total st = length calls
       /\ (st_high_risk st + st_medium_risk st + st_low_risk st = st_total st)%nat
       /\ st_human_review st = st_medium_risk st
       /\ (st_high_risk st <= st_sar_filed st)%nat
       /\ (st_sar_filed st + st_human_review st <= st_total st)%nat.
Proof.
  destruct (graph_runs_outcomes thread_id calls) as (rs & Hrun & Hlen & Hall).
  exists rs. split; [exact Hrun|].
  unfold calculate_investigation_statistics.
  destruct (fold_statistics (map format_analysis_output rs)
              (mk_inv_stats (length (map format_analysis_output rs)) 0 0 0 0 0))
    as (T & A & B & C).
  cbn in T, A, B, C. rewrite length_map in *.
  assert (Hc : Forall (fun o =>
        (Py.mem (ao_risk_level o) ["HIGH"; "CRITICAL"]%string = true ->
         ao_status o = Some "SAR_FILED"%string)
        /\ (Py.mem (ao_risk_level o) ["HIGH"; "CRITICAL"]%string = false ->
            (String.eqb (ao_risk_level o) "MEDIUM" = true
             <-> ao_status o = Some "HUMAN_REVIEW"%string))) (map format_analysis_output rs)).
  { apply Forall_map. eapply Forall_impl; [exact Hall|]. apply outcome_output_consistent. }
  destruct (C Hc) as [C1 C2].
  cbv zeta in *. rewrite Hlen in *. rewrite T.
  split; [reflexivity|]. split; [lia|]. split; [lia|]. split; lia.
Qed.


Lemma qle_spec (x y : Q) : Py.qle x y = true <-> (x <= y)%Q.
Proof. unfold Py.qle. apply Qle_bool_iff. Qed.

Lemma qle_false (x y : Q) : Py.qle x y = false <-> (y < x)%Q.
Proof.
  split.
  - intros H. apply Qnot_le_lt. intros Hle. apply qle_spec in Hle. congruence.
  - intros H. destruct (Py.qle x y) eqn:E; [|reflexivity].
    apply qle_spec in E. exfalso. exact (Qlt_not_le _ _ H E).
Qed.

Lemma qlt_false (x y : Q) : Py.qlt x y = false <-> (y <= x)%Q.
Proof.
  unfold Py.qlt. rewrite negb_false_iff. apply Qle_bool_iff.
Qed.

Lemma qmin_cases (x y : Q) : ((x <= y)%Q /\ Qmin x y == x) \/ ((y <= x)%Q /\ Qmin x y == y).
Proof.
  destruct (Q.min_spec x y) as [[H1 H2]|[H1 H2]].
  - left. split; [apply Qlt_le_weak; exact H1|rewrite H2; reflexivity].
  - right. split; [exact H1|rewrite H2; reflexivity].
Qed.

Lemma qmax_cases (x y : Q) : ((y <= x)%Q /\ Qmax x y == x) \/ ((x <= y)%Q /\ Qmax x y == y).
Proof.
  destruct (Q.max_spec x y) as [[H1 H2]|[H1 H2]].
  - right. split; [apply Qlt_le_weak; exact H1|rewrite H2; reflexivity].
  - left. split; [exact H1|rewrite H2; reflexivity].
Qed.

Lemma qnat_S n : (Tools.qnat (S n) == Tools.qnat n + 1)%Q.
Proof. unfold Tools.qnat. rewrite Nat2Z.inj_succ, <- Z.add_1_r, inject_Z_plus. reflexivity. Qed.

Lemma qnat_nonneg n : (0 <= Tools.qnat n)%Q.
Proof. unfold Tools.qnat. change 0%Q with (inject_Z 0). rewrite <- Zle_Qle. lia. Qed.

Lemma qnat_le m n : (m <= n)%nat -> (Tools.qnat m <= Tools.qnat n)%Q.
Proof. intros H. unfold Tools.qnat. rewrite <- Zle_Qle. lia. Qed.

Lemma qlt_qmin1 x s : (x < 1)%Q -> Py.qlt x (Qmin 1 s) = true <-> (x < s)%Q.
Proof.
  intros Hx. rewrite qlt_spec.
  destruct (qmin_cases 1 s) as [[H1 H2]|[H1 H2]]; rewrite H2; split; intros; lra.
Qed.

Lemma structuring_score_detected cur tot k T :
  Py.qlt (7#10) (Tools.calculate_structuring_score cur tot k T) = true <->
  ((T * (95#100) <= cur)%Q /\ (2 <= k)%nat /\ (T <= tot)%Q).
Proof.
  unfold Tools.calculate_structuring_score.
  rewrite qlt_qmin1 by lra.
  (destruct (Py.qle (T * (95#100)) cur) eqn:H1;
    [apply qle_spec in H1|apply qle_false in H1]);
  (destruct (Py.qle T tot) eqn:H2; [apply qle_spec in H2|apply qle_false in H2]);
  (assert (Hk : (k = 0 \/ k = 1 \/ 2 <= k)%nat) by lia);
  (destruct Hk as [->|[->|Hk]];
   [ cbn [Nat.ltb Nat.leb]
   | cbn [Nat.ltb Nat.leb];
     replace (Qmin (4#10) (inject_Z (Z.of_nat 1) * (1#10))) with (1#10)%Q by reflexivity
   | replace (Nat.ltb 0 k) with true by (symmetry; apply Nat.ltb_lt; lia);
     assert (Hm : (2#10 <= Qmin (4#10) (inject_Z (Z.of_nat k) * (1#10)) <= 4#10)%Q)
       by (assert (Hz : (inject_Z 2 <= inject_Z (Z.of_nat k))%Q) by (rewrite <- Zle_Qle; lia); change (inject_Z 2) with (2#1)%Q in Hz;
           destruct (qmin_cases (4#10) (inject_Z (Z.of_nat k) * (1#10))) as [[A B]|[A B]];
           rewrite B; lra);
     revert Hm; generalize (Qmin (4#10) (inject_Z (Z.of_nat k) * (1#10))); intros m Hm ]);
  split; intros; repeat split; try lia; try lra;
  repeat match goal with H : _ /\ _ |- _ => destruct H end; try lia; try lra.
Qed.

Lemma qsum_filter_lower (p : Q -> bool) (c : Q) (l : list Q) :
  (0 <= c)%Q -> (forall a, p a = true -> (c <= a)%Q) ->
  (Tools.qnat (length (List.filter p l)) * c <= qsum (List.filter p l))%Q.
Proof.
  intros Hc Hp. induction l as [|a l IH]; cbn [List.filter].
  - change (Tools.qnat (length [])) with 0%Q. change (qsum []) with 0%Q. lra.
  - destruct (p a) eqn:E; [|exact IH].
    cbn [length]. rewrite qnat_S. unfold qsum in *. cbn [fold_right].
    specialize (Hp a E). lra.
Qed.

Lemma scan_related_ok T sT : forall related ras acc total,
  Tools.amounts_of related = Ok ras ->
  exists susp tot, Tools.scan_related T sT related acc total = Ok (susp, tot)
    /\ length susp = (length acc + length (List.filter (fun a => Py.qlt a T && Py.qle sT a) ras))%nat
    /\ (tot == total + qsum (List.filter (fun a => Py.qlt a T && Py.qle sT a) ras))%Q.
Proof.
  induction related as [|t rest IH]; intros ras acc total H; cbn in H.
  - inversion H; subst. exists acc, total. cbn. split; [reflexivity|]. split; [lia|]. lra.
  - destruct (Tools.amount_of t) as [a|e] eqn:Ha; cbn in H; [|discriminate].
    destruct (Tools.amounts_of rest) as [l|e] eqn:Hl; cbn in H; [|discriminate].
    inversion H; subst. cbn. rewrite Ha. cbn.
    destruct (Py.qlt a T && Py.qle sT a)%bool eqn:Hp; cbn.
    + destruct (IH l (acc ++ [t]) (total + a)%Q eq_refl) as (susp & tot & Hs & Hlen & Htot).
      exists susp, tot. split; [exact Hs|]. rewrite length_app in Hlen. cbn in Hlen.
      split; [lia|]. rewrite Htot. unfold qsum in *. cbn [fold_right]. lra.
    + destruct (IH l acc total eq_refl) as (susp & tot & Hs & Hlen & Htot).
      exists susp, tot. split; [exact Hs|]. split; [exact Hlen|exact Htot].
Qed.

(** X4: when both amount conversions succeed, detect_structuring_patterns reports no error, lists one suspicious transaction per related amount in [95% of the threshold, threshold), and detects structuring exactly when the current amount is at least 95% of the threshold and there are at least two such related amounts. *)
Theorem structuring_detected_iff (transaction_data : dict) (related : list dict)
    (reporting_threshold current_amount : Q) (related_amounts : list Q) :
  (0 <= reporting_threshold)%Q ->
  Tools.amount_of transaction_data = Ok current_amount ->
  Tools.amounts_of related = Ok related_amounts ->
  let near := List.filter (fun a => Py.qlt a reporting_threshold
                               && Py.qle (reporting_threshold * (95#100)) a)%bool
                related_amounts in
  let r := Tools.detect_structuring_patterns transaction_data related reporting_threshold in
  Tools.sr_error r = false
  /\ length (Tools.sr_suspicious r) = length near
  /\ (Tools.sr_detected r = true
      <-> (reporting_threshold * (95#100) <= current_amount)%Q /\ (2 <= length near)%nat).
Proof.
  intros HT Hc Hr. cbn zeta. unfold Tools.detect_structuring_patterns.
  rewrite Hc. cbn.
  destruct (scan_related_ok reporting_threshold (reporting_threshold * (95#100)) related
              related_amounts [] current_amount Hr) as (susp & tot & Hs & Hlen & Htot).
  rewrite Hs. cbn. cbn in Hlen. split; [reflexivity|]. split; [exact Hlen|].
  rewrite structuring_score_detected, Hlen.
  pose proof (qsum_filter_lower (fun a => Py.qlt a reporting_threshold
                               && Py.qle (reporting_threshold * (95#100)) a)%bool
                (reporting_threshold * (95#100)) related_amounts) as Hsum.
  split.
  - intros (A & B & _). split; assumption.
  - intros (A & B). split; [exact A|]. split; [exact B|].
    assert (Hq : (0 <= reporting_threshold * (95#100))%Q) by lra.
    specialize (Hsum Hq).
    assert (Hp : forall a, (Py.qlt a reporting_threshold
                            && Py.qle (reporting_threshold * (95#100)) a)%bool = true ->
                           (reporting_threshold * (95#100) <= a)%Q).
    { intros a Ha. apply andb_true_iff in Ha as [_ Ha]. apply qle_spec. exact Ha. }
    specialize (Hsum Hp).
    pose proof (qnat_le 2 _ B) as H2. change (Tools.qnat 2) with (2#1)%Q in H2.
    rewrite Htot.
    assert (Hm : (2 * (reporting_threshold * (95#100)) <=
                  Tools.qnat (length (List.filter (fun a => Py.qlt a reporting_threshold
                               && Py.qle (reporting_threshold * (95#100)) a)%bool related_amounts))
                  * (reporting_threshold * (95#100)))%Q)
      by (apply Qmult_le_compat_r; assumption).
    lra.
Qed.

Lemma amounts_of_length : forall related ras,
  Tools.amounts_of related = Ok ras -> length ras = length related.
Proof.
  induction related as [|t rest IH]; intros ras H; cbn in H.
  - inversion H; reflexivity.
  - destruct (Tools.amount_of t); cbn in H; [|discriminate].
    destruct (Tools.amounts_of rest) as [l|]eqn:E; cbn in H; [|discriminate].
    inversion H; subst. cbn. f_equal. apply IH. reflexivity.
Qed.

Lemma frequency_gt_5 n :
  Py.qlt 5 (inject_Z (Z.of_nat (S n)) / 30)%Q = true <-> (150 <= n)%nat.
Proof.
  rewrite qlt_spec. unfold Qdiv. change (/ 30)%Q with (1#30)%Q.
  split; intros H.
  - assert (H' : (inject_Z 150 < inject_Z (Z.of_nat (S n)))%Q)
      by (change (inject_Z 150) with (150#1)%Q; lra).
    rewrite <- Zlt_Qlt in H'. lia.
  - assert (H' : (inject_Z 150 < inject_Z (Z.of_nat (S n)))%Q) by (rewrite <- Zlt_Qlt; lia).
    change (inject_Z 150) with (150#1)%Q in H'. lra.
Qed.

Lemma anomaly_score_spec m : Tools.timing_anomaly_detected m = false ->
  Py.qle (7#10) (Tools.calculate_anomaly_score m)
    = (Py.qlt 5 (Tools.transaction_frequency m) && Py.qlt 1000000 (Tools.amount_variance m)
       && String.eqb (Tools.amount_trend m) "increasing")%bool
  /\ Py.qlt (4#5) (Tools.calculate_anomaly_score m) = false.
Proof.
  intros Ht. unfold Tools.calculate_anomaly_score. rewrite Ht.
  destruct (Py.qlt 5 _), (Py.qlt 1000000 _), (String.eqb _ _); split; reflexivity.
Qed.

Lemma identify_anomalies_spec m : Tools.timing_anomaly_detected m = false ->
  (length (Tools.identify_anomalies m) = 3%nat
   <-> (Py.qlt 5 (Tools.transaction_frequency m) && Py.qlt 1000000 (Tools.amount_variance m)
        && String.eqb (Tools.amount_trend m) "increasing")%bool = true)
  /\ ~ In "Unusual timing patterns"%string (Tools.identify_anomalies m).
Proof.
  intros Ht. unfold Tools.identify_anomalies. rewrite Ht.
  destruct (Py.qlt 5 _), (Py.qlt 1000000 _), (String.eqb _ _); cbn;
    (split; [split; intros; first [reflexivity | discriminate | lia] |]);
    intros H; repeat (destruct H as [H|H]; [discriminate H|]); destruct H.
Qed.

(** X6: when the amounts convert, analyze_behavioral_anomalies flags an anomaly exactly when there are at least 150 related transactions, the variance exceeds 1000000 and the trend is increasing; then it lists exactly three anomalies, never the timing one, and its confidence is never high. *)
Theorem behavioral_anomalous_iff (transaction_data : dict) (related : list dict)
    (related_amounts : list Q) (current_amount : Q) :
  Tools.amounts_of related = Ok related_amounts ->
  Tools.amount_of transaction_data = Ok current_amount ->
  let r := Tools.analyze_behavioral_anomalies transaction_data related in
  let m := Tools.calculate_behavioral_metrics related_amounts current_amount in
  Tools.br_error r = false
  /\ (Tools.br_is_anomalous r = true
      <-> (150 <= length related)%nat /\ (1000000 < Tools.amount_variance m)%Q
          /\ Tools.amount_trend m = "increasing"%string)
  /\ (Tools.br_is_anomalous r = true <-> length (Tools.br_anomalies r) = 3%nat)
  /\ ~ In "Unusual timing patterns"%string (Tools.br_anomalies r)
  /\ Tools.br_confidence_level r <> "high"%string.
Proof.
  intros Hr Hc. cbn zeta. unfold Tools.analyze_behavioral_anomalies.
  rewrite Hr. cbn. rewrite Hc. cbn.
  pose proof (amounts_of_length _ _ Hr) as Hlen.
  set (m := Tools.calculate_behavioral_metrics related_amounts current_amount).
  assert (Ht : Tools.timing_anomaly_detected m = false) by reflexivity.
  destruct (anomaly_score_spec m Ht) as [A1 A2].
  destruct (identify_anomalies_spec m Ht) as [I1 I2].
  rewrite A1, I1. split; [reflexivity|].
  assert (Hf : Tools.transaction_frequency m
               = (inject_Z (Z.of_nat (S (length related_amounts))) / 30)%Q) by reflexivity.
  rewrite Hf, !andb_true_iff, frequency_gt_5, qlt_spec, String.eqb_eq, Hlen.
  split; [tauto|]. split; [tauto|]. split; [exact I2|].
  unfold Tools.confidence_level. rewrite A2.
  destruct (Py.qlt (1#2) _); discriminate.
Qed.







(** X7: the geographic risk level depends only on the country lists and the location mismatch: high or medium country, mismatch or not; an empty location never counts as a mismatch. *)
Theorem geographic_risk_level_table (customer_location transaction_location country_code : string) :
  let r := Tools.assess_geographic_risks customer_location transaction_location country_code in
  let mis := Tools.mismatch_detected (Tools.gr_location_mismatch r) in
  Tools.gr_risk_level r =
    (if Py.mem country_code Tools.high_risk_countries then
       if mis then "high" else "medium"
     else if Py.mem country_code Tools.medium_risk_countries then
       if mis then "medium" else "low"
     else "low")%string
  /\ (customer_location = ""%string \/ transaction_location = ""%string -> mis = false).
Proof.
  cbn zeta. unfold Tools.assess_geographic_risks. cbn [Tools.gr_risk_level Tools.gr_location_mismatch].
  split.
  - unfold Tools.calculate_geographic_risk_score, Tools.assess_country_risk.
    destruct (Py.mem country_code Tools.high_risk_countries);
      [|destruct (Py.mem country_code Tools.medium_risk_countries)];
      unfold Tools.assess_location_mismatch;
      (destruct (String.eqb customer_location "" || String.eqb transaction_location "")%bool;
       [|destruct (String.eqb (Tools.strip (Tools.last_field customer_location))
                              (Tools.strip (Tools.last_field transaction_location)))]);
      reflexivity.
  - intros [->| ->]; unfold Tools.assess_location_mismatch; cbn;
      [reflexivity|rewrite orb_true_r; reflexivity].
Qed.

Lemma string_app_assoc_local (a b c : string) : ((a ++ b) ++ c)%string = (a ++ (b ++ c))%string.
Proof.
  induction a as [|x a IH]; [reflexivity|].
  change (String x ((a ++ b) ++ c) = String x (a ++ (b ++ c)))%string. rewrite IH. reflexivity.
Qed.

Lemma string_app_nil_r (s : string) : (s ++ "")%string = s.
Proof.
  induction s as [|x s IH]; [reflexivity|].
  change (String x (s ++ "") = String x s)%string. rewrite IH. reflexivity.
Qed.

Lemma last_field_from_nocomma : forall s cur,
  ~ In ","%char (list_ascii_of_string s) -> Tools.last_field_from s cur = (cur ++ s)%string.
Proof.
  induction s as [|x s IH]; intros cur H; cbn.
  - rewrite string_app_nil_r. reflexivity.
  - cbn in H. destruct (Ascii.eqb_spec x ","%char) as [E|E]; [exfalso; tauto|].
    rewrite IH by tauto. rewrite string_app_assoc_local. reflexivity.
Qed.

Lemma last_field_from_after_comma : forall p c cur,
  Tools.last_field_from (p ++ String ","%char c) cur = Tools.last_field_from c EmptyString.
Proof.
  induction p as [|x p IH]; intros c cur; [reflexivity|].
  change (Tools.last_field_from (String x (p ++ String ","%char c)) cur
          = Tools.last_field_from c EmptyString).
  cbn [Tools.last_field_from]. destruct (Ascii.eqb x ","%char); apply IH.
Qed.

Lemma last_field_of_location loc c :
  ~ In ","%char (list_ascii_of_string c) ->
  (loc = c \/ exists p, loc = (p ++ String ","%char c)%string) ->
  Tools.last_field loc = c.
Proof.
  intros Hc [->|[p ->]]; unfold Tools.last_field.
  - rewrite last_field_from_nocomma by exact Hc. reflexivity.
  - rewrite last_field_from_after_comma, last_field_from_nocomma by exact Hc. reflexivity.
Qed.

(** X8: for non-empty locations whose last comma-separated fields are c1 and c2, a mismatch is reported exactly when the stripped fields differ. *)
Theorem location_mismatch_last_field (customer_location transaction_location c1 c2 : string) :
  customer_location <> ""%string -> transaction_location <> ""%string ->
  ~ In ","%char (list_ascii_of_string c1) -> ~ In ","%char (list_ascii_of_string c2) ->
  (customer_location = c1 \/ exists p, customer_location = (p ++ String ","%char c1)%string) ->
  (transaction_location = c2 \/ exists p, transaction_location = (p ++ String ","%char c2)%string) ->
  Tools.mismatch_detected (Tools.assess_location_mismatch customer_location transaction_location)
    = negb (String.eqb (Tools.strip c1) (Tools.strip c2)).
Proof.
  intros Hne1 Hne2 Hc1 Hc2 H1 H2. unfold Tools.assess_location_mismatch.
  apply String.eqb_neq in Hne1, Hne2. rewrite Hne1, Hne2. cbn.
  rewrite (last_field_of_location _ _ Hc1 H1), (last_field_of_location _ _ Hc2 H2).
  reflexivity.
Qed.

Lemma location_mismatch_last_field_witness :
  Tools.mismatch_detected (Tools.assess_location_mismatch "Paris, FR" "Lyon,FR") = false.
Proof.
  change false with (negb (String.eqb (Tools.strip " FR") (Tools.strip "FR"))).
  apply (location_mismatch_last_field "Paris, FR" "Lyon,FR" " FR" "FR");
    [discriminate|discriminate|cbn; intuition discriminate|cbn; intuition discriminate
    |right; exists "Paris"%string; reflexivity|right; exists "Lyon"%string; reflexivity].
Defined.

Lemma build_edges_ok tx : forall related es,
  Tools.build_edges tx related = Ok es ->
  map Tools.e_target es = map Tools.n_transaction_id (List.filter (Tools.are_connected tx) related)
  /\ Forall (fun e => Tools.e_source e = Tools.n_transaction_id tx) es.
Proof.
  induction related as [|r rest IH]; intros es H; cbn in H |- *.
  - inversion H; subst. split; [reflexivity|constructor].
  - destruct (Tools.are_connected tx r); [|apply IH; exact H].
    destruct (Tools.calculate_connection_weight tx r) as [w|]; cbn in H; [|discriminate].
    destruct (Tools.build_edges tx rest) as [es'|] eqn:E; cbn in H; [|discriminate].
    inversion H; subst. destruct (IH es' eq_refl) as [A B].
    cbn. rewrite A. split; [reflexivity|constructor; [reflexivity|exact B]].
Qed.







Lemma qdiv_le_1 (a b : Q) : (0 <= a)%Q -> (a <= b)%Q -> (0 < b)%Q -> (0 <= a / b <= 1)%Q.
Proof.
  intros Ha Hab Hb. split.
  - apply Qle_shift_div_l; [exact Hb|]. lra.
  - apply Qle_shift_div_r; [exact Hb|]. lra.
Qed.

Lemma suspicious_connections_forall (P : Tools.edge -> Prop) (es : list Tools.edge) :
  Forall P es ->
  Forall (fun e => P e /\ (4#5 <= Tools.e_weight e)%Q) (Tools.identify_suspicious_connections es).
Proof.
  unfold Tools.identify_suspicious_connections.
  induction 1 as [|e es He Hes IH]; [constructor|].
  rewrite filter_cons. case_decide as Hw; [|exact IH].
  constructor; [|exact IH]. split; [exact He|]. apply qle_spec. exact Hw.
Qed.

(** X10: without error, the network has one node per related transaction plus the central one, one edge per connected related transaction, every suspicious edge starts at the central transaction with weight at least 0.8, the density is in [0,1] and the average degree in [0,2). *)
Theorem network_result_shape (transaction_data : Tools.ntx) (related : list Tools.ntx) :
  let r := Tools.analyze_transaction_network transaction_data related in
  Tools.nr_error r = false ->
  let p := Tools.nr_properties r in
  Tools.network_size r = S (length related)
  /\ Tools.node_count p = S (length related)
  /\ Tools.edge_count p = length (List.filter (Tools.are_connected transaction_data) related)
  /\ (length (Tools.suspicious_connection_details r) <= Tools.edge_count p)%nat
  /\ Forall (fun e => Tools.e_source e = Tools.n_transaction_id transaction_data
                      /\ (4#5 <= Tools.e_weight e)%Q) (Tools.suspicious_connection_details r)
  /\ (0 <= Tools.density p <= 1)%Q
  /\ (0 <= Tools.average_degree p < 2)%Q.
Proof.
  cbn zeta. unfold Tools.analyze_transaction_network.
  destruct (Tools.build_edges transaction_data related) as [es|e] eqn:E; cbn; [|discriminate].
  intros _. destruct (build_edges_ok _ _ _ E) as [Ht Hs].
  assert (Hlen : length es = length (List.filter (Tools.are_connected transaction_data) related))
    by (rewrite <- (length_map Tools.e_target es), Ht, length_map; reflexivity).
  assert (Hle : (length es <= length related)%nat) by (rewrite Hlen; apply List.filter_length_le).
  split; [reflexivity|]. split; [reflexivity|]. split; [exact Hlen|].
  split; [apply length_filter|].
  split.
  { apply suspicious_connections_forall. exact Hs. }
  rewrite !qnat_S.
  pose proof (qnat_le _ _ Hle) as HQ. pose proof (qnat_nonneg (length es)) as H0.
  set (k := Tools.qnat (length related)) in *. set (x := Tools.qnat (length es)) in *.
  assert (Hk : (0 <= k)%Q) by apply qnat_nonneg.
  split.
  - assert (Hk01 : (k <= 0 \/ 1 <= k)%Q).
    { unfold k, Tools.qnat. destruct (length related) as [|n].
      - left. apply Qle_refl.
      - right. change 1%Q with (inject_Z 1). rewrite <- Zle_Qle. lia. }
    set (D := ((k + 1) * (k + 1 - 1) / 2)%Q).
    assert (HM1 : (1 <= Qmax 1 D)%Q) by apply Q.le_max_l.
    assert (HMD : (D <= Qmax 1 D)%Q) by apply Q.le_max_r.
    apply qdiv_le_1; [exact H0| |lra].
    destruct Hk01 as [Hk0|Hk1]; [lra|].
    assert (HD : (k <= D)%Q).
    { unfold D, Qdiv. change (/ 2)%Q with (1#2)%Q. nra. }
    lra.
  - destruct (qmax_cases 1 (k + 1)) as [[A B]|[A B]]; rewrite B.
    + unfold Qdiv. change (/ 1)%Q with 1%Q. split; nra.
    + split.
      * apply Qle_shift_div_l; lra.
      * apply Qlt_shift_div_r; lra.
Qed.

(** X11: for connected transactions with convertible amounts, the connection weight is at least 0.8 exactly when they share both customer and counterparty, or both amounts are positive with a ratio above 0.8. *)
Theorem connection_weight_suspicious (tx1 tx2 : Tools.ntx) (amount1 amount2 : Q) :
  py_float (Tools.n_amount tx1) = Ok amount1 ->
  py_float (Tools.n_amount tx2) = Ok amount2 ->
  Tools.are_connected tx1 tx2 = true ->
  exists w, Tools.calculate_connection_weight tx1 tx2 = Ok w
    /\ (Py.qle (4#5) w = true
        <-> (Tools.n_customer_id tx1 = Tools.n_customer_id tx2
             /\ Tools.n_counterparty_id tx1 = Tools.n_counterparty_id tx2)
            \/ ((0 < amount1)%Q /\ (0 < amount2)%Q
                /\ (4#5 < Qmin amount1 amount2 / Qmax amount1 amount2)%Q)).
Proof.
  intros H1 H2 Hc. unfold Tools.calculate_connection_weight. rewrite H1, H2. cbn.
  eexists. split; [reflexivity|].
  unfold Tools.are_connected in Hc.
  destruct (decide (Tools.n_customer_id tx1 = Tools.n_customer_id tx2)) as [Ec|Ec];
    [rewrite (bool_decide_true _ Ec) in Hc |- * | rewrite (bool_decide_false _ Ec) in Hc |- *];
  (destruct (decide (Tools.n_counterparty_id tx1 = Tools.n_counterparty_id tx2)) as [Ep|Ep];
    [rewrite (bool_decide_true _ Ep) in Hc |- * | rewrite (bool_decide_false _ Ep) in Hc |- *]);
  cbn in Hc; try discriminate;
  (destruct (Py.qlt 0 amount1 && Py.qlt 0 amount2)%bool eqn:Hp;
   [destruct (Py.qlt (4#5) (Qmin amount1 amount2 / Qmax amount1 amount2)) eqn:Hr|]);
  match goal with |- (Py.qle ?a ?b = true <-> _) =>
    let v := eval vm_compute in (Py.qle a b) in change (Py.qle a b) with v end;
  rewrite ?andb_true_iff, ?qlt_spec in Hp; try rewrite qlt_spec in Hr;
  try rewrite andb_false_iff in Hp; try rewrite !qlt_false in Hp; try rewrite qlt_false in Hr;
  split; intros; try tauto;
  repeat match goal with H : _ \/ _ |- _ => destruct H | H : _ /\ _ |- _ => destruct H end;
  try discriminate; try contradiction; try lra.
Qed.

Lemma determine_overall_risk_level_spec (x : Q) :
  Tools.determine_overall_risk_level x =
    (if Qle_bool (4#5) x then "CRITICAL" else if Qle_bool (3#5) x then "HIGH"
     else if Qle_bool (2#5) x then "MEDIUM" else "LOW")%string.
Proof. reflexivity. Qed.

Lemma determine_overall_risk_level_clamp (x : Q) :
  Tools.determine_overall_risk_level (Qmin 1 (Qmax 0 x)) = Tools.determine_overall_risk_level x.
Proof.
  rewrite !determine_overall_risk_level_spec.
  destruct (qmax_cases 0 x) as [[A B]|[A B]];
  destruct (qmin_cases 1 (Qmax 0 x)) as [[C D]|[C D]];
  repeat match goal with |- context [Qle_bool ?a ?b] =>
    let H := fresh "H" in destruct (Qle_bool a b) eqn:H;
    [apply Qle_bool_iff in H | apply qle_false in H] end;
  first [reflexivity | exfalso; lra].
Qed.

(** X12: the overall risk score is in [0,1], its level is the one determined from the score, and the network score is at most 1. *)
Theorem overall_risk_level_of_score (structuring smurfing anomaly geographic suspicious : Q) :
  let r := Tools.calculate_overall_risk_score structuring smurfing anomaly geographic suspicious in
  (0 <= Tools.overall_risk_score r <= 1)%Q
  /\ Tools.or_risk_level r = Tools.determine_overall_risk_level (Tools.overall_risk_score r)
  /\ (Tools.network_score r <= 1)%Q.
Proof.
  cbn zeta. unfold Tools.calculate_overall_risk_score. cbn [Tools.overall_risk_score Tools.or_risk_level Tools.network_score].
  split; [|split; [symmetry; apply determine_overall_risk_level_clamp|apply Q.le_min_l]].
  set (o := (_ + _ + _ + _)%Q).
  destruct (qmax_cases 0 o) as [[A B]|[A B]];
  destruct (qmin_cases 1 (Qmax 0 o)) as [[C D]|[C D]]; rewrite D; lra.
Qed.

(** X13: the overall risk score is monotone in each of its five inputs. *)
Theorem overall_risk_score_monotone (s sm a g c s' sm' a' g' c' : Q) :
  (s <= s')%Q -> (sm <= sm')%Q -> (a <= a')%Q -> (g <= g')%Q -> (c <= c')%Q ->
  (Tools.overall_risk_score (Tools.calculate_overall_risk_score s sm a g c)
   <= Tools.overall_risk_score (Tools.calculate_overall_risk_score s' sm' a' g' c'))%Q.
Proof.
  intros Hs Hsm Ha Hg Hc. unfold Tools.calculate_overall_risk_score.
  cbn [Tools.overall_risk_score].
  assert (Hn : (Qmin 1 (c / 5) <= Qmin 1 (c' / 5))%Q).
  { destruct (qmin_cases 1 (c / 5)) as [[A B]|[A B]];
    destruct (qmin_cases 1 (c' / 5)) as [[C D]|[C D]]; rewrite B, D;
    unfold Qdiv in *; change (/ 5)%Q with (1#5)%Q in *; lra. }
  revert Hn. generalize (Qmin 1 (c / 5)) (Qmin 1 (c' / 5)). intros n n' Hn.
  set (o := ((s + sm) * (3#10) + a * (1#4) + g * (1#5) + n * (1#4))%Q).
  set (o' := ((s' + sm') * (3#10) + a' * (1#4) + g' * (1#5) + n' * (1#4))%Q).
  assert (Ho : (o <= o')%Q) by (unfold o, o'; lra).
  destruct (qmax_cases 0 o) as [[A B]|[A B]];
  destruct (qmin_cases 1 (Qmax 0 o)) as [[C D]|[C D]];
  destruct (qmax_cases 0 o') as [[A' B']|[A' B']];
  destruct (qmin_cases 1 (Qmax 0 o')) as [[C' D']|[C' D']];
  rewrite D, D'; lra.
Qed.

Lemma lower_ascii_idem (c : ascii) : Py.lower_ascii (Py.lower_ascii c) = Py.lower_ascii c.
Proof. destruct c as [[] [] [] [] [] [] [] []]; reflexivity. Qed.

Lemma lower_idem (s : string) : Py.lower (Py.lower s) = Py.lower s.
Proof. induction s as [|c s IH]; cbn; [reflexivity|]. rewrite lower_ascii_idem, IH. reflexivity. Qed.

Lemma lower_app (a b : string) : Py.lower (a ++ b) = (Py.lower a ++ Py.lower b)%string.
Proof.
  induction a as [|c a IH]; [reflexivity|].
  change (String (Py.lower_ascii c) (Py.lower (a ++ b))
          = String (Py.lower_ascii c) (Py.lower a ++ Py.lower b))%string.
  rewrite IH. reflexivity.
Qed.

Lemma prefix_app_self (k y : string) : String.prefix k (k ++ y) = true.
Proof.
  induction k as [|c k IH]; [destruct y; reflexivity|].
  change (match ascii_dec c c with left _ => String.prefix k (k ++ y) | right _ => false end = true).
  destruct (ascii_dec c c) as [_|n]; [exact IH|contradiction].
Qed.

Lemma contains_app_r (k x s : string) : Py.contains k s = true -> Py.contains k (x ++ s) = true.
Proof.
  intros H. induction x as [|c x IH]; [exact H|].
  change (Py.contains k (String c (x ++ s)) = true). cbn [Py.contains].
  destruct (String.prefix k (String c (x ++ s))); [reflexivity|exact IH].
Qed.

Lemma contains_middle (k x y : string) : Py.contains k (x ++ k ++ y) = true.
Proof.
  apply contains_app_r. destruct k as [|c k]; [destruct y; reflexivity|].
  change (Py.contains (String c k) (String c (k ++ y)) = true). cbn [Py.contains].
  rewrite (prefix_app_self (String c k) y : String.prefix (String c k) (String c (k ++ y)) = true).
  reflexivity.
Qed.

(** X14: check_pep_database flags any name containing a PEP keyword in any letter case, and its answer does not change when the name is lowered. *)
Theorem pep_keyword_any_case (prefix name_part suffix keyword : string) :
  In keyword pep_keywords -> Py.lower name_part = keyword ->
  check_pep_database (prefix ++ name_part ++ suffix) = true
  /\ (forall name, check_pep_database (Py.lower name) = check_pep_database name).
Proof.
  intros Hk Hl. split.
  - unfold check_pep_database. apply existsb_exists. exists keyword. split; [exact Hk|].
    rewrite !lower_app, Hl. apply contains_middle.
  - intros name. unfold check_pep_database. rewrite lower_idem. reflexivity.
Qed.

Lemma pep_keyword_any_case_witness :
  check_pep_database ("Mr " ++ "Gov" ++ "ind Rao") = true.
Proof.
  exact (proj1 (pep_keyword_any_case "Mr " "Gov" "ind Rao" "gov"
                  (or_introl eq_refl) eq_refl)).
Defined.

Lemma sanctions_inner_in (x entity : string) (names : list string) :
  In x (flat_map (fun sanctioned =>
          if Py.contains (Py.lower sanctioned) (Py.lower entity) then [entity] else []) names)
  <-> x = entity /\ exists sn, In sn names /\ Py.contains (Py.lower sn) (Py.lower entity) = true.
Proof.
  rewrite in_flat_map. split.
  - intros (sn & Hin & Hx). destruct (Py.contains _ _) eqn:E; [|destruct Hx].
    destruct Hx as [<-|[]]. split; [reflexivity|]. exists sn. split; assumption.
  - intros (-> & sn & Hin & Hc). exists sn. split; [exact Hin|]. rewrite Hc. left; reflexivity.
Qed.

Lemma sanctions_inner_lower (entity : string) (names : list string) :
  flat_map (fun sanctioned =>
     if Py.contains (Py.lower sanctioned) (Py.lower (Py.lower entity)) then [Py.lower entity] else [])
     names
  = map Py.lower (flat_map (fun sanctioned =>
     if Py.contains (Py.lower sanctioned) (Py.lower entity) then [entity] else []) names).
Proof.
  rewrite lower_idem. induction names as [|sn names IH]; [reflexivity|].
  cbn [flat_map]. rewrite map_app, IH.
  destruct (Py.contains (Py.lower sn) (Py.lower entity)); reflexivity.
Qed.

Lemma sanctions_inner_length (entity : string) (names : list string) :
  length (flat_map (fun sanctioned =>
     if Py.contains (Py.lower sanctioned) (Py.lower entity) then [entity] else []) names)
  = length (List.filter (fun sn => Py.contains (Py.lower sn) (Py.lower entity)) names).
Proof.
  induction names as [|sn names IH]; [reflexivity|].
  cbn [flat_map List.filter]. rewrite length_app, IH.
  destruct (Py.contains (Py.lower sn) (Py.lower entity)); reflexivity.
Qed.

(** X15: check_sanctions_list keeps exactly the entities that contain a sanctioned name case-insensitively, once per sanctioned name matched, and commutes with lowering the entities. *)
Theorem sanctions_hits_spec (entities : list string) :
  (forall x, In x (check_sanctions_list entities)
     <-> In x entities
         /\ exists sn, In sn SANCTIONED_ENTITIES /\ Py.contains (Py.lower sn) (Py.lower x) = true)
  /\ (forall entity, length (check_sanctions_list [entity])
        = length (List.filter (fun sn => Py.contains (Py.lower sn) (Py.lower entity))
                   SANCTIONED_ENTITIES))
  /\ check_sanctions_list (map Py.lower entities) = map Py.lower (check_sanctions_list entities).
Proof.
  unfold check_sanctions_list. split; [|split].
  - intros x. rewrite in_flat_map. split.
    + intros (e & Hin & Hx). apply sanctions_inner_in in Hx as (-> & Hsn).
      split; [exact Hin|exact Hsn].
    + intros (Hin & Hsn). exists x. split; [exact Hin|]. apply sanctions_inner_in. auto.
  - intros entity. cbn [flat_map]. rewrite app_nil_r. apply sanctions_inner_length.
  - induction entities as [|e es IH]; [reflexivity|].
    cbn [map flat_map]. rewrite map_app, IH, sanctions_inner_lower. reflexivity.
Qed.

Lemma fold_update_escalated l st :
  escalated_cases (fold_left (fun st r => update_stats r st) l st)
  = (escalated_cases st + length (filter (fun r => is_high_level (r_risk_level r) = true) l))%nat.
Proof.
  revert st. induction l as [|r l IH]; intros st; cbn [fold_left]; [cbn; lia|].
  rewrite IH, filter_cons. cbn [update_stats escalated_cases].
  destruct (is_high_level (r_risk_level r)); case_decide; cbn; try lia; congruence.
Qed.

Lemma fold_update_sar l st :
  sar_cases (fold_left (fun st r => update_stats r st) l st)
  = (sar_cases st + length (filter (fun r => r_reporting_status r = Some "SAR_FILED"%string) l))%nat.
Proof.
  revert st. induction l as [|r l IH]; intros st; cbn [fold_left]; [cbn; lia|].
  rewrite IH, filter_cons. cbn [update_stats sar_cases].
  case_bool_decide; case_decide; cbn; try lia; contradiction.
Qed.

Lemma successes_failures_length {row : Type} (investigate : row -> option inv_result)
    (laundering : row -> Z) (rows : list row) :
  (length (successes investigate laundering rows) + failures investigate rows = length rows)%nat.
Proof.
  unfold successes, failures. induction rows as [|r rows IH]; [reflexivity|].
  cbn [omap]. rewrite filter_cons. destruct (investigate r) eqn:Hr; cbn; rewrite ?Hr; cbn.
  - rewrite decide_False by congruence. cbn. rewrite <- IH. reflexivity.
  - rewrite decide_True by reflexivity. cbn. rewrite <- IH, Nat.add_succ_r. reflexivity.
Qed.

(** X16: after processing rows, the batch summary's processed, escalated and SAR counts agree with the increments of the running statistics, and every row is either a result or an error. *)
Theorem batch_summary_matches_stats {row : Type} (investigate : row -> option inv_result)
    (laundering : row -> Z) (rows : list row) (st0 : stats) :
  let results := fst (process_rows investigate laundering rows [] st0) in
  let st := snd (process_rows investigate laundering rows [] st0) in
  let s := create_batch_summary results st in
  processed_transactions s = (total_processed st0 + total_transactions s)%nat
  /\ escalated_cases st = (escalated_cases st0 + bs_escalated_cases s)%nat
  /\ sar_cases st = (sar_cases st0 + bs_sar_cases s)%nat
  /\ (total_transactions s + errors st = errors st0 + length rows)%nat.
Proof.
  cbn zeta. destruct (process_rows_spec investigate laundering rows [] st0) as [H1 H2].
  rewrite H1, H2. cbn [app]. unfold create_batch_summary, with_errors.
  cbn [total_transactions processed_transactions bs_escalated_cases bs_sar_cases
       total_processed escalated_cases sar_cases errors].
  rewrite fold_update_total, fold_update_escalated, fold_update_sar.
  pose proof (successes_failures_length investigate laundering rows).
  split; [reflexivity|]. split; [reflexivity|]. split; [reflexivity|]. lia.
Qed.

Lemma count_pairs_cons (p : Z * Z -> bool) x xs :
  count_pairs p (x :: xs) = (if p x then S (count_pairs p xs) else count_pairs p xs).
Proof. unfold count_pairs. rewrite filter_cons. destruct (p x); case_decide; cbn; congruence. Qed.

Lemma confusion_counts (xs : list (Z * Z)) :
  (count_pairs (fun '(p, g) => ((p =? 1) && (g =? 1))%Z) xs
   + count_pairs (fun '(p, g) => ((p =? 1) && (g =? 0))%Z) xs
   + count_pairs (fun '(p, g) => ((p =? 0) && (g =? 0))%Z) xs
   + count_pairs (fun '(p, g) => ((p =? 0) && (g =? 1))%Z) xs <= length xs)%nat
  /\ (Forall (fun '((p, g) : Z * Z) => (p = 0 \/ p = 1)%Z /\ (g = 0 \/ g = 1)%Z) xs ->
      count_pairs (fun '(p, g) => ((p =? 1) && (g =? 1))%Z) xs
      + count_pairs (fun '(p, g) => ((p =? 1) && (g =? 0))%Z) xs
      + count_pairs (fun '(p, g) => ((p =? 0) && (g =? 0))%Z) xs
      + count_pairs (fun '(p, g) => ((p =? 0) && (g =? 1))%Z) xs = length xs)%nat.
Proof.
  induction xs as [|[p g] xs [IH1 IH2]]; [split; [cbn; lia|reflexivity]|].
  rewrite !count_pairs_cons. cbn [length].
  split.
  - destruct (Z.eqb_spec p 1), (Z.eqb_spec g 1), (Z.eqb_spec p 0), (Z.eqb_spec g 0);
      subst; cbn; lia.
  - intros Hf. inversion Hf as [|? ? Hpg Hrest]; subst. specialize (IH2 Hrest).
    destruct Hpg as [[-> | ->] [-> | ->]]; cbn; lia.
Qed.

Lemma qdiv_or_zero_unit (a b : Q) : (0 <= a)%Q -> (a <= b)%Q -> (0 <= qdiv_or_zero a b <= 1)%Q.
Proof.
  intros Ha Hab. unfold qdiv_or_zero. destruct (Qeq_bool b 0) eqn:E; [lra|].
  apply qdiv_le_1; [exact Ha|exact Hab|].
  destruct (Qle_lteq 0 b) as [[Hlt|Heq] _]; [lra|exact Hlt|].
  exfalso. apply Qeq_bool_neq in E. apply E. symmetry. exact Heq.
Qed.

(** X17: accuracy metrics, when computed, are all in [0,1], over a positive number of samples, and the four confusion counts never exceed it. *)
Theorem accuracy_metrics_bounds (results : list inv_result) (m : metrics) :
  calculate_accuracy_metrics results = Some m ->
  (0 <= m_accuracy m <= 1)%Q /\ (0 <= m_precision m <= 1)%Q
  /\ (0 <= m_recall m <= 1)%Q /\ (0 <= m_f1_score m <= 1)%Q
  /\ (0 < m_total_samples m)%nat
  /\ (m_true_positives m + m_false_positives m + m_true_negatives m + m_false_negatives m
      <= m_total_samples m)%nat.
Proof.
  unfold calculate_accuracy_metrics. cbv zeta.
  match goal with |- context [match ?v with [] => None | _ :: _ => _ end] =>
    destruct v as [|x xs] eqn:Hv end; [discriminate|].
  intros H. injection H as <-. cbn [m_accuracy m_precision m_recall m_f1_score m_total_samples
    m_true_positives m_false_positives m_true_negatives m_false_negatives].
  destruct (confusion_counts (x :: xs)) as [Hc _].
  set (tp := count_pairs _ (x :: xs)) in *.
  set (fp := count_pairs (fun '(p, g) => ((p =? 1) && (g =? 0))%Z) (x :: xs)) in *.
  set (tn := count_pairs (fun '(p, g) => ((p =? 0) && (g =? 0))%Z) (x :: xs)) in *.
  set (fn := count_pairs (fun '(p, g) => ((p =? 0) && (g =? 1))%Z) (x :: xs)) in *.
  set (n := length (x :: xs)) in *.
  pose proof (qnat_nonneg tp) as Htp. pose proof (qnat_nonneg fp) as Hfp.
  pose proof (qnat_nonneg tn) as Htn. pose proof (qnat_nonneg fn) as Hfn.
  assert (Hn : (1 <= n)%nat) by (unfold n; cbn; lia).
  assert (Htn_n : (Tools.qnat tp + Tools.qnat tn <= Tools.qnat n)%Q).
  { unfold Tools.qnat. rewrite <- inject_Z_plus, <- Zle_Qle. lia. }
  assert (Hn1 : (1 <= Tools.qnat n)%Q) by (apply (qnat_le 1 n Hn)).
  assert (HP : (0 <= qdiv_or_zero (Tools.qnat tp) (Tools.qnat tp + Tools.qnat fp) <= 1)%Q)
    by (apply qdiv_or_zero_unit; lra).
  assert (HR : (0 <= qdiv_or_zero (Tools.qnat tp) (Tools.qnat tp + Tools.qnat fn) <= 1)%Q)
    by (apply qdiv_or_zero_unit; lra).
  change (inject_Z (Z.of_nat tp)) with (Tools.qnat tp).
  change (inject_Z (Z.of_nat fp)) with (Tools.qnat fp).
  change (inject_Z (Z.of_nat tn)) with (Tools.qnat tn).
  change (inject_Z (Z.of_nat fn)) with (Tools.qnat fn).
  change (inject_Z (Z.of_nat n)) with (Tools.qnat n).
  revert HP HR.
  generalize (qdiv_or_zero (Tools.qnat tp) (Tools.qnat tp + Tools.qnat fp)) as P.
  generalize (qdiv_or_zero (Tools.qnat tp) (Tools.qnat tp + Tools.qnat fn)) as R.
  intros R P HP HR.
  split; [change (inject_Z (Z.of_nat (S (length xs)))) with (Tools.qnat n); apply qdiv_le_1; lra|]. split; [exact HP|]. split; [exact HR|].
  split; [apply qdiv_or_zero_unit; nra|]. split; [exact Hn|]. exact Hc.
Qed.

Lemma labelled_valid_pairs (results : list inv_result) :
  Forall (fun r => exists p g, r_prediction r = Some p /\ r_ground_truth r = Some g
            /\ (p = 0 \/ p = 1)%Z /\ (g = 0 \/ g = 1)%Z
            /\ (p = 1 <-> is_high_level (r_risk_level r) = true)%Z) results ->
  let v := omap (fun r => match r_prediction r, r_ground_truth r with
                          | Some p, Some g => Some (p, g)
                          | _, _ => None
                          end) results in
  length v = length results
  /\ Forall (fun '((p, g) : Z * Z) => (p = 0 \/ p = 1)%Z /\ (g = 0 \/ g = 1)%Z) v
  /\ (count_pairs (fun '(p, g) => ((p =? 1) && (g =? 1))%Z) v
      + count_pairs (fun '(p, g) => ((p =? 1) && (g =? 0))%Z) v
      = length (filter (fun r => is_high_level (r_risk_level r) = true) results))%nat.
Proof.
  induction 1 as [|r rs (p & g & Hp & Hg & Hp01 & Hg01 & Hhigh) Hrs IH]; [cbn; split; [reflexivity|split; [constructor|reflexivity]]|].
  cbn zeta in *. destruct IH as (IH1 & IH2 & IH3).
  cbn [omap list_omap]. rewrite Hp, Hg. rewrite !count_pairs_cons, filter_cons.
  cbn [length]. split; [lia|]. split; [constructor; [tauto|exact IH2]|].
  destruct Hp01 as [->| ->].
  - rewrite decide_False by (intros H; apply Hhigh in H; discriminate).
    destruct Hg01 as [->| ->]; cbn; lia.
  - rewrite decide_True by (apply Hhigh; reflexivity).
    destruct Hg01 as [->| ->]; cbn; lia.
Qed.

(** X18: with 0/1 labels, accuracy metrics of processed rows are absent exactly when there are no results; otherwise the four confusion counts sum to the number of results and the predicted positives are the escalated cases of the summary. *)
Theorem batch_accuracy_counts {row : Type} (investigate : row -> option inv_result)
    (laundering : row -> Z) (rows : list row) (st0 : stats) :
  (forall r, laundering r = 0 \/ laundering r = 1)%Z ->
  let results := fst (process_rows investigate laundering rows [] st0) in
  (calculate_accuracy_metrics results = None <-> results = [])
  /\ (forall m, calculate_accuracy_metrics results = Some m ->
      m_total_samples m = length results
      /\ (m_true_positives m + m_false_positives m + m_true_negatives m + m_false_negatives m
          = m_total_samples m)%nat
      /\ (m_true_positives m + m_false_positives m
          = bs_escalated_cases (create_batch_summary results
                                  (snd (process_rows investigate laundering rows [] st0))))%nat).
Proof.
  intros Hl. cbn zeta. destruct (process_rows_spec investigate laundering rows [] st0) as [H1 _].
  rewrite H1. cbn [app]. unfold create_batch_summary. cbn [bs_escalated_cases].
  assert (Hall : Forall (fun r => exists p g, r_prediction r = Some p /\ r_ground_truth r = Some g
            /\ (p = 0 \/ p = 1)%Z /\ (g = 0 \/ g = 1)%Z
            /\ (p = 1 <-> is_high_level (r_risk_level r) = true)%Z)
            (successes investigate laundering rows)).
  { clear H1. unfold successes. induction rows as [|r rows IH]; [constructor|].
    cbn [omap list_omap]. destruct (investigate r) as [res|]; cbn; [|exact IH].
    constructor; [|exact IH].
    exists (if is_high_level (r_risk_level res) then 1 else 0), (laundering r).
    split; [reflexivity|]. split; [reflexivity|].
    cbn [label_result r_risk_level]. destruct (is_high_level (r_risk_level res)); (split; [tauto|]); (split; [apply Hl|]);
      split; intros; congruence. }
  destruct (labelled_valid_pairs _ Hall) as (V1 & V2 & V3).
  cbn zeta in V1, V2, V3.
  revert V1 V2 V3. unfold calculate_accuracy_metrics. cbv zeta.
  generalize (successes investigate laundering rows) as results. intros results V1 V2 V3.
  destruct (omap _ results) as [|x xs] eqn:Hv.
  - split; [split; [intros _; destruct results; [reflexivity|discriminate]|reflexivity]|].
    intros m H; discriminate.
  - split; [split; [discriminate|intros ->; discriminate]|].
    intros m H. injection H as <-. cbn.
    destruct (confusion_counts (x :: xs)) as [_ Hc]. specialize (Hc V2).
    split; [exact V1|]. split; [exact Hc|exact V3].
Qed.

Section HiTransProofs.
Context {row : Type} (investigate : row -> option inv_result) (laundering : row -> Z)
  (load_batch : Z -> Z -> list row).

(** X19: in the batch loop of process_hi_trans_batch, max_batches = 0 behaves as no limit. *)
Theorem hi_trans_zero_max_batches_unlimited : forall fuel batch_size offset batch_count all_results st,
  hi_trans_loop investigate laundering load_batch fuel batch_size offset (Some 0) batch_count
    all_results st
  = hi_trans_loop investigate laundering load_batch fuel batch_size offset None batch_count
    all_results st.
Proof.
  induction fuel as [|f IH]; intros batch_size offset batch_count all_results st; [reflexivity|].
  cbn [hi_trans_loop]. rewrite Z.eqb_refl. cbn [negb andb].
  destruct (load_batch batch_size (offset + batch_count * batch_size)) as [|d ds]; [reflexivity|].
  destruct (process_rows investigate laundering (d :: ds) [] st) as [br st'].
  destruct (Z.of_nat (length (d :: ds)) <? batch_size); [reflexivity|]. apply IH.
Qed.

(** X20: in the batch loop, a negative max_batches processes no batch, and a positive one never exceeds max_batches batches and only appends results. *)
Theorem hi_trans_max_batches_bound (m : Z) : forall fuel batch_size offset batch_count all_results st,
  (1 <= fuel)%nat -> (0 <= batch_count)%Z -> (m < Z.of_nat fuel + batch_count)%Z ->
  (m < 0 -> hi_trans_loop investigate laundering load_batch fuel batch_size offset (Some m)
              batch_count all_results st = Some (all_results, st, batch_count))
  /\ (0 < m -> batch_count <= m ->
      exists results' st' n,
        hi_trans_loop investigate laundering load_batch fuel batch_size offset (Some m)
          batch_count all_results st = Some (results', st', n)
        /\ (batch_count <= n <= m)%Z
        /\ exists tail, results' = all_results ++ tail)%Z.
Proof.
  induction fuel as [|f IH]; intros batch_size offset batch_count all_results st H1 H0 Hf; [lia|].
  cbn [hi_trans_loop]. split.
  - intros Hm.
    assert (E1 : (m =? 0) = false) by (apply Z.eqb_neq; lia).
    assert (E2 : (m <=? batch_count) = true) by (apply Z.leb_le; lia).
    rewrite E1, E2. reflexivity.
  - intros Hm Hle. destruct (Z.eqb_spec m batch_count) as [->|Hne].
    + assert (E1 : (batch_count =? 0) = false) by (apply Z.eqb_neq; lia).
      rewrite Z.leb_refl, E1.
      exists all_results, st, batch_count. split; [reflexivity|]. split; [lia|].
      exists []. rewrite app_nil_r. reflexivity.
    + replace (m <=? batch_count) with false by (symmetry; apply Z.leb_gt; lia).
      rewrite andb_false_r.
      destruct (load_batch batch_size (offset + batch_count * batch_size)) as [|d ds].
      * exists all_results, st, batch_count. split; [reflexivity|]. split; [lia|].
        exists []. rewrite app_nil_r. reflexivity.
      * destruct (process_rows investigate laundering (d :: ds) [] st) as [br st'].
        destruct (Z.of_nat (length (d :: ds)) <? batch_size).
        -- exists (all_results ++ br), st', (batch_count + 1). split; [reflexivity|].
           split; [lia|]. exists br. reflexivity.
        -- destruct (IH batch_size offset (batch_count + 1) (all_results ++ br) st')
             as [_ IH2]; [lia|lia|lia|].
           destruct (IH2 Hm ltac:(lia)) as (results' & st'' & n & Hrun & Hn & tail & Ht).
           exists results', st'', n. split; [exact Hrun|]. split; [lia|].
           exists (br ++ tail). rewrite Ht, app_assoc. reflexivity.
Qed.

End HiTransProofs.

Lemma structuring_detected_iff_witness :
  Tools.sr_detected (Tools.detect_structuring_patterns [("amount"%string, PyFloat 9600)]
    [[("amount"%string, PyInt 9700)]; [("amount"%string, PyInt 9800)]] 10000) = true.
Proof.
  destruct (structuring_detected_iff [("amount"%string, PyFloat 9600)]
              [[("amount"%string, PyInt 9700)]; [("amount"%string, PyInt 9800)]]
              10000 9600 [9700; 9800]%Q) as (_ & _ & H);
    [apply Qle_bool_iff; reflexivity|reflexivity|reflexivity|].
  apply H. split; [apply Qle_bool_iff; reflexivity|apply Nat.leb_le; reflexivity].
Defined.

Lemma behavioral_anomalous_iff_witness :
  Tools.br_confidence_level
    (Tools.analyze_behavioral_anomalies [("amount"%string, PyInt 100)] []) <> "high"%string.
Proof.
  destruct (behavioral_anomalous_iff [("amount"%string, PyInt 100)] [] [] 100)
    as (_ & _ & _ & _ & H); [reflexivity|reflexivity|exact H].
Defined.

Lemma network_result_shape_witness :
  Tools.network_size
    (Tools.analyze_transaction_network
       (Tools.mk_ntx (Some "t1"%string) (Some "c1"%string) (Some "p1"%string) (PyInt 100))
       [Tools.mk_ntx (Some "t2"%string) (Some "c1"%string) (Some "p2"%string) (PyInt 90)]) = 2%nat.
Proof.
  destruct (network_result_shape
       (Tools.mk_ntx (Some "t1"%string) (Some "c1"%string) (Some "p1"%string) (PyInt 100))
       [Tools.mk_ntx (Some "t2"%string) (Some "c1"%string) (Some "p2"%string) (PyInt 90)])
    as (H & _); [reflexivity|exact H].
Defined.

Lemma connection_weight_suspicious_witness :
  exists w, Tools.calculate_connection_weight
       (Tools.mk_ntx (Some "t1"%string) (Some "c1"%string) (Some "p1"%string) (PyInt 100))
       (Tools.mk_ntx (Some "t2"%string) (Some "c1"%string) (Some "p2"%string) (PyInt 90)) = Ok w
    /\ Py.qle (4#5) w = true.
Proof.
  destruct (connection_weight_suspicious
       (Tools.mk_ntx (Some "t1"%string) (Some "c1"%string) (Some "p1"%string) (PyInt 100))
       (Tools.mk_ntx (Some "t2"%string) (Some "c1"%string) (Some "p2"%string) (PyInt 90))
       100 90) as (w & Hw & Hs); [reflexivity|reflexivity|reflexivity|].
  exists w. split; [exact Hw|]. apply Hs. right.
  split; [reflexivity|]. split; [reflexivity|]. reflexivity.
Defined.

Lemma overall_risk_score_monotone_witness :
  (Tools.overall_risk_score (Tools.calculate_overall_risk_score 0 0 0 0 0)
   <= Tools.overall_risk_score (Tools.calculate_overall_risk_score (1#2) 0 (1#2) 0 3))%Q.
Proof.
  apply overall_risk_score_monotone;
    apply Qle_bool_iff; reflexivity.
Defined.

Lemma accuracy_metrics_bounds_witness :
  (0 <= m_f1_score (mk_metrics 1 1 1 (2#2) 1 0 0 0 1) <= 1)%Q.
Proof.
  destruct (accuracy_metrics_bounds [mk_result None None None (Some 1) (Some 1)]
              (mk_metrics 1 1 1 (2#2) 1 0 0 0 1)) as (_ & _ & _ & H & _);
    [vm_compute; reflexivity|exact H].
Defined.

Lemma batch_accuracy_counts_witness :
  calculate_accuracy_metrics
    (fst (process_rows (fun _ : Z => Some (mk_result (Some "High"%string) None None None None))
            (fun z => if z =? 1 then 1 else 0) [1; 2] [] reset_stats)) = None
  <-> fst (process_rows (fun _ : Z => Some (mk_result (Some "High"%string) None None None None))
            (fun z => if z =? 1 then 1 else 0) [1; 2] [] reset_stats) = [].
Proof.
  apply (batch_accuracy_counts (fun _ : Z => Some (mk_result (Some "High"%string) None None None None))
           (fun z => if z =? 1 then 1 else 0) [1; 2] reset_stats).
  intros z. destruct (z =? 1); [right|left]; reflexivity.
Defined.

Lemma hi_trans_max_batches_bound_witness :
  exists results' st' n,
    hi_trans_loop (fun _ : nat => None) (fun _ => 0) (fun _ _ => [1%nat]) 3 1 0 (Some 2) 0 []
      reset_stats = Some (results', st', n)
    /\ (0 <= n <= 2)%Z /\ exists tail, results' = [] ++ tail.
Proof.
  destruct (hi_trans_max_batches_bound (fun _ : nat => None) (fun _ => 0) (fun _ _ => [1%nat])
              2 3 1 0 0 [] reset_stats) as [_ H];
    [apply Nat.leb_le; reflexivity|apply Z.leb_le; reflexivity|apply Z.ltb_lt; reflexivity|].
  apply H; apply Z.ltb_lt + apply Z.leb_le; reflexivity.
Defined.

Lemma structuring_detected_no_error tx related T :
  Tools.sr_detected (Tools.detect_structuring_patterns tx related T) = true ->
  Tools.sr_error (Tools.detect_structuring_patterns tx related T) = false.
Proof.
  unfold Tools.detect_structuring_patterns.
  destruct (Tools.amount_of tx) as [cur|e]; cbn; [|discriminate].
  destruct (Tools.scan_related _ _ _ _ _) as [[susp tot]|e]; cbn; [reflexivity|discriminate].
Qed.

Lemma behavioral_anomalous_three tx related :
  Tools.br_is_anomalous (Tools.analyze_behavioral_anomalies tx related) = true ->
  length (Tools.br_anomalies (Tools.analyze_behavioral_anomalies tx related)) = 3%nat.
Proof.
  unfold Tools.analyze_behavioral_anomalies.
  destruct (Tools.amounts_of related) as [ras|e]; cbn; [|discriminate].
  destruct (Tools.amount_of tx) as [cur|e]; cbn; [|discriminate].
  set (m := Tools.calculate_behavioral_metrics ras cur).
  assert (Ht : Tools.timing_anomaly_detected m = false) by reflexivity.
  destruct (anomaly_score_spec m Ht) as [A1 _].
  destruct (identify_anomalies_spec m Ht) as [I1 _].
  rewrite A1. intros H. apply I1. exact H.
Qed.

Lemma geographic_high_finding cl tl cc :
  let g := Tools.assess_geographic_risks cl tl cc in
  (if String.eqb (Tools.gr_risk_level g) "high"
   then [("Geographic Risk: " ++ Tools.cr_description (Tools.gr_country_risk g))%string] else [])
  = (if (Py.mem cc Tools.high_risk_countries
         && Tools.mismatch_detected (Tools.gr_location_mismatch g))%bool
     then ["Geographic Risk: High-risk country"%string] else []).
Proof.
  cbn zeta. unfold Tools.assess_geographic_risks.
  cbn [Tools.gr_risk_level Tools.gr_location_mismatch Tools.gr_country_risk].
  unfold Tools.calculate_geographic_risk_score, Tools.assess_country_risk.
  destruct (Py.mem cc Tools.high_risk_countries);
    [|destruct (Py.mem cc Tools.medium_risk_countries)];
    unfold Tools.assess_location_mismatch;
    (destruct (String.eqb cl "" || String.eqb tl "")%bool;
     [|destruct (String.eqb (Tools.strip (Tools.last_field cl))
                            (Tools.strip (Tools.last_field tl)))]);
    reflexivity.
Qed.

(** X21: on the results of the tools, the key findings of generate_investigation_summary are, in order: the structuring finding with the fixed description, the behavioural finding that always counts 3 anomalies, the geographic finding exactly for a high-risk country with a location mismatch, and the network finding with the number of suspicious connections; there are at most four, and the recommendations read only the risk level. *)
Theorem investigation_summary_findings (investigation_id : string) (r : Tools.overall_result)
    (transaction_data : dict) (related : list dict) (reporting_threshold : Q)
    (customer_location transaction_location country_code : string)
    (central : Tools.ntx) (network : list Tools.ntx) :
  let p := Tools.detect_structuring_patterns transaction_data related reporting_threshold in
  let b := Tools.analyze_behavioral_anomalies transaction_data related in
  let g := Tools.assess_geographic_risks customer_location transaction_location country_code in
  let n := Tools.analyze_transaction_network central network in
  let k := length (Tools.suspicious_connection_details n) in
  let s := Tools.generate_investigation_summary investigation_id r p b g n in
  Tools.key_findings s =
    (if Tools.sr_detected p
     then ["Pattern Detection: Multiple transactions just under reporting threshold"%string]
     else [])
    ++ (if Tools.br_is_anomalous b then ["Behavioral Anomalies: 3 anomalies detected"%string]
        else [])
    ++ (if (Py.mem country_code Tools.high_risk_countries
            && Tools.mismatch_detected (Tools.gr_location_mismatch g))%bool
        then ["Geographic Risk: High-risk country"%string] else [])
    ++ (if Nat.ltb 0 k
        then [("Network Analysis: " ++ pretty k ++ " suspicious connections identified")%string]
        else [])
  /\ (length (Tools.key_findings s) <= 4)%nat
  /\ Tools.recommendations s = Tools.generate_recommendations (Tools.or_risk_level r) 0 [].
Proof.
  cbn zeta. unfold Tools.generate_investigation_summary. cbn [Tools.key_findings Tools.recommendations].
  rewrite (geographic_high_finding customer_location transaction_location country_code).
  assert (Hp : (if Tools.sr_detected (Tools.detect_structuring_patterns transaction_data related reporting_threshold)
     then [("Pattern Detection: " ++ Tools.pattern_description
              (Tools.detect_structuring_patterns transaction_data related reporting_threshold))%string]
     else [])
     = (if Tools.sr_detected (Tools.detect_structuring_patterns transaction_data related reporting_threshold)
     then ["Pattern Detection: Multiple transactions just under reporting threshold"%string] else [])).
  { destruct (Tools.sr_detected _) eqn:E; [|reflexivity].
    unfold Tools.pattern_description. rewrite (structuring_detected_no_error _ _ _ E). reflexivity. }
  assert (Hb : (if Tools.br_is_anomalous (Tools.analyze_behavioral_anomalies transaction_data related)
     then [("Behavioral Anomalies: " ++ pretty (length (Tools.br_anomalies
              (Tools.analyze_behavioral_anomalies transaction_data related)))
            ++ " anomalies detected")%string] else [])
     = (if Tools.br_is_anomalous (Tools.analyze_behavioral_anomalies transaction_data related)
        then ["Behavioral Anomalies: 3 anomalies detected"%string] else [])).
  { destruct (Tools.br_is_anomalous _) eqn:E; [|reflexivity].
    rewrite (behavioral_anomalous_three _ _ E). reflexivity. }
  rewrite Hp, Hb. split; [reflexivity|]. split; [|reflexivity].
  destruct (Tools.sr_detected _), (Tools.br_is_anomalous _), (_ && _)%bool, (Nat.ltb _ _);
    cbn; lia.
Qed.

(** X22: for a risk assessment from calculate_overall_risk_score, the summary's recommendations start with immediate escalation exactly when the clamped score is at least 0.8, number four from 0.6, three in [0.4, 0.6) and two below 0.4; a high confidence implies CRITICAL, but a score of exactly 0.8 is CRITICAL with medium confidence. *)
Theorem summary_recommendations_by_score (investigation_id : string)
    (structuring smurfing anomaly geographic suspicious : Q)
    (p : Tools.structuring_result) (b : Tools.behavior_result) (g : Tools.geographic_result)
    (n : Tools.network_result) :
  let r := Tools.calculate_overall_risk_score structuring smurfing anomaly geographic suspicious in
  let x := Tools.overall_risk_score r in
  let s := Tools.generate_investigation_summary investigation_id r p b g n in
  Tools.is_risk_level s = Tools.determine_overall_risk_level x
  /\ (head (Tools.recommendations s) = Some "Immediate escalation required"%string
      <-> (4#5 <= x)%Q)
  /\ (length (Tools.recommendations s) = 4%nat <-> (3#5 <= x)%Q)
  /\ (length (Tools.recommendations s) = 3%nat <-> (2#5 <= x < 3#5)%Q)
  /\ (length (Tools.recommendations s) = 2%nat <-> (x < 2#5)%Q)
  /\ (Tools.is_confidence_level s = "high"%string -> Tools.is_risk_level s = "CRITICAL"%string)
  /\ ((x == 4#5)%Q ->
      Tools.is_risk_level s = "CRITICAL"%string /\ Tools.is_confidence_level s = "medium"%string).
Proof.
  cbn zeta. unfold Tools.generate_investigation_summary.
  cbn [Tools.is_risk_level Tools.recommendations Tools.is_confidence_level].
  unfold Tools.calculate_overall_risk_score. cbn [Tools.or_risk_level Tools.overall_risk_score].
  rewrite <- determine_overall_risk_level_clamp.
  set (x := Qmin 1 (Qmax 0 _)).
  unfold Tools.generate_recommendations, Tools.confidence_level, Py.qlt.
  rewrite determine_overall_risk_level_spec.
  split; [reflexivity|].
  repeat match goal with |- context [Qle_bool ?a ?b] =>
    let H := fresh "H" in destruct (Qle_bool a b) eqn:H;
    [apply Qle_bool_iff in H | apply qle_false in H] end; cbn;
  repeat split; intros; try discriminate; try reflexivity; try lra;
  repeat match goal with H : _ /\ _ |- _ => destruct H end; try lra;
  try (exfalso; lra).
Qed.

Lemma coordination_score_3 (g : list smurf_tx) : (3 <= length g)%nat ->
  (coordination_score g ==
     (if Nat.eqb (length (remove_dups (map s_counterparty_id g))) 1 then 1#2 else 0)
     + (if Py.qlt (pop_variance (map s_amount g)) 1000 then 3#10 else 0) + (1#5))%Q.
Proof.
  intros H. unfold coordination_score.
  destruct (Nat.ltb_spec (length g) 2) as [H2|_]; [lia|].
  rewrite length_map.
  destruct (Nat.ltb_spec 1 (length g)) as [_|H1]; [|lia].
  destruct (Nat.leb_spec 3 (length g)) as [_|H3]; [|lia].
  destruct (Nat.eqb _ 1), (Py.qlt _ 1000); reflexivity.
Qed.

Lemma coordinated_pass (g : list smurf_tx) : (3 <= length g)%nat ->
  Py.qlt (6#10) (coordination_score g)
  = Nat.eqb (length (remove_dups (map s_counterparty_id g))) 1.
Proof.
  intros H. pose proof (coordination_score_3 g H) as E.
  unfold Py.qlt. rewrite E.
  destruct (Nat.eqb _ 1), (Py.qlt _ 1000); reflexivity.
Qed.

Lemma coordinated_scores_filter (gs : list (list smurf_tx)) :
  coordinated_scores gs = map coordination_score (List.filter one_recipient gs).
Proof.
  induction gs as [|g gs IH]; [reflexivity|].
  change (coordinated_scores (g :: gs))
    with ((if Nat.leb 3 (length g) then
             if Py.qlt (6#10) (coordination_score g) then [coordination_score g] else []
           else []) ++ coordinated_scores gs).
  cbn [List.filter]. unfold one_recipient at 1.
  destruct (Nat.leb_spec 3 (length g)) as [H3|H3]; cbn.
  - rewrite (coordinated_pass g H3).
    destruct (Nat.eqb _ 1); cbn; rewrite IH; reflexivity.
  - exact IH.
Qed.

Lemma coordination_values (g : list smurf_tx) : one_recipient g = true ->
  ((coordination_score g == 1)%Q /\ Py.qlt (pop_variance (map s_amount g)) 1000 = true)
  \/ ((coordination_score g == 7#10)%Q /\ Py.qlt (pop_variance (map s_amount g)) 1000 = false).
Proof.
  unfold one_recipient. intros H. apply andb_true_iff in H as [H3 H1].
  apply Nat.leb_le in H3. rewrite (coordination_score_3 g H3), H1.
  destruct (Py.qlt _ 1000); [left|right]; split; reflexivity.
Qed.

Lemma qsum_lower (l : list Q) :
  Forall (fun c => (7#10 <= c)%Q) l -> ((7#10) * qlen l <= qsum l)%Q.
Proof.
  unfold qlen. induction 1 as [|c l Hc Hl IH]; [apply Qle_bool_iff; reflexivity|].
  cbn [qsum fold_right length]. rewrite Nat2Z.inj_succ, <- Z.add_1_r, inject_Z_plus.
  unfold qsum in IH. change (inject_Z 1) with 1%Q. lra.
Qed.

Lemma smurfing_score_detect (l : list Q) :
  Forall (fun c => c == 7#10 \/ c == 1)%Q l ->
  Py.qlt (7#10) (smurfing_score l) = true
  <-> Exists (fun c => c == 1)%Q l \/ (3 <= length l)%nat.
Proof.
  intros Hl. rewrite qlt_spec.
  destruct l as [|c1 [|c2 [|c3 l]]].
  - cbn. split; [lra|]. intros [H|H]; [inversion H|lia].
  - inversion Hl as [|? ? H1 _]; subst.
    unfold smurfing_score, qlen, qsum. cbn [fold_right length].
    change (Qmin 1 (inject_Z (Z.of_nat 1) / 3)) with (1#3)%Q.
    change (inject_Z (Z.of_nat 1)) with 1%Q. unfold Qdiv. change (/ 1)%Q with 1%Q.
    rewrite Exists_cons, Exists_nil.
    destruct H1 as [H1|H1]; rewrite H1; split; intros H; try lra.
    + destruct H as [[H|H]|H]; [lra|contradiction|lia].
  - inversion Hl as [|? ? H1 Hl']; subst. inversion Hl' as [|? ? H2 _]; subst.
    unfold smurfing_score, qlen, qsum. cbn [fold_right length].
    change (Qmin 1 (inject_Z (Z.of_nat 2) / 3)) with (2#3)%Q.
    change (inject_Z (Z.of_nat 2)) with (2#1)%Q. unfold Qdiv. change (/ (2#1))%Q with (1#2)%Q.
    rewrite !Exists_cons, Exists_nil.
    destruct H1 as [H1|H1], H2 as [H2|H2]; rewrite H1, H2; split; intros H; try lra;
      try (left; first [left; reflexivity | right; left; reflexivity]).
    exfalso. destruct H as [[H|[H|H]]|H]; [lra|lra|contradiction|lia].
  - split; intros _; [right; cbn; lia|].
    set (l' := c1 :: c2 :: c3 :: l) in *.
    assert (Hlow : Forall (fun c => (7#10 <= c)%Q) l').
    { eapply Forall_impl; [exact Hl|]. intros c [H|H]; rewrite H; lra. }
    pose proof (qsum_lower l' Hlow) as Hs.
    assert (Hn : (3 <= qlen l')%Q).
    { unfold qlen. change 3%Q with (inject_Z 3). rewrite <- Zle_Qle. cbn [l' length]. lia. }
    assert (Hm : (7#10 <= qsum l' / qlen l')%Q).
    { apply Qle_shift_div_l; [lra|]. lra. }
    assert (Hg : (Qmin 1 (qlen l' / 3) == 1)%Q).
    { apply Q.min_l. apply Qle_shift_div_l; [lra|]. lra. }
    unfold smurfing_score. cbn [l']. fold l'. rewrite Hg. lra.
Qed.

Lemma insert_by_date_length x : forall l, length (insert_by_date x l) = S (length l).
Proof. induction l as [|y l IH]; cbn; [reflexivity|]. destruct (date_lt x y); cbn; lia. Qed.

Lemma sort_by_date_length (l : list smurf_tx) : length (sort_by_date l) = length l.
Proof.
  unfold sort_by_date.
  assert (G : forall acc, length (fold_left (fun acc x => insert_by_date x acc) l acc)
                          = (length l + length acc)%nat).
  { induction l as [|x l IH]; intros acc; cbn; [reflexivity|].
    rewrite IH, insert_by_date_length. lia. }
  rewrite G. cbn. lia.
Qed.

Lemma group_by_time_window_length (related : list smurf_tx) (hours : Z) g :
  In g (group_by_time_window related hours) -> (length g <= length related)%nat.
Proof.
  intros Hg. rewrite <- (sort_by_date_length related).
  assert (C : concat (group_by_time_window related hours) = sort_by_date related).
  { unfold group_by_time_window. destruct (sort_by_date related) as [|x rest]; [reflexivity|].
    rewrite group_loop_concat. reflexivity. }
  rewrite <- C. clear C. induction (group_by_time_window related hours) as [|h gs IH];
    [destruct Hg|].
  cbn. rewrite length_app. destruct Hg as [->|Hg]; [lia|]. specialize (IH Hg). lia.
Qed.

(** X23: detect_smurfing_patterns flags smurfing exactly when some window has at least three transactions to a single recipient with amount variance below 1000, or at least three windows have three or more transactions to a single recipient; with fewer than three related transactions it never flags. *)
Theorem smurfing_detected_iff_windows (related : list smurf_tx) (time_window_hours : Z) :
  let gs := group_by_time_window related time_window_hours in
  (fst (detect_smurfing_patterns related time_window_hours) = true
   <-> (exists g, In g gs /\ (3 <= length g)%nat
                  /\ length (remove_dups (map s_counterparty_id g)) = 1%nat
                  /\ (pop_variance (map s_amount g) < 1000)%Q)
       \/ (3 <= length (List.filter (fun g => Nat.leb 3 (length g)
                  && Nat.eqb (length (remove_dups (map s_counterparty_id g))) 1) gs))%nat)
  /\ ((length related < 3)%nat -> fst (detect_smurfing_patterns related time_window_hours) = false).
Proof.
  cbn zeta. change (fun g => Nat.leb 3 (length g)
                  && Nat.eqb (length (remove_dups (map s_counterparty_id g))) 1)%bool
    with one_recipient.
  set (gs := group_by_time_window related time_window_hours).
  assert (Hall : Forall (fun c => c == 7#10 \/ c == 1)%Q
                   (map coordination_score (List.filter one_recipient gs))).
  { apply List.Forall_forall. intros c Hc. apply in_map_iff in Hc as (g & <- & Hg).
    apply filter_In in Hg as [_ Hg].
    destruct (coordination_values g Hg) as [[H _]|[H _]]; [right|left]; exact H. }
  assert (Hmain : fst (detect_smurfing_patterns related time_window_hours) = true
   <-> (exists g, In g gs /\ (3 <= length g)%nat
                  /\ length (remove_dups (map s_counterparty_id g)) = 1%nat
                  /\ (pop_variance (map s_amount g) < 1000)%Q)
       \/ (3 <= length (List.filter one_recipient gs))%nat).
  { unfold detect_smurfing_patterns. cbn [fst]. fold gs.
    rewrite coordinated_scores_filter, (smurfing_score_detect _ Hall), length_map, List.Exists_exists.
    apply or_iff_compat_r. split.
    - intros (c & Hc & H1). apply in_map_iff in Hc as (g & <- & Hg).
      apply filter_In in Hg as [Hin Hg]. exists g.
      destruct (coordination_values g Hg) as [[_ Hv]|[Hc Hv]]; [|rewrite Hc in H1; discriminate].
      unfold one_recipient in Hg. apply andb_true_iff in Hg as [H3 Hu].
      apply Nat.leb_le in H3. apply Nat.eqb_eq in Hu. apply qlt_spec in Hv. auto.
    - intros (g & Hin & H3 & Hu & Hv).
      assert (Hg : one_recipient g = true).
      { unfold one_recipient. apply andb_true_iff. split; [apply Nat.leb_le; lia|].
        apply Nat.eqb_eq. exact Hu. }
      exists (coordination_score g). split.
      + apply in_map_iff. exists g. split; [reflexivity|]. apply filter_In. auto.
      + destruct (coordination_values g Hg) as [[H _]|[_ Hv']]; [exact H|].
        apply qlt_false in Hv'. exfalso. lra. }
  split; [exact Hmain|].
  intros Hlen. apply Bool.not_true_is_false. intros E.
  apply Hmain in E as [(g & Hin & H3 & _)|H3].
  - pose proof (group_by_time_window_length related time_window_hours g Hin). lia.
  - destruct (List.filter one_recipient gs) as [|g rest] eqn:F; [cbn in H3; lia|].
    assert (Hin : In g (List.filter one_recipient gs)) by (rewrite F; left; reflexivity).
    apply filter_In in Hin as [Hin Hg]. unfold one_recipient in Hg.
    apply andb_true_iff in Hg as [Hg _]. apply Nat.leb_le in Hg.
    pose proof (group_by_time_window_length related time_window_hours g Hin). lia.
Qed.

Section ChatProofs.
Context {R : Type}.

Lemma chat_deref_append (s : Chat.store R) l l' x :
  Chat.deref (Chat.append_list s l x) l'
  = if decide (l = l') then Chat.deref s l ++ [x] else Chat.deref s l'.
Proof.
  unfold Chat.deref, Chat.append_list. cbn [Chat.lists].
  rewrite lookup_insert. destruct (decide (l = l')); reflexivity.
Qed.

Lemma chat_add_existing (s : Chat.store R) tid th x now :
  Chat.get_chat_thread tid s = Some th ->
  let s' := Chat.add_investigation_to_thread tid x now s in
  (forall l, Chat.deref s' l = if decide (Chat.cs_investigation_results th = l)
                               then Chat.deref s l ++ [x] else Chat.deref s l)
  /\ Chat.get_chat_thread tid s'
     = Some (Chat.mk_chat (Chat.cs_thread_id th) (Chat.cs_investigation_results th)
               (Chat.cs_chat_history th) (Chat.cs_created_at th) now)
  /\ (forall tid', tid' <> tid -> Chat.get_chat_thread tid' s' = Chat.get_chat_thread tid' s)
  /\ Chat.next_list s' = Chat.next_list s.
Proof.
  intros H. cbn zeta. unfold Chat.add_investigation_to_thread. rewrite H.
  split.
  { intros l. pose proof (chat_deref_append s (Chat.cs_investigation_results th) l x) as E.
    cbn in E |- *. unfold Chat.deref in *. cbn in *. rewrite E.
    destruct (decide _) as [<-|]; reflexivity. }
  unfold Chat.get_chat_thread, Chat.update_chat_thread. cbn [Chat.threads Chat.next_list].
  split; [apply lookup_insert_eq|]. split; [|reflexivity].
  intros tid' Hne. rewrite lookup_insert_ne by congruence. reflexivity.
Qed.

Lemma add_all_spec (tid : string) (now : Z) : forall (rs : list R) (s : Chat.store R) th,
  Chat.get_chat_thread tid s = Some th ->
  let s' := Chat.add_all tid now rs s in
  exists th', Chat.get_chat_thread tid s' = Some th'
    /\ Chat.cs_investigation_results th' = Chat.cs_investigation_results th
    /\ Chat.cs_created_at th' = Chat.cs_created_at th
    /\ Chat.deref s' (Chat.cs_investigation_results th)
       = Chat.deref s (Chat.cs_investigation_results th) ++ rs
    /\ (forall l, l <> Chat.cs_investigation_results th -> Chat.deref s' l = Chat.deref s l)
    /\ (forall tid', tid' <> tid -> Chat.get_chat_thread tid' s' = Chat.get_chat_thread tid' s).
Proof.
  induction rs as [|r rs IH]; intros s th H; cbn zeta.
  - exists th. unfold Chat.add_all. cbn [fold_left]. rewrite app_nil_r.
    split; [exact H|]. split; [reflexivity|]. split; [reflexivity|]. split; [reflexivity|].
    split; intros; reflexivity.
  - change (Chat.add_all tid now (r :: rs) s)
      with (Chat.add_all tid now rs (Chat.add_investigation_to_thread tid r now s)).
    destruct (chat_add_existing s tid th r now H) as (D & G & O & _).
    destruct (IH _ _ G) as (th' & G' & L' & C' & D' & U' & O'). cbn [Chat.cs_investigation_results Chat.cs_created_at] in *.
    exists th'. split; [exact G'|]. split; [exact L'|]. split; [exact C'|].
    split.
    + rewrite D', D. rewrite decide_True by reflexivity. rewrite <- app_assoc. reflexivity.
    + split.
      * intros l Hl. rewrite U' by exact Hl. rewrite D. rewrite decide_False by congruence.
        reflexivity.
      * intros tid' Hne. rewrite O' by exact Hne. apply O. exact Hne.
Qed.

(** X24: a thread created without results and then given each result of a batch in turn holds exactly those results, in a new list object; no other list object or thread changes; adding to a thread that does not exist changes nothing. *)
Theorem analyze_batch_thread_results (thread_id : string) (now : Z) (results : list R)
    (s : Chat.store R) :
  let s1 := snd (Chat.create_chat_thread thread_id now None s) in
  let s2 := Chat.add_all thread_id now results s1 in
  (exists th, Chat.get_chat_thread thread_id s2 = Some th
     /\ Chat.cs_investigation_results th = Chat.next_list s
     /\ Chat.deref s2 (Chat.cs_investigation_results th) = results
     /\ Chat.cs_created_at th = now)
  /\ (forall l, l <> Chat.next_list s -> Chat.deref s2 l = Chat.deref s l)
  /\ (forall tid, tid <> thread_id -> Chat.get_chat_thread tid s2 = Chat.get_chat_thread tid s)
  /\ (forall tid r, Chat.get_chat_thread tid s = None ->
      Chat.add_investigation_to_thread tid r now s = s).
Proof.
  cbn zeta.
  set (s1 := snd (Chat.create_chat_thread thread_id now None s)).
  assert (G1 : Chat.get_chat_thread thread_id s1
               = Some (Chat.mk_chat thread_id (Chat.next_list s) [] now now))
    by apply lookup_insert_eq.
  destruct (add_all_spec thread_id now results s1 _ G1) as (th & G & L & C & D & U & O).
  cbn [Chat.cs_investigation_results Chat.cs_created_at] in *.
  assert (D1 : Chat.deref s1 (Chat.next_list s) = []).
  { unfold Chat.deref. cbn. rewrite lookup_insert_eq. reflexivity. }
  split; [|split; [|split]].
  - exists th. rewrite L, D, D1. auto.
  - intros l Hl. rewrite U by exact Hl. unfold Chat.deref. cbn.
    rewrite lookup_insert_ne by congruence. reflexivity.
  - intros tid Hne. rewrite O by exact Hne. unfold Chat.get_chat_thread. cbn.
    rewrite lookup_insert_ne by congruence. reflexivity.
  - intros tid r H. unfold Chat.add_investigation_to_thread. rewrite H. reflexivity.
Qed.

(** X25: create_chat_thread keeps the caller's list object when it is non-empty, so later additions to the thread appear in the caller's list and in every other thread created from it; an empty list is replaced by a new one, which the caller's list does not see. *)
Theorem create_chat_thread_list_sharing (s : Chat.store R) (l : nat) (thread_id other : string)
    (now now' : Z) (x : R) :
  (l < Chat.next_list s)%nat -> other <> thread_id ->
  let s1 := snd (Chat.create_chat_thread thread_id now (Some l) s) in
  let s2 := Chat.add_investigation_to_thread thread_id x now' s1 in
  fst (Chat.create_chat_thread thread_id now (Some l) s) = thread_id
  /\ (Chat.deref s l <> [] ->
      Chat.deref s2 l = Chat.deref s l ++ [x]
      /\ (let s1' := snd (Chat.create_chat_thread other now (Some l) s1) in
          let s2' := Chat.add_investigation_to_thread thread_id x now' s1' in
          exists th, Chat.get_chat_thread other s2' = Some th
            /\ Chat.deref s2' (Chat.cs_investigation_results th) = Chat.deref s l ++ [x]))
  /\ (Chat.deref s l = [] ->
      Chat.deref s2 l = []
      /\ exists th, Chat.get_chat_thread thread_id s2 = Some th
         /\ Chat.cs_investigation_results th <> l
         /\ Chat.deref s2 (Chat.cs_investigation_results th) = [x]).
Proof.
  intros Hl Hne. cbn zeta. split; [unfold Chat.create_chat_thread; destruct (Chat.deref s l); reflexivity|].
  split.
  - intros Hx. destruct (Chat.deref s l) as [|y ys] eqn:E; [contradiction|].
    set (s1 := snd (Chat.create_chat_thread thread_id now (Some l) s)).
    assert (G1 : Chat.get_chat_thread thread_id s1 = Some (Chat.mk_chat thread_id l [] now now)).
    { unfold s1, Chat.create_chat_thread. rewrite E. apply lookup_insert_eq. }
    assert (D1 : forall k, Chat.deref s1 k = Chat.deref s k).
    { intros k. unfold s1, Chat.create_chat_thread. rewrite E. reflexivity. }
    split.
    + destruct (chat_add_existing s1 thread_id _ x now' G1) as (D & _).
      rewrite D. cbn. rewrite decide_True by reflexivity. rewrite D1, E. reflexivity.
    + set (s1' := snd (Chat.create_chat_thread other now (Some l) s1)).
      assert (G1' : Chat.get_chat_thread thread_id s1' = Some (Chat.mk_chat thread_id l [] now now)).
      { unfold s1', Chat.create_chat_thread. rewrite D1, E. unfold Chat.get_chat_thread. cbn.
        rewrite lookup_insert_ne by congruence. exact G1. }
      assert (G2 : Chat.get_chat_thread other s1' = Some (Chat.mk_chat other l [] now now)).
      { unfold s1', Chat.create_chat_thread. rewrite D1, E. apply lookup_insert_eq. }
      destruct (chat_add_existing s1' thread_id _ x now' G1') as (D & _ & O & _).
      exists (Chat.mk_chat other l [] now now). split.
      * rewrite O by exact Hne. exact G2.
      * cbn. rewrite D. cbn. rewrite decide_True by reflexivity.
        unfold s1', Chat.create_chat_thread. rewrite D1, E. cbn. transitivity (Chat.deref s1 l ++ [x]); [reflexivity|]. rewrite D1, E. reflexivity.
  - intros Hx.
    set (s1 := snd (Chat.create_chat_thread thread_id now (Some l) s)).
    assert (G1 : Chat.get_chat_thread thread_id s1
                 = Some (Chat.mk_chat thread_id (Chat.next_list s) [] now now)).
    { unfold s1, Chat.create_chat_thread. rewrite Hx. apply lookup_insert_eq. }
    destruct (chat_add_existing s1 thread_id _ x now' G1) as (D & G & _).
    assert (Hn : Chat.next_list s <> l) by lia.
    split.
    + rewrite D. cbn. rewrite decide_False by exact Hn.
      unfold s1, Chat.create_chat_thread. rewrite Hx. unfold Chat.deref. cbn.
      rewrite lookup_insert_ne by exact Hn. exact Hx.
    + eexists. split; [exact G|]. cbn. split; [exact Hn|].
      rewrite D. rewrite decide_True by reflexivity.
      unfold s1, Chat.create_chat_thread. rewrite Hx. unfold Chat.deref. cbn.
      rewrite lookup_insert_eq. reflexivity.
Qed.

End ChatProofs.

Lemma create_chat_thread_list_sharing_witness :
  Chat.deref (Chat.add_investigation_to_thread "t1"%string 7%nat 1
                (snd (Chat.create_chat_thread "t1"%string 0 (Some 0%nat)
                        (Chat.mk_store {[0%nat := [5%nat]]} 1 ∅)))) 0%nat = [5%nat; 7%nat].
Proof.
  destruct (create_chat_thread_list_sharing (Chat.mk_store {[0%nat := [5%nat]]} 1 ∅) 0
              "t1"%string "t2"%string 0 1 7%nat) as (_ & H & _); [apply Nat.ltb_lt; reflexivity|discriminate|].
  apply H. intros E. vm_compute in E. discriminate E.
Defined.
